(** * libwifi_system/wifi.cpp: the supplicant control-channel client

    A shallow embedding of the control-channel part of [wifi.cpp]:
    the string and memory primitives the file calls ([strncmp], [strchr],
    [memmove], [snprintf]), the event-message rewrite at the end of
    [wifi_wait_on_socket], the blocking receive [wifi_ctrl_recv], the
    connector, the command executor, the supplicant start-up poll, and
    the provisioning of the configuration and entropy files.

    C buffers are lists of characters whose length is the capacity of the
    buffer; an access outside the buffer is a [fault].  [size_t] values are
    integers modulo [2^64], [int] values are integers in the signed 32-bit
    range. *)

From Stdlib Require Import Ascii String.
From Stdlib Require Import List ZArith Lia Bool Arith Permutation.
Import ListNotations.

(** ** Memory accesses that may leave the buffer *)

Inductive fault : Type :=
| OutOfBounds (index : nat).

Definition mem (A : Type) : Type := (fault + A)%type.

Definition ok {A : Type} (a : A) : mem A := inr a.
Definition oob {A : Type} (i : nat) : mem A := inl (OutOfBounds i).

Definition bind {A B : Type} (m : mem A) (k : A -> mem B) : mem B :=
  match m with
  | inl f => inl f
  | inr a => k a
  end.

Notation "x <- m ;; k" := (bind m (fun x => k))
  (at level 61, m at next level, right associativity).

(** ** Characters and literals *)

Definition NUL : ascii := "000"%char.
Definition SPACE : ascii := " "%char.
Definition LT : ascii := "<"%char.
Definition GT : ascii := ">"%char.

Definition chars (s : string) : list ascii := list_ascii_of_string s.

(** ** Integer types *)

Definition SIZE_MOD : Z := 2 ^ 64.
Definition INT_MAX : Z := 2 ^ 31 - 1.

(** [size_t] subtraction and addition wrap modulo [2^64]. *)
Definition size_sub (a b : Z) : Z := ((a - b) mod SIZE_MOD)%Z.
Definition size_add (a b : Z) : Z := ((a + b) mod SIZE_MOD)%Z.

(** The conversion of a [size_t] to the [int] the function returns. *)
Definition int_of_size_t (n : Z) : Z :=
  let r := (n mod 2 ^ 32)%Z in
  if (r <=? INT_MAX)%Z then r else (r - 2 ^ 32)%Z.

(** ** The C library calls of the file *)

(** [buf[i]] *)
Definition load (buf : list ascii) (i : nat) : mem ascii :=
  match nth_error buf i with
  | Some c => ok c
  | None => oob i
  end.

(** [buf[i] = c] *)
Definition store (buf : list ascii) (i : nat) (c : ascii) : mem (list ascii) :=
  if i <? length buf then ok (firstn i buf ++ c :: skipn (S i) buf)
  else oob i.

(** [strncmp(s1, lit, n) == 0], where [s1] is the part of the buffer that
    starts at index [base] and [lit] is a string literal (its terminator is
    the [NUL] read once the literal is exhausted). *)
Fixpoint strncmp_eq (s1 : list ascii) (base : nat) (lit : list ascii) (n : nat)
  {struct n} : mem bool :=
  match n with
  | O => ok true
  | S n' =>
      match s1 with
      | [] => oob base
      | c1 :: s1' =>
          let c2 := hd NUL lit in
          if Ascii.eqb c1 c2
          then if Ascii.eqb c1 NUL then ok true
               else strncmp_eq s1' (S base) (tl lit) n'
          else ok false
      end
  end.

(** The scan of [strchr]: [s] is the part of the buffer from index [base]
    on.  The scan stops at the first [c] (found) or at the first [NUL]
    (not found); leaving the buffer before either is a fault. *)
Fixpoint strchr_scan (s : list ascii) (base : nat) (c : ascii)
  : mem (option nat) :=
  match s with
  | [] => oob base
  | x :: s' =>
      if Ascii.eqb x c then ok (Some base)
      else if Ascii.eqb x NUL then ok None
      else strchr_scan s' (S base) c
  end.

(** [strchr(buf + start, c)], the result as an index into [buf]. *)
Definition strchr (buf : list ascii) (start : nat) (c : ascii)
  : mem (option nat) :=
  if start <=? length buf then strchr_scan (skipn start buf) start c
  else oob start.

(** [memmove(buf + dst, buf + src, n)]: both ranges must lie in the buffer. *)
Definition memmove (buf : list ascii) (dst src n : nat) : mem (list ascii) :=
  if n =? 0 then ok buf
  else if length buf <? src + n then oob (length buf)
  else if length buf <? dst + n then oob (length buf)
  else ok (firstn dst buf ++ firstn n (skipn src buf) ++ skipn (dst + n) buf).

(** [snprintf(buf, buflen, "%s", s)] for an already formatted [s]: at most
    [buflen - 1] characters and a terminator are written, the length of
    [s] is returned. *)
Definition snprintf (buf : list ascii) (s : list ascii) : list ascii * Z :=
  let buflen := length buf in
  let w := firstn (buflen - 1) s in
  (match buflen with
   | O => buf
   | S _ => w ++ NUL :: skipn (S (length w)) buf
   end,
   Z.of_nat (length s)).

(** ** Constants of the file *)

Definition IFNAME : list ascii := chars "IFNAME=".
Definition IFNAMELEN : nat := length IFNAME.
Definition WPA_EVENT_IGNORE : list ascii := chars "CTRL-EVENT-IGNORE ".
Definition WPA_EVENT_TERMINATING : list ascii := chars "CTRL-EVENT-TERMINATING ".

(** ** The rewrite of a received event (the end of [wifi_wait_on_socket])

    [buf] holds [nread] received bytes followed by the terminator written
    at [buf[nread]].  The result is the buffer and the returned [int]. *)

Definition normalize (buf : list ascii) (nread : Z) : mem (list ascii * Z) :=
  is_ifname <- strncmp_eq buf 0 IFNAME IFNAMELEN ;;
  if is_ifname : bool then
    m <- strchr buf 0 SPACE ;;
    match m with
    | Some p =>
        c <- load buf (p + 1) ;;
        if Ascii.eqb c LT then
          m2 <- strchr buf (p + 2) GT ;;
          match m2 with
          | Some q =>
              let nread' := size_sub nread (Z.of_nat q - Z.of_nat p) in
              let count := size_add (size_sub nread' (Z.of_nat p)) 1 in
              buf' <- memmove buf (p + 1) (q + 1) (Z.to_nat count) ;;
              ok (buf', int_of_size_t nread')
          | None => ok (buf, int_of_size_t nread)
          end
        else ok (buf, int_of_size_t nread)
    | None => ok (snprintf buf WPA_EVENT_IGNORE)
    end
  else
    c0 <- load buf 0 ;;
    if Ascii.eqb c0 LT then
      m <- strchr buf 0 GT ;;
      match m with
      | Some q =>
          let nread' := size_sub nread (Z.of_nat q + 1 - 0) in
          buf' <- memmove buf 0 (q + 1) (Z.to_nat (size_add nread' 1)) ;;
          ok (buf', int_of_size_t nread')
      | None => ok (buf, int_of_size_t nread)
      end
    else ok (buf, int_of_size_t nread).

(** A received message [msg] in a buffer: the message, the terminator the
    wait writes behind it, and whatever the buffer held after that. *)
Definition in_buffer (msg tail : list ascii) : list ascii := msg ++ NUL :: tail.

(** The rewrite of a message that was received whole. *)
Definition run_normalize (msg tail : list ascii) : mem (list ascii * Z) :=
  normalize (in_buffer msg tail) (Z.of_nat (length msg)).

(** ** Files: [ensure_config_file_exists], [ensure_entropy_file_exists]

    The file system is seen through the calls made to it, in order, and
    through what each of them answers.  [TEMP_FAILURE_RETRY] repeats a
    call that a signal interrupted; an answer below is that of the
    attempt that was not interrupted. *)

(** Values of [<errno.h>], [<unistd.h>], [<fcntl.h>], [<sys/stat.h>] and
    [private/android_filesystem_config.h] on Android. *)
Definition EACCES : Z := 13.
Definition ENOENT : Z := 2.
Definition R_OK : Z := 4.
Definition W_OK : Z := 2.
Definition O_RDONLY : Z := 0.
Definition O_RDWR : Z := 2.
Definition O_CREAT : Z := 64.
Definition S_IRUSR : Z := 256.
Definition S_IWUSR : Z := 128.
Definition S_IRGRP : Z := 32.
Definition S_IWGRP : Z := 16.
Definition AID_SYSTEM : Z := 1000.
Definition AID_WIFI : Z := 1010.

(** [0660] *)
Definition MODE_RW_RW : Z := 432.

Definition SUPP_CONFIG_TEMPLATE : string := "/system/etc/wifi/wpa_supplicant.conf".
Definition SUPP_CONFIG_FILE : string := "/data/misc/wifi/wpa_supplicant.conf".
Definition P2P_CONFIG_FILE : string := "/data/misc/wifi/p2p_supplicant.conf".
Definition kWiFiEntropyFile : string := "/data/misc/wifi/entropy.bin".

Definition dummy_key : list ascii :=
  map ascii_of_nat
    [2; 17; 190; 51; 67; 53; 104; 71; 132; 153; 169; 43; 28; 211; 238; 255;
     241; 226; 243; 244; 245].

Inductive fs_call : Type :=
| FsAccess (path : string) (mode : Z)
| FsChmod (path : string) (mode : Z)
| FsChown (path : string) (owner group : Z)
| FsOpen (path : string) (flags mode fd : Z)
| FsRead (fd : Z) (count : nat)
| FsWrite (fd : Z) (data : list ascii)
| FsClose (fd : Z)
| FsUnlink (path : string).

(** [access]: success, or failure with [errno]. *)
Inductive access_outcome : Type :=
| Accessible
| Inaccessible (errno : Z).

(** [read]: the bytes read (none at the end of the file), or an error. *)
Inductive read_outcome : Type :=
| ReadChunk (data : list ascii)
| ReadError.

(** What the file system answers during one call: to [access], to the
    [chmod] that follows a refused access, to the [open] of the template
    and of the file (a descriptor, negative on failure), to each [read] of
    the template in turn (the end of the file once they are used up), to
    the [k]-th [write] (the number of bytes taken, -1 on error), and to
    the final [chmod] and [chown]. *)
Record file_world : Type := mkFileWorld {
  fw_access : access_outcome;
  fw_chmod_rw : Z;
  fw_open_template : Z;
  fw_open_file : Z;
  fw_reads : list read_outcome;
  fw_write : nat -> Z;
  fw_chmod : Z;
  fw_chown : Z
}.

(** The result, the calls made, and the bytes that reached the file. *)
Record provision : Type := mkProvision {
  pv_ret : Z;
  pv_calls : list fs_call;
  pv_written : list ascii
}.

(** The copy loop of [ensure_config_file_exists]: [true] when the end of
    the template was reached, [false] on a read error.  What [write]
    returns is not looked at. *)
Fixpoint copy_template (reads : list read_outcome) (write : nat -> Z) (k : nat)
  (srcfd destfd : Z) (calls : list fs_call) (written : list ascii)
  : bool * list fs_call * list ascii :=
  let calls := calls ++ [FsRead srcfd 2048] in
  match reads with
  | [] => (true, calls, written)
  | ReadError :: _ => (false, calls, written)
  | ReadChunk data :: reads' =>
      match firstn 2048 data with
      | [] => (true, calls, written)
      | c :: chunk =>
          copy_template reads' write (S k) srcfd destfd
            (calls ++ [FsWrite destfd (c :: chunk)])
            (written ++ firstn (Z.to_nat (write k)) (c :: chunk))
      end
  end.

Definition ensure_config_file_exists (w : file_world) (config_file : string)
  : provision :=
  let calls := [FsAccess config_file (Z.lor R_OK W_OK)] in
  match fw_access w with
  | Accessible => mkProvision 0 calls []
  | Inaccessible errno =>
      if (errno =? EACCES)%Z then
        let calls :=
          calls ++ [FsChmod config_file
                      (Z.lor (Z.lor (Z.lor S_IRUSR S_IWUSR) S_IRGRP) S_IWGRP)] in
        if negb (fw_chmod_rw w =? 0)%Z then mkProvision (-1) calls []
        else mkProvision 0 calls []
      else if negb (errno =? ENOENT)%Z then mkProvision (-1) calls []
      else
        let srcfd := fw_open_template w in
        let calls := calls ++ [FsOpen SUPP_CONFIG_TEMPLATE O_RDONLY 0 srcfd] in
        if (srcfd <? 0)%Z then mkProvision (-1) calls []
        else
          let destfd := fw_open_file w in
          let calls :=
            calls ++ [FsOpen config_file (Z.lor O_CREAT O_RDWR) MODE_RW_RW
                        destfd] in
          if (destfd <? 0)%Z
          then mkProvision (-1) (calls ++ [FsClose srcfd]) []
          else
            let '(copied, calls, written) :=
              copy_template (fw_reads w) (fw_write w) 0 srcfd destfd calls [] in
            if copied : bool then
              let calls := calls ++ [FsClose destfd; FsClose srcfd] in
              let calls := calls ++ [FsChmod config_file MODE_RW_RW] in
              if (fw_chmod w <? 0)%Z
              then mkProvision (-1) (calls ++ [FsUnlink config_file]) written
              else
                let calls :=
                  calls ++ [FsChown config_file AID_SYSTEM AID_WIFI] in
                if (fw_chown w <? 0)%Z
                then mkProvision (-1) (calls ++ [FsUnlink config_file]) written
                else mkProvision 0 calls written
            else
              mkProvision (-1)
                (calls ++ [FsClose srcfd; FsClose destfd;
                           FsUnlink config_file])
                written
  end.

Definition ensure_entropy_file_exists (w : file_world) : provision :=
  let calls := [FsAccess kWiFiEntropyFile (Z.lor R_OK W_OK)] in
  match fw_access w with
  | Accessible => mkProvision 0 calls []
  | Inaccessible errno =>
      if (errno =? EACCES)%Z then
        let calls :=
          calls ++ [FsChmod kWiFiEntropyFile
                      (Z.lor (Z.lor (Z.lor S_IRUSR S_IWUSR) S_IRGRP) S_IWGRP)] in
        if negb (fw_chmod_rw w =? 0)%Z then mkProvision (-1) calls []
        else mkProvision 0 calls []
      else
        let destfd := fw_open_file w in
        let calls :=
          calls ++ [FsOpen kWiFiEntropyFile (Z.lor O_CREAT O_RDWR)
                      MODE_RW_RW destfd] in
        if (destfd <? 0)%Z then mkProvision (-1) calls []
        else
          let calls := calls ++ [FsWrite destfd dummy_key] in
          let written := firstn (Z.to_nat (fw_write w 0)) dummy_key in
          if negb (fw_write w 0 =? Z.of_nat (length dummy_key))%Z
          then mkProvision (-1) (calls ++ [FsClose destfd]) written
          else
            let calls := calls ++ [FsClose destfd] in
            let calls := calls ++ [FsChmod kWiFiEntropyFile MODE_RW_RW] in
            if (fw_chmod w <? 0)%Z
            then mkProvision (-1) (calls ++ [FsUnlink kWiFiEntropyFile]) written
            else
              let calls :=
                calls ++ [FsChown kWiFiEntropyFile AID_SYSTEM AID_WIFI] in
              if (fw_chown w <? 0)%Z
              then mkProvision (-1) (calls ++ [FsUnlink kWiFiEntropyFile])
                     written
              else mkProvision 0 calls written
  end.

(** ** The process state

    The file-level variables of [wifi.cpp] together with what the process
    holds outside of them: the control connections it has opened and not
    closed, its open descriptors, the bytes written into the exit socket
    pair and not read, and the calls made to the outside in order. *)

Definition handle : Type := nat.

Inductive action : Type :=
| PropertySet (key value : string)
| SchedYield
| Usleep (usec : Z)
| WpaCtrlCleanup
| WpaCtrlOpen (path : string) (result : option handle)
| WpaCtrlClose (h : handle)
| WpaCtrlAttach (h : handle) (result : Z)
| WpaCtrlRequest (h : handle) (cmd : string)
| WpaCtrlRecv (h : handle)
| SocketPair (result : option (Z * Z))
| SysWrite (fd : Z) (data : list ascii)
| SysClose (fd : Z)
| SysPoll (timeout_ms : Z)
| FileSystem (call : fs_call).

Record state : Type := mkState {
  exit_sockets : Z * Z;
  ctrl_conn : option handle;
  monitor_conn : option handle;
  primary_iface : list ascii;
  open_handles : list handle;
  open_fds : list Z;
  exit_pending : list ascii;
  trace : list action
}.

Definition log (a : action) (st : state) : state :=
  mkState (exit_sockets st) (ctrl_conn st) (monitor_conn st) (primary_iface st)
          (open_handles st) (open_fds st) (exit_pending st) (trace st ++ [a]).

Definition set_exit_sockets (v : Z * Z) (st : state) : state :=
  mkState v (ctrl_conn st) (monitor_conn st) (primary_iface st)
          (open_handles st) (open_fds st) (exit_pending st) (trace st).

Definition set_ctrl_conn (v : option handle) (st : state) : state :=
  mkState (exit_sockets st) v (monitor_conn st) (primary_iface st)
          (open_handles st) (open_fds st) (exit_pending st) (trace st).

Definition set_monitor_conn (v : option handle) (st : state) : state :=
  mkState (exit_sockets st) (ctrl_conn st) v (primary_iface st)
          (open_handles st) (open_fds st) (exit_pending st) (trace st).

Definition set_primary_iface (v : list ascii) (st : state) : state :=
  mkState (exit_sockets st) (ctrl_conn st) (monitor_conn st) v
          (open_handles st) (open_fds st) (exit_pending st) (trace st).

Definition set_open_handles (v : list handle) (st : state) : state :=
  mkState (exit_sockets st) (ctrl_conn st) (monitor_conn st) (primary_iface st)
          v (open_fds st) (exit_pending st) (trace st).

Definition set_open_fds (v : list Z) (st : state) : state :=
  mkState (exit_sockets st) (ctrl_conn st) (monitor_conn st) (primary_iface st)
          (open_handles st) v (exit_pending st) (trace st).

Definition set_exit_pending (v : list ascii) (st : state) : state :=
  mkState (exit_sockets st) (ctrl_conn st) (monitor_conn st) (primary_iface st)
          (open_handles st) (open_fds st) v (trace st).

(** Removal of the first occurrence. *)
Fixpoint release_handle (h : handle) (l : list handle) : list handle :=
  match l with
  | [] => []
  | x :: l' => if Nat.eqb x h then l' else x :: release_handle h l'
  end.

Fixpoint release_fd (fd : Z) (l : list Z) : list Z :=
  match l with
  | [] => []
  | x :: l' => if Z.eqb x fd then l' else x :: release_fd fd l'
  end.

(** ** The transport and the system calls, as seen by the process *)

(** [wpa_ctrl_open]: [result] is what the library answers. *)
Definition wpa_ctrl_open (path : string) (result : option handle) (st : state)
  : option handle * state :=
  let st := log (WpaCtrlOpen path result) st in
  match result with
  | Some h => (Some h, set_open_handles (h :: open_handles st) st)
  | None => (None, st)
  end.

Definition wpa_ctrl_close (h : handle) (st : state) : state :=
  let st := log (WpaCtrlClose h) st in
  set_open_handles (release_handle h (open_handles st)) st.

Definition wpa_ctrl_attach (h : handle) (result : Z) (st : state) : Z * state :=
  (result, log (WpaCtrlAttach h result) st).

(** [socketpair]: a new pair starts with nothing in flight. *)
Definition socketpair (result : option (Z * Z)) (st : state) : Z * state :=
  let st := log (SocketPair result) st in
  match result with
  | Some (a, b) =>
      (0%Z, set_exit_pending []
              (set_open_fds (a :: b :: open_fds st)
                 (set_exit_sockets (a, b) st)))
  | None => ((-1)%Z, st)
  end.

(** [close]: closing the reading end drops what was in flight. *)
Definition sys_close (fd : Z) (st : state) : state :=
  let st := log (SysClose fd) st in
  let st := set_open_fds (release_fd fd (open_fds st)) st in
  if Z.eqb fd (snd (exit_sockets st)) then set_exit_pending [] st else st.

(** [write] on the first socket of the pair: the bytes join those in
    flight when the descriptor is open, nothing is sent otherwise. *)
Definition sys_write (fd : Z) (data : list ascii) (st : state) : state :=
  let st := log (SysWrite fd data) st in
  if existsb (Z.eqb fd) (open_fds st)
  then set_exit_pending (exit_pending st ++ data) st
  else st.

(** A call to the file system, as the process holds descriptors:
    [open] adds the descriptor it returns to those of the process, [close]
    gives one back.  The descriptor of a file is none of the exit pair,
    whose bytes in flight are left alone. *)
Definition file_system (c : fs_call) (st : state) : state :=
  let st := log (FileSystem c) st in
  match c with
  | FsOpen _ _ _ fd =>
      if (fd <? 0)%Z then st else set_open_fds (fd :: open_fds st) st
  | FsClose fd => set_open_fds (release_fd fd (open_fds st)) st
  | _ => st
  end.

(** The calls of a provisioning function, made in order. *)
Definition file_calls (calls : list fs_call) (st : state) : state :=
  fold_left (fun st c => file_system c st) calls st.

(** What a request or a receive on a control connection does. *)
Inductive transport_outcome : Type :=
| Delivered (data : list ascii)
| Failed (ret : Z).

(** The library stores at most [*reply_len] bytes at the start of the
    reply buffer and sets [*reply_len] to their number; on failure it
    touches neither. *)
Definition transport_fill (t : transport_outcome) (reply : list ascii)
  (reply_len : Z) : mem (Z * list ascii * Z) :=
  match t with
  | Failed ret => ok (ret, reply, reply_len)
  | Delivered data =>
      let d := firstn (Z.to_nat reply_len) data in
      if length d <=? length reply
      then ok (0%Z, d ++ skipn (length d) reply, Z.of_nat (length d))
      else oob (length reply)
  end.

(** ** System properties *)

Record property : Type := mkProperty {
  prop_found : bool;
  prop_serial : Z;
  prop_value : string
}.

(** [property_get(key, value, default)]: the length and the value; an
    absent or empty property gives the default ([NULL] is [""]). *)
Definition property_get (p : property) (default : string) : Z * string :=
  let v := if prop_found p then prop_value p else EmptyString in
  if String.length v =? 0
  then (Z.of_nat (String.length default), default)
  else (Z.of_nat (String.length v), v).

(** [strcmp(a, b) == 0] *)
Definition strcmp_eq (a b : string) : bool := String.eqb a b.

Definition SUPPLICANT_SERVICE_NAME : string := "wpa_supplicant".
Definition WIFI_TEST_INTERFACE : string := "sta".

(** ** [wifi_close_sockets] *)

Definition wifi_close_sockets (st : state) : state :=
  let st :=
    match ctrl_conn st with
    | Some h => set_ctrl_conn None (wpa_ctrl_close h st)
    | None => st
    end in
  let st :=
    match monitor_conn st with
    | Some h => set_monitor_conn None (wpa_ctrl_close h st)
    | None => st
    end in
  let st :=
    if (fst (exit_sockets st) >=? 0)%Z
    then set_exit_sockets ((-1)%Z, snd (exit_sockets st))
           (sys_close (fst (exit_sockets st)) st)
    else st in
  if (snd (exit_sockets st) >=? 0)%Z
  then set_exit_sockets (fst (exit_sockets st), (-1)%Z)
         (sys_close (snd (exit_sockets st)) st)
  else st.

(** ** [wifi_start_supplicant] *)

(** What the outside answers during one call: the status property when
    the call begins, the file system while the main configuration file,
    the P2P configuration file and the entropy file are provided for, the
    status property when the reference to it is taken, the
    [wifi.interface] property, and the status property at each pass of
    the wait loop. *)
Record start_world : Type := mkStartWorld {
  sw_status_at_entry : property;
  sw_config_files : file_world;
  sw_p2p_files : file_world;
  sw_entropy_files : file_world;
  sw_status_before_start : property;
  sw_wifi_interface : property;
  sw_status_at_pass : nat -> property
}.

(** What [ensure_config_file_exists(SUPP_CONFIG_FILE)] returns. *)
Definition sw_config_file (w : start_world) : Z :=
  pv_ret (ensure_config_file_exists (sw_config_files w) SUPP_CONFIG_FILE).

(** The wait loop ([while (count-- > 0)]): [count] passes are left, [k]
    have been made, [pi] tells whether the reference to the property has
    been found ([pi != NULL]). *)
Fixpoint start_wait (w : start_world) (serial : Z) (pi : bool)
  (count k : nat) (st : state) : Z * state :=
  match count with
  | O => ((-1)%Z, st)
  | S count' =>
      let p := sw_status_at_pass w k in
      let pi := if pi then true else prop_found p in
      let sleep := log (Usleep 100000) st in
      if pi then
        if negb (prop_serial p =? serial)%Z then
          if strcmp_eq (prop_value p) "running" then (0%Z, st)
          else if strcmp_eq (prop_value p) "stopped" then ((-1)%Z, st)
          else start_wait w serial pi count' (S k) sleep
        else start_wait w serial pi count' (S k) sleep
      else start_wait w serial pi count' (S k) sleep
  end.

(** The result of providing the P2P configuration file is dropped and
    that of the entropy file only logged. *)
Definition wifi_start_supplicant (w : start_world) (st : state) : Z * state :=
  let '(len, supp_status) := property_get (sw_status_at_entry w) EmptyString in
  if negb (len =? 0)%Z && strcmp_eq supp_status "running" then (0%Z, st)
  else
    let conf := ensure_config_file_exists (sw_config_files w) SUPP_CONFIG_FILE in
    let st := file_calls (pv_calls conf) st in
    if (pv_ret conf <? 0)%Z then ((-1)%Z, st)
    else
      let p2p := ensure_config_file_exists (sw_p2p_files w) P2P_CONFIG_FILE in
      let st := file_calls (pv_calls p2p) st in
      let entropy := ensure_entropy_file_exists (sw_entropy_files w) in
      let st := file_calls (pv_calls entropy) st in
      let st := log WpaCtrlCleanup st in
      let st := set_exit_sockets ((-1)%Z, (-1)%Z) st in
      let pi := prop_found (sw_status_before_start w) in
      let serial := if pi then prop_serial (sw_status_before_start w) else 0%Z in
      let st :=
        set_primary_iface
          (chars (snd (property_get (sw_wifi_interface w) WIFI_TEST_INTERFACE)))
          st in
      let st := log (PropertySet "ctl.start" SUPPLICANT_SERVICE_NAME) st in
      let st := log SchedYield st in
      start_wait w serial pi 200 0 st.

(** ** [wifi_connect_on_socket_path] *)

Record connect_world : Type := mkConnectWorld {
  cw_status : property;
  cw_open_ctrl : option handle;
  cw_open_monitor : option handle;
  cw_attach : Z;
  cw_socketpair : option (Z * Z)
}.

Definition wifi_connect_on_socket_path (w : connect_world) (path : string)
  (st : state) : Z * state :=
  let '(len, supp_status) := property_get (cw_status w) EmptyString in
  if (len =? 0)%Z || negb (strcmp_eq supp_status "running") then ((-1)%Z, st)
  else
    let '(c, st) := wpa_ctrl_open path (cw_open_ctrl w) st in
    let st := set_ctrl_conn c st in
    match c with
    | None => ((-1)%Z, st)
    | Some ctrl =>
        let '(m, st) := wpa_ctrl_open path (cw_open_monitor w) st in
        let st := set_monitor_conn m st in
        match m with
        | None =>
            let st := wpa_ctrl_close ctrl st in
            ((-1)%Z, set_ctrl_conn None st)
        | Some mon =>
            let '(att, st) := wpa_ctrl_attach mon (cw_attach w) st in
            if negb (att =? 0)%Z then
              let st := wpa_ctrl_close mon st in
              let st := wpa_ctrl_close ctrl st in
              ((-1)%Z, set_ctrl_conn None (set_monitor_conn None st))
            else
              let '(sp, st) := socketpair (cw_socketpair w) st in
              if (sp =? -1)%Z then
                let st := wpa_ctrl_close mon st in
                let st := wpa_ctrl_close ctrl st in
                ((-1)%Z, set_ctrl_conn None (set_monitor_conn None st))
              else (0%Z, st)
        end
    end.

(** ** [wifi_connect_to_supplicant] *)

Definition IFACE_DIR : string := "/data/system/wpa_supplicant".

(** [iface_dir_exists] is [access(IFACE_DIR, F_OK) == 0]. *)
Definition wifi_connect_to_supplicant (iface_dir_exists : bool)
  (w : connect_world) (st : state) : Z * state :=
  let iface := string_of_list_ascii (primary_iface st) in
  let path :=
    if iface_dir_exists then (IFACE_DIR ++ "/" ++ iface)%string
    else ("@android:wpa_" ++ iface)%string in
  wifi_connect_on_socket_path w path st.

(** ** [wifi_send_command] *)

Record reply_state : Type := mkReply {
  rp_ret : Z;
  rp_reply : list ascii;
  rp_reply_len : Z;
  rp_state : state
}.

Definition wifi_send_command (t : transport_outcome) (cmd : string)
  (reply : list ascii) (reply_len : Z) (st : state) : mem reply_state :=
  match ctrl_conn st with
  | None => ok (mkReply (-1) reply reply_len st)
  | Some ctrl =>
      let st := log (WpaCtrlRequest ctrl cmd) st in
      r <- transport_fill t reply reply_len ;;
      let '(ret, reply, reply_len) := r in
      if (ret =? -2)%Z then
        let st := sys_write (fst (exit_sockets st)) (chars "T") st in
        ok (mkReply (-2) reply reply_len st)
      else
        failed <- (if (ret <? 0)%Z then ok true
                   else strncmp_eq reply 0 (chars "FAIL") 4) ;;
        if failed : bool then ok (mkReply (-1) reply reply_len st)
        else
          ping <- strncmp_eq (chars cmd ++ [NUL]) 0 (chars "PING") 4 ;;
          if ping : bool then
            reply <- store reply (Z.to_nat reply_len) NUL ;;
            ok (mkReply 0 reply reply_len st)
          else ok (mkReply 0 reply reply_len st)
  end.

Definition wifi_command := wifi_send_command.

(** ** [wifi_supplicant_connection_active] *)

Definition wifi_supplicant_connection_active (status : property) : Z :=
  let '(len, supp_status) := property_get status EmptyString in
  if negb (len =? 0)%Z && strcmp_eq supp_status "stopped" then (-1)%Z else 0%Z.

(** ** [wifi_ctrl_recv] *)

(** Values of [<poll.h>]. *)
Definition POLLIN : Z := 1.
Definition POLLHUP : Z := 16.
Definition POLLNVAL : Z := 32.

(** One return of [poll]: an error, or the events of the monitor
    descriptor after at most 30 s, the bytes another thread wrote into the
    exit pair meanwhile, and the status property at that time. *)
Inductive poll_outcome : Type :=
| PollError
| PollReturn (monitor_revents : Z) (signalled : list ascii) (status : property).

Record recv_state : Type := mkRecv {
  rc_ret : Z;
  rc_reply : list ascii;
  rc_reply_len : Z;
  rc_state : state
}.

(** What [poll] reports for the exit descriptor, [exit_sockets[1]], which
    is asked for [POLLIN].  For an open descriptor: [POLLIN | POLLHUP]
    once the writing end, [exit_sockets[0]], is no longer open, [POLLIN]
    when bytes are in flight, and nothing otherwise.  For one that is not
    open: nothing when it is negative, since [poll] skips negative
    descriptors, and [POLLNVAL] otherwise. *)
Definition exit_revents (st : state) : Z :=
  let fd := snd (exit_sockets st) in
  if existsb (Z.eqb fd) (open_fds st) then
    if negb (existsb (Z.eqb (fst (exit_sockets st))) (open_fds st))
    then Z.lor POLLIN POLLHUP
    else if negb (length (exit_pending st) =? 0) then POLLIN
    else 0%Z
  else if (fd <? 0)%Z then 0%Z
  else POLLNVAL.

(** The loop runs along the returns of [poll]; [None] is a call that is
    still blocked when they are used up. *)
Fixpoint wifi_ctrl_recv (polls : list poll_outcome) (rx : transport_outcome)
  (mon : handle) (reply : list ascii) (reply_len : Z) (st : state)
  : option (mem recv_state) :=
  match polls with
  | [] => None
  | PollError :: _ =>
      Some (ok (mkRecv (-1) reply reply_len (log (SysPoll 30000) st)))
  | PollReturn revents0 signalled status :: polls' =>
      let st := log (SysPoll 30000) st in
      let st := set_exit_pending (exit_pending st ++ signalled) st in
      let revents1 := exit_revents st in
      let res := ((if (revents0 =? 0)%Z then 0 else 1) +
                  (if (revents1 =? 0)%Z then 0 else 1))%Z in
      if (res =? 0)%Z then
        if (wifi_supplicant_connection_active status <? 0)%Z
        then Some (ok (mkRecv (-2) reply reply_len st))
        else wifi_ctrl_recv polls' rx mon reply reply_len st
      else if negb (Z.land revents0 POLLIN =? 0)%Z then
        let st := log (WpaCtrlRecv mon) st in
        Some (r <- transport_fill rx reply reply_len ;;
              let '(ret, reply, reply_len) := r in
              ok (mkRecv ret reply reply_len st))
      else Some (ok (mkRecv (-2) reply reply_len st))
  end.

(** ** [wifi_wait_on_socket] *)

Definition terminal_event (iface reason : list ascii) : list ascii :=
  chars "IFNAME=" ++ iface ++ chars " " ++ WPA_EVENT_TERMINATING
    ++ chars " - " ++ reason.

Definition CONNECTION_CLOSED : list ascii := chars "connection closed".
Definition RECV_ERROR : list ascii := chars "recv error".
Definition SIGNAL_0_RECEIVED : list ascii := chars "signal 0 received".

Record wait_state : Type := mkWait {
  wt_buf : list ascii;
  wt_ret : Z;
  wt_state : state
}.

Definition synthetic (buf reason : list ascii) (st : state) : wait_state :=
  let '(buf, n) := snprintf buf (terminal_event (primary_iface st) reason) in
  mkWait buf n st.

Definition wifi_wait_on_socket (polls : list poll_outcome)
  (rx : transport_outcome) (buf : list ascii) (st : state)
  : option (mem wait_state) :=
  let nread := size_sub (Z.of_nat (length buf)) 1 in
  match monitor_conn st with
  | None => Some (ok (synthetic buf CONNECTION_CLOSED st))
  | Some mon =>
      match wifi_ctrl_recv polls rx mon buf nread st with
      | None => None
      | Some (inl f) => Some (inl f)
      | Some (inr (mkRecv result buf nread st)) =>
          if (result =? -2)%Z then
            Some (ok (synthetic buf CONNECTION_CLOSED st))
          else if (result <? 0)%Z then
            Some (ok (synthetic buf RECV_ERROR st))
          else
            Some (buf <- store buf (Z.to_nat nread) NUL ;;
                  if (result =? 0)%Z && (nread =? 0)%Z then
                    ok (synthetic buf SIGNAL_0_RECEIVED st)
                  else
                    r <- normalize buf nread ;;
                    ok (mkWait (fst r) (snd r) st))
      end
  end.

Definition wifi_wait_for_event := wifi_wait_on_socket.

(** ** [wifi_close_supplicant_connection] *)

Fixpoint close_wait (status_at_pass : nat -> property) (count k : nat)
  (st : state) : state :=
  match count with
  | O => st
  | S count' =>
      let '(len, supp_status) := property_get (status_at_pass k) EmptyString in
      if negb (len =? 0)%Z && strcmp_eq supp_status "stopped" then st
      else close_wait status_at_pass count' (S k) (log (Usleep 100000) st)
  end.

Definition wifi_close_supplicant_connection (status_at_pass : nat -> property)
  (st : state) : state :=
  close_wait status_at_pass 50 0 (wifi_close_sockets st).

(** ** [wifi_stop_supplicant] *)

Fixpoint stop_wait (status_at_pass : nat -> property) (count k : nat)
  (st : state) : Z * state :=
  match count with
  | O => ((-1)%Z, st)
  | S count' =>
      let '(len, supp_status) := property_get (status_at_pass k) EmptyString in
      if negb (len =? 0)%Z && strcmp_eq supp_status "stopped" then (0%Z, st)
      else stop_wait status_at_pass count' (S k) (log (Usleep 100000) st)
  end.

Definition wifi_stop_supplicant (status_at_entry : property)
  (status_at_pass : nat -> property) (st : state) : Z * state :=
  let '(len, supp_status) := property_get status_at_entry EmptyString in
  if negb (len =? 0)%Z && strcmp_eq supp_status "stopped" then (0%Z, st)
  else
    let st := log (PropertySet "ctl.stop" SUPPLICANT_SERVICE_NAME) st in
    let st := log SchedYield st in
    stop_wait status_at_pass 50 0 st.

(** ** Shapes of received messages *)

Definition has (c : ascii) (l : list ascii) : bool := existsb (Ascii.eqb c) l.

(** An interface name holds no space and no terminator. *)
Definition iface_name (i : list ascii) : bool :=
  negb (has SPACE i) && negb (has NUL i).

(** The text between the angle brackets of a level tag. *)
Definition level_text (n : list ascii) : bool :=
  negb (has GT n) && negb (has NUL n).

Fixpoint starts_with (lit s : list ascii) : bool :=
  match lit with
  | [] => true
  | c :: lit' =>
      match s with
      | [] => false
      | x :: s' => Ascii.eqb x c && starts_with lit' s'
      end
  end.

(** The first character of [s] is not [c]. *)
Definition not_leading (c : ascii) (s : list ascii) : bool :=
  match s with
  | [] => true
  | x :: _ => negb (Ascii.eqb x c)
  end.

(** A buffer size that an [int] can hold. *)
Definition fits_int (n : nat) : Prop := (Z.of_nat n <= INT_MAX)%Z.

(** The received text up to its first terminator, as the string
    functions see it. *)
Fixpoint cstr (l : list ascii) : list ascii :=
  match l with
  | [] => []
  | x :: l' => if Ascii.eqb x NUL then [] else x :: cstr l'
  end.

(** The message carries the prefix and no space: the ignore branch. *)
Definition unframed (msg : list ascii) : bool :=
  starts_with IFNAME (cstr msg) && negb (has SPACE (cstr msg)).

(** A closed level tag at the head of [s]: the opening bracket, and a
    closing one before the first terminator. *)
Definition tag_at_head (s : list ascii) : bool :=
  match s with
  | [] => false
  | c :: r => Ascii.eqb c LT && has GT (cstr r)
  end.

(** The bytes behind the first [c]. *)
Fixpoint behind (c : ascii) (s : list ascii) : list ascii :=
  match s with
  | [] => []
  | x :: s' => if Ascii.eqb x c then s' else behind c s'
  end.

(** A pass rewrites [s]: it has the prefix and no space, or it has a
    closed tag where the pass looks for one, behind the first space when
    it has the prefix and at its head when it has not. *)
Definition rewritable (s : list ascii) : bool :=
  if starts_with IFNAME s
  then negb (has SPACE (cstr s)) || tag_at_head (behind SPACE s)
  else tag_at_head s.

(** The shapes of received messages. *)
Inductive raw_event : Type :=
| IfaceTagged (i n rest : list ascii)
| IfaceOpen (i r : list ascii)
| IfaceUntagged (i text : list ascii)
| IfaceOnly (i : list ascii)
| BareTagged (n rest : list ascii)
| BareOpen (r : list ascii)
| Plain (text : list ascii).

Definition render (e : raw_event) : list ascii :=
  match e with
  | IfaceTagged i n rest => IFNAME ++ i ++ SPACE :: LT :: n ++ GT :: rest
  | IfaceOpen i r => IFNAME ++ i ++ SPACE :: LT :: r
  | IfaceUntagged i text => IFNAME ++ i ++ SPACE :: text
  | IfaceOnly i => IFNAME ++ i
  | BareTagged n rest => LT :: n ++ GT :: rest
  | BareOpen r => LT :: r
  | Plain text => text
  end.

(** The parts of a shape are what the shape says: an interface name
    holds no space, the text of a tag no closing bracket, an open tag is
    not closed before the terminator, untagged text does not open a tag,
    and plain text has neither prefix nor tag. *)
Definition well_formed (e : raw_event) : bool :=
  match e with
  | IfaceTagged i n rest => iface_name i && level_text n
  | IfaceOpen i r => iface_name i && negb (has GT (cstr r))
  | IfaceUntagged i text => iface_name i && not_leading LT text
  | IfaceOnly i => negb (has SPACE (cstr i))
  | BareTagged n rest => level_text n
  | BareOpen r => negb (has GT (cstr r))
  | Plain text => not_leading LT text && negb (starts_with IFNAME text)
  end.

(** What a pass leaves of the message is not rewritten by another: behind
    the prefix the text that followed the tag does not begin with a closed
    tag; without the prefix that text is not rewritable. *)
Definition settled (e : raw_event) : bool :=
  match e with
  | IfaceTagged i n rest => negb (tag_at_head rest)
  | BareTagged n rest => negb (rewritable rest)
  | _ => true
  end.

(** The one shape whose rewrite reads the byte behind the terminator. *)
Definition room (e : raw_event) (tail : list ascii) : Prop :=
  match e with
  | IfaceTagged _ _ _ => tail <> []
  | _ => True
  end.

(** A second pass over the result of the first changes nothing. *)
Definition second_pass_changes_nothing (msg tail : list ascii) : Prop :=
  match run_normalize msg tail with
  | inr (b, n) => normalize b n = ok (b, n)
  | inl _ => True
  end.

(** The returned length does not exceed the received one. *)
Definition shrinking (msg tail : list ascii) : Prop :=
  match run_normalize msg tail with
  | inr (_, n) => (n <= Z.of_nat (length msg))%Z
  | inl _ => True
  end.

(** ** Reading the start-up wait *)

(** The reference to the status property is held at pass [k]: it was
    found before the start was issued or at a pass up to [k]. *)
Definition reference_held (w : start_world) (k : nat) : bool :=
  prop_found (sw_status_before_start w)
  || existsb (fun j => prop_found (sw_status_at_pass w j)) (seq 0 k).

Definition recorded_serial (w : start_world) : Z :=
  if prop_found (sw_status_before_start w)
  then prop_serial (sw_status_before_start w) else 0%Z.

Definition serial_advanced (w : start_world) (k : nat) : bool :=
  reference_held w (S k)
  && negb (prop_serial (sw_status_at_pass w k) =? recorded_serial w)%Z.

Definition reads (w : start_world) (k : nat) (v : string) : bool :=
  strcmp_eq (prop_value (sw_status_at_pass w k)) v.

(** Pass [k] ends the wait. *)
Definition terminal_pass (w : start_world) (k : nat) : bool :=
  serial_advanced w k && (reads w k "running" || reads w k "stopped").

Definition already (p : property) (v : string) : bool :=
  negb (fst (property_get p EmptyString) =? 0)%Z
  && strcmp_eq (snd (property_get p EmptyString)) v.

(** [n] sleeps of 100 ms. *)
Fixpoint sleeps (n : nat) (st : state) : state :=
  match n with
  | O => st
  | S n' => sleeps n' (log (Usleep 100000) st)
  end.

(** The calls to the file system while the main configuration file is
    provided for, and during the whole of the provisioning. *)
Definition config_calls (w : start_world) : list fs_call :=
  pv_calls (ensure_config_file_exists (sw_config_files w) SUPP_CONFIG_FILE).

Definition provisioning_calls (w : start_world) : list fs_call :=
  config_calls w
    ++ pv_calls (ensure_config_file_exists (sw_p2p_files w) P2P_CONFIG_FILE)
    ++ pv_calls (ensure_entropy_file_exists (sw_entropy_files w)).

(** The state in which the wait loop is entered. *)
Definition start_issued (w : start_world) (st : state) : state :=
  log SchedYield
    (log (PropertySet "ctl.start" SUPPLICANT_SERVICE_NAME)
       (set_primary_iface
          (chars (snd (property_get (sw_wifi_interface w) WIFI_TEST_INTERFACE)))
          (set_exit_sockets ((-1)%Z, (-1)%Z)
             (log WpaCtrlCleanup (file_calls (provisioning_calls w) st))))).

(** The supervisor has been asked to start the daemon. *)
Definition start_requested (st : state) : Prop :=
  In (PropertySet "ctl.start" SUPPLICANT_SERVICE_NAME) (trace st).

(** A file system in which the file asked for is there; one in which
    neither the file nor the template can be had; and one in which the
    file is missing and is copied from a template of 20 bytes, through the
    descriptors 5 and 6. *)
Definition file_present : file_world :=
  mkFileWorld Accessible 0 0 0 [] (fun _ => 0%Z) 0 0.

Definition file_missing : file_world :=
  mkFileWorld (Inaccessible ENOENT) 0 (-1) (-1) [] (fun _ => (-1)%Z) (-1) (-1).

Definition file_copied : file_world :=
  mkFileWorld (Inaccessible ENOENT) 0 5 6
    [ReadChunk (chars "ctrl_interface=wlan0")] (fun _ => 20%Z) 0 0.

(** No channel, no descriptors, nothing called yet. *)
Definition disconnected : state :=
  mkState ((-1)%Z, (-1)%Z) None None [] [] [] [] [].

(** ** Reading the trace of a connect *)

Fixpoint opened (t : list action) : list handle :=
  match t with
  | [] => []
  | WpaCtrlOpen _ (Some h) :: t' => h :: opened t'
  | _ :: t' => opened t'
  end.

Fixpoint closed (t : list action) : list handle :=
  match t with
  | [] => []
  | WpaCtrlClose h :: t' => h :: closed t'
  | _ :: t' => closed t'
  end.

Definition is_socketpair (a : action) : bool :=
  match a with
  | SocketPair _ => true
  | _ => false
  end.

(** ** Reading the event wait *)

(** A return of [poll] after 30 s with nothing to read and the daemon
    not reported stopped. *)
Definition quiet_timeout (o : poll_outcome) : bool :=
  match o with
  | PollError => false
  | PollReturn revents0 signalled status =>
      (revents0 =? 0)%Z && (length signalled =? 0)
      && (wifi_supplicant_connection_active status =? 0)%Z
  end.

(** [n] returns of [poll]. *)
Fixpoint polled (n : nat) (st : state) : state :=
  match n with
  | O => st
  | S n' => polled n' (log (SysPoll 30000) st)
  end.

(** The text an event wait left in its buffer. *)
Definition event_text (r : option (mem wait_state)) : option (list ascii) :=
  match r with
  | Some (inr w) => Some (cstr (wt_buf w))
  | _ => None
  end.

(** A status property that reads [v]. *)
Definition status (v : string) : property := mkProperty true 1 v.

(** A connected channel on interface [wlan0]: control connection 1,
    monitor connection 2, exit pair on descriptors 3 and 4. *)
Definition connected_wlan0 : state :=
  mkState (3%Z, 4%Z) (Some 1) (Some 2) (chars "wlan0")
          [2; 1] [3%Z; 4%Z] [] [].

(** The byte at the head of the exit pair has been read off. *)
Definition signal_consumed (before after : state) : Prop :=
  exit_pending after = tl (exit_pending before).

(** ** Reading the calls to the file system *)

(** Descriptors obtained and descriptors given back, in order. *)
Fixpoint fs_opened (calls : list fs_call) : list Z :=
  match calls with
  | [] => []
  | FsOpen _ _ _ fd :: calls' =>
      if (fd <? 0)%Z then fs_opened calls' else fd :: fs_opened calls'
  | _ :: calls' => fs_opened calls'
  end.

Fixpoint fs_closed (calls : list fs_call) : list Z :=
  match calls with
  | [] => []
  | FsClose fd :: calls' => fd :: fs_closed calls'
  | _ :: calls' => fs_closed calls'
  end.

(** A call that creates, fills or removes a file. *)
Definition fs_changes_files (c : fs_call) : bool :=
  match c with
  | FsOpen _ flags _ _ => negb (Z.land flags O_CREAT =? 0)%Z
  | FsWrite _ _ => true
  | FsUnlink _ => true
  | _ => false
  end.

Definition is_fs_write (c : fs_call) : bool :=
  match c with
  | FsWrite _ _ => true
  | _ => false
  end.

(** The bytes handed to [write], in order. *)
Fixpoint fs_handed (calls : list fs_call) : list ascii :=
  match calls with
  | [] => []
  | FsWrite _ data :: calls' => data ++ fs_handed calls'
  | _ :: calls' => fs_handed calls'
  end.

(** The bytes of the template that the reads returned before the end of
    the file, when no read failed. *)
Fixpoint template_read (reads : list read_outcome) : option (list ascii) :=
  match reads with
  | [] => Some []
  | ReadError :: _ => None
  | ReadChunk data :: reads' =>
      match firstn 2048 data with
      | [] => Some []
      | c :: chunk =>
          match template_read reads' with
          | Some more => Some ((c :: chunk) ++ more)
          | None => None
          end
      end
  end.

(** The calls of the copy loop, which depend on the reads alone. *)
Fixpoint copy_calls (reads : list read_outcome) (srcfd destfd : Z)
  : list fs_call :=
  FsRead srcfd 2048 ::
  match reads with
  | [] => []
  | ReadError :: _ => []
  | ReadChunk data :: reads' =>
      match firstn 2048 data with
      | [] => []
      | c :: chunk =>
          FsWrite destfd (c :: chunk) :: copy_calls reads' srcfd destfd
      end
  end.

(** The descriptors held after the calls, from those held before:
    [open] adds the descriptor it returns, [close] gives one back. *)
Definition held_after (calls : list fs_call) (fds : list Z) : list Z :=
  fold_left
    (fun fds c =>
       match c with
       | FsOpen _ _ _ fd => if (fd <? 0)%Z then fds else fd :: fds
       | FsClose fd => release_fd fd fds
       | _ => fds
       end)
    calls fds.

(** The calls to the file system in a trace, in order. *)
Fixpoint file_system_calls (t : list action) : list fs_call :=
  match t with
  | [] => []
  | FileSystem c :: t' => c :: file_system_calls t'
  | _ :: t' => file_system_calls t'
  end.

(** A call on the control channel or on the exit pair. *)
Definition touches_channel (a : action) : bool :=
  match a with
  | WpaCtrlOpen _ _ | WpaCtrlClose _ | WpaCtrlAttach _ _
  | WpaCtrlRequest _ _ | WpaCtrlRecv _
  | SocketPair _ | SysWrite _ _ | SysClose _ | SysPoll _ => true
  | _ => false
  end.

(** The same file system with other answers to [write]. *)
Definition with_write (w : file_world) (write : nat -> Z) : file_world :=
  mkFileWorld (fw_access w) (fw_chmod_rw w) (fw_open_template w)
    (fw_open_file w) (fw_reads w) write (fw_chmod w) (fw_chown w).

Definition is_fs_unlink (c : fs_call) : bool :=
  match c with
  | FsUnlink _ => true
  | _ => false
  end.

(** Every [write] takes all it is handed. *)
Definition complete_writes (reads : list read_outcome) (write : nat -> Z)
  : Prop :=
  forall k data,
    nth_error reads k = Some (ReadChunk data) ->
    write k = Z.of_nat (length (firstn 2048 data)).

(** ** Reading a reply *)

(** The bytes the library replied: the first [*reply_len] bytes of the
    reply buffer. *)
Definition reply_content (reply : list ascii) (len : Z) : list ascii :=
  firstn (Z.to_nat len) reply.

(** The comparison of the reply buffer with ["FAIL"] stays inside the
    buffer: the buffer has four bytes, or departs from the marker before
    its end. *)
Definition probe_inside (reply : list ascii) : bool :=
  (4 <=? length reply) || negb (starts_with reply (chars "FAIL")).

(** ** Reading the channel *)

(** A byte in the exit pair keeps the exit descriptor readable for a
    channel with a monitor connection. *)
Definition cancel_pending (st : state) : Prop :=
  monitor_conn st <> None /\ exit_revents st = POLLIN.

(** The interface that [wifi_start_supplicant] records. *)
Definition interface_of (w : start_world) : string :=
  snd (property_get (sw_wifi_interface w) WIFI_TEST_INTERFACE).

(** The state in which the stop of the daemon starts to wait. *)
Definition stop_issued (st : state) : state :=
  log SchedYield (log (PropertySet "ctl.stop" SUPPLICANT_SERVICE_NAME) st).

(** * Properties of the primitives *)

#[local] Arguments Ascii.eqb : simpl never.

Ltac run := cbv beta iota delta [bind ok].

(** Lengths of concatenations, in a hypothesis and in the goal. *)
Ltac lengths H :=
  repeat first [rewrite length_app in H | progress cbn [length] in H];
  repeat first [rewrite length_app | progress cbn [length]].

Section Primitives.

Lemma has_false (c : ascii) (l : list ascii) : has c l = false <-> ~ In c l.
Proof.
  unfold has. induction l as [|x l IH]; simpl.
  - tauto.
  - rewrite orb_false_iff, IH, Ascii.eqb_neq. intuition congruence.
Qed.

Lemma iface_name_spec (i : list ascii) :
  iface_name i = true -> ~ In SPACE i /\ ~ In NUL i.
Proof.
  unfold iface_name. rewrite andb_true_iff, !negb_true_iff, !has_false. tauto.
Qed.

Lemma level_text_spec (n : list ascii) :
  level_text n = true -> ~ In GT n /\ ~ In NUL n.
Proof.
  unfold level_text. rewrite andb_true_iff, !negb_true_iff, !has_false. tauto.
Qed.

Lemma size_sub_exact (a b : Z) :
  (0 <= b <= a)%Z -> (a < SIZE_MOD)%Z -> size_sub a b = (a - b)%Z.
Proof. intros. unfold size_sub. apply Z.mod_small. lia. Qed.

Lemma size_add_exact (a b : Z) :
  (0 <= a)%Z -> (0 <= b)%Z -> (a + b < SIZE_MOD)%Z -> size_add a b = (a + b)%Z.
Proof. intros. unfold size_add. apply Z.mod_small. lia. Qed.

Lemma int_of_size_t_exact (n : Z) :
  (0 <= n <= INT_MAX)%Z -> int_of_size_t n = n.
Proof.
  intros H. unfold int_of_size_t, INT_MAX in *.
  rewrite Z.mod_small by lia.
  destruct (Z.leb_spec n (2 ^ 31 - 1)); lia.
Qed.

Lemma int_of_size_t_le (n : Z) : (0 <= n)%Z -> (int_of_size_t n <= n)%Z.
Proof.
  intros H. unfold int_of_size_t.
  assert (0 <= n mod 2 ^ 32 <= n)%Z.
  { split; [apply Z.mod_pos_bound; lia | apply Z.mod_le; lia]. }
  destruct (Z.leb_spec (n mod 2 ^ 32) INT_MAX); lia.
Qed.

Lemma load_at (a : list ascii) (c : ascii) (b : list ascii) :
  load (a ++ c :: b) (length a) = ok c.
Proof.
  unfold load. rewrite nth_error_app2 by lia.
  replace (length a - length a) with 0 by lia. reflexivity.
Qed.

Lemma strncmp_eq_literal (lit t tail : list ascii) (base : nat) :
  ~ In NUL lit ->
  strncmp_eq (t ++ NUL :: tail) base lit (length lit) = ok (starts_with lit t).
Proof.
  revert t base. induction lit as [|c lit IH]; intros t base Hnul.
  - simpl. reflexivity.
  - assert (Hc : c <> NUL) by (intros ->; apply Hnul; left; reflexivity).
    assert (Hl : ~ In NUL lit) by (intros H; apply Hnul; right; exact H).
    destruct t as [|x t]; simpl.
    + destruct (Ascii.eqb_spec NUL c) as [E|E]; [congruence | reflexivity].
    + destruct (Ascii.eqb_spec x c) as [E|E]; simpl.
      * subst x. destruct (Ascii.eqb_spec c NUL) as [E'|E']; [congruence|].
        apply IH. exact Hl.
      * reflexivity.
Qed.

Lemma starts_with_app (lit s : list ascii) : starts_with lit (lit ++ s) = true.
Proof.
  induction lit as [|c lit IH]; simpl; [reflexivity|].
  rewrite Ascii.eqb_refl. exact IH.
Qed.

Lemma starts_with_split (lit s : list ascii) :
  starts_with lit s = true -> exists u, s = lit ++ u.
Proof.
  revert s. induction lit as [|c lit IH]; intros s H; simpl in *.
  - exists s. reflexivity.
  - destruct s as [|x s]; [discriminate|].
    apply andb_true_iff in H. destruct H as [Hx Hs].
    apply Ascii.eqb_eq in Hx. subst x.
    destruct (IH s Hs) as [u ->]. exists u. reflexivity.
Qed.

Lemma strchr_scan_found (a : list ascii) (c : ascii) (b : list ascii) (base : nat) :
  ~ In c a -> ~ In NUL a ->
  strchr_scan (a ++ c :: b) base c = ok (Some (base + length a)).
Proof.
  revert base. induction a as [|x a IH]; intros base Hc Hn; simpl.
  - rewrite Ascii.eqb_refl. f_equal. f_equal. lia.
  - destruct (Ascii.eqb_spec x c) as [E|E]; [exfalso; apply Hc; left; exact E|].
    destruct (Ascii.eqb_spec x NUL) as [E'|E']; [exfalso; apply Hn; left; exact E'|].
    rewrite IH;
      [ | intros H; apply Hc; right; exact H | intros H; apply Hn; right; exact H].
    f_equal. f_equal. lia.
Qed.

Lemma strchr_scan_missing (a : list ascii) (c : ascii) (b : list ascii) (base : nat) :
  ~ In c a -> c <> NUL ->
  strchr_scan (a ++ NUL :: b) base c = ok None.
Proof.
  revert base. induction a as [|x a IH]; intros base Hc Hn; simpl.
  - destruct (Ascii.eqb_spec NUL c) as [E|E]; [congruence | reflexivity].
  - destruct (Ascii.eqb_spec x c) as [E|E]; [exfalso; apply Hc; left; exact E|].
    destruct (Ascii.eqb_spec x NUL) as [E'|E']; [reflexivity|].
    apply IH; [intros H; apply Hc; right; exact H | exact Hn].
Qed.

Lemma strchr_from (pre s : list ascii) (c : ascii) :
  strchr (pre ++ s) (length pre) c = strchr_scan s (length pre) c.
Proof.
  unfold strchr. rewrite length_app.
  destruct (Nat.leb_spec (length pre) (length pre + length s)); [|lia].
  rewrite skipn_app, skipn_all, Nat.sub_diag. reflexivity.
Qed.

Lemma strchr_start (s : list ascii) (c : ascii) :
  strchr s 0 c = strchr_scan s 0 c.
Proof. exact (strchr_from [] s c). Qed.

Lemma memmove_blocks (a b c d : list ascii) :
  c <> [] ->
  memmove (a ++ b ++ c ++ d) (length a) (length a + length b) (length c) =
  ok (a ++ c ++ skipn (length c) (b ++ c) ++ d).
Proof.
  intros Hc. unfold memmove.
  assert (length c <> 0) by (destruct c; simpl; [congruence | lia]).
  destruct (Nat.eqb_spec (length c) 0); [lia|].
  rewrite !length_app.
  destruct (Nat.ltb_spec (length a + (length b + (length c + length d)))
                          (length a + length b + length c)); [lia|].
  destruct (Nat.ltb_spec (length a + (length b + (length c + length d)))
                          (length a + length c)); [lia|].
  f_equal.
  assert (E1 : firstn (length a) (a ++ b ++ c ++ d) = a).
  { rewrite firstn_app, firstn_all, Nat.sub_diag. simpl. apply app_nil_r. }
  assert (E2 : skipn (length a + length b) (a ++ b ++ c ++ d) = c ++ d).
  { rewrite (app_assoc a b).
    replace (length a + length b) with (length (a ++ b)) by apply length_app.
    rewrite skipn_app, skipn_all, Nat.sub_diag. reflexivity. }
  assert (E3 : firstn (length c) (c ++ d) = c).
  { rewrite firstn_app, firstn_all, Nat.sub_diag. simpl. apply app_nil_r. }
  assert (E4 : skipn (length a + length c) (a ++ b ++ c ++ d) =
               skipn (length c) (b ++ c) ++ d).
  { rewrite skipn_app.
    rewrite skipn_all2 by lia.
    replace (length a + length c - length a) with (length c) by lia. simpl.
    rewrite (app_assoc b c d), skipn_app, length_app.
    replace (length c - (length b + length c)) with 0 by lia. reflexivity. }
  rewrite E1, E2, E3, E4. reflexivity.
Qed.

End Primitives.

(** * The rewrite, branch by branch *)

Section Branches.

Lemma IFNAME_no_NUL : ~ In NUL IFNAME.
Proof. apply has_false. reflexivity. Qed.

Lemma IFNAME_no_SPACE : ~ In SPACE IFNAME.
Proof. apply has_false. reflexivity. Qed.

Lemma normalize_prefix_test (msg tail : list ascii) :
  strncmp_eq (in_buffer msg tail) 0 IFNAME IFNAMELEN =
  ok (starts_with IFNAME msg).
Proof. apply strncmp_eq_literal, IFNAME_no_NUL. Qed.

Lemma scan_space (P R : list ascii) :
  ~ In SPACE P -> ~ In NUL P ->
  strchr (P ++ SPACE :: R) 0 SPACE = ok (Some (length P)).
Proof.
  intros. rewrite strchr_start, strchr_scan_found by assumption. reflexivity.
Qed.

Lemma load_after_space (P : list ascii) (c : ascii) (R : list ascii) :
  load (P ++ SPACE :: c :: R) (length P + 1) = ok c.
Proof.
  change (P ++ SPACE :: c :: R) with (P ++ [SPACE] ++ c :: R).
  rewrite app_assoc.
  replace (length P + 1) with (length (P ++ [SPACE]))
    by (rewrite length_app; reflexivity).
  apply load_at.
Qed.

Lemma scan_behind_opener (P R : list ascii) (c : ascii) :
  strchr (P ++ SPACE :: LT :: R) (length P + 2) c =
  strchr_scan R (length P + 2) c.
Proof.
  change (P ++ SPACE :: LT :: R) with (P ++ [SPACE; LT] ++ R).
  rewrite app_assoc.
  replace (length P + 2) with (length (P ++ [SPACE; LT]))
    by (rewrite length_app; reflexivity).
  apply strchr_from.
Qed.

(** The character behind the first space does not open a tag. *)
Lemma normalize_iface_other (P : list ascii) (c : ascii) (R : list ascii)
  (nread : Z) :
  let buf := P ++ SPACE :: c :: R in
  strncmp_eq buf 0 IFNAME IFNAMELEN = ok true ->
  ~ In SPACE P -> ~ In NUL P -> Ascii.eqb c LT = false ->
  normalize buf nread = ok (buf, int_of_size_t nread).
Proof.
  intros buf Hcmp HsP HnP Hc. unfold normalize. rewrite Hcmp. run.
  unfold buf. rewrite scan_space by assumption. run.
  rewrite load_after_space. run. rewrite Hc. reflexivity.
Qed.

(** A tag is opened behind the first space and never closed. *)
Lemma normalize_iface_open (P r T : list ascii) (nread : Z) :
  let buf := P ++ SPACE :: LT :: r ++ NUL :: T in
  strncmp_eq buf 0 IFNAME IFNAMELEN = ok true ->
  ~ In SPACE P -> ~ In NUL P -> ~ In GT r ->
  normalize buf nread = ok (buf, int_of_size_t nread).
Proof.
  intros buf Hcmp HsP HnP Hr. unfold normalize. rewrite Hcmp. run.
  unfold buf. rewrite scan_space by assumption. run.
  rewrite load_after_space. run.
  change (Ascii.eqb LT LT) with true. cbv iota.
  rewrite scan_behind_opener, strchr_scan_missing;
    [reflexivity | assumption | discriminate].
Qed.

(** A closed tag behind the first space: what is left is the move. *)
Lemma normalize_iface_tag (P n R : list ascii) (nread : Z) :
  let buf := P ++ SPACE :: LT :: n ++ GT :: R in
  let p := length P in
  let q := length P + 2 + length n in
  let nread' := size_sub nread (Z.of_nat q - Z.of_nat p) in
  strncmp_eq buf 0 IFNAME IFNAMELEN = ok true ->
  ~ In SPACE P -> ~ In NUL P -> ~ In GT n -> ~ In NUL n ->
  normalize buf nread =
  (buf' <- memmove buf (p + 1) (q + 1)
             (Z.to_nat (size_add (size_sub nread' (Z.of_nat p)) 1)) ;;
   ok (buf', int_of_size_t nread')).
Proof.
  intros buf p q nread' Hcmp HsP HnP Hgn Hnn. unfold normalize.
  rewrite Hcmp. run.
  unfold buf. rewrite scan_space by assumption. run.
  rewrite load_after_space. run.
  change (Ascii.eqb LT LT) with true. cbv iota.
  rewrite scan_behind_opener, strchr_scan_found by assumption. run.
  reflexivity.
Qed.

(** The prefix without any space behind it. *)
Lemma normalize_no_space (cs T : list ascii) (nread : Z) :
  let buf := cs ++ NUL :: T in
  strncmp_eq buf 0 IFNAME IFNAMELEN = ok true ->
  ~ In SPACE cs ->
  normalize buf nread = ok (snprintf buf WPA_EVENT_IGNORE).
Proof.
  intros buf Hcmp Hs. unfold normalize. rewrite Hcmp. run.
  unfold buf. rewrite strchr_start, strchr_scan_missing;
    [reflexivity | assumption | discriminate].
Qed.

(** No prefix, a closed tag in front: what is left is the move. *)
Lemma normalize_bare_tag (n R : list ascii) (nread : Z) :
  let buf := LT :: n ++ GT :: R in
  let q := length n + 1 in
  let nread' := size_sub nread (Z.of_nat q + 1 - 0) in
  ~ In GT n -> ~ In NUL n ->
  normalize buf nread =
  (buf' <- memmove buf 0 (q + 1) (Z.to_nat (size_add nread' 1)) ;;
   ok (buf', int_of_size_t nread')).
Proof.
  intros buf q nread' Hgn Hnn. unfold normalize.
  change (strncmp_eq buf 0 IFNAME IFNAMELEN) with (@ok bool false). run.
  change (load buf 0) with (ok LT). run.
  change (Ascii.eqb LT LT) with true. cbv iota.
  assert (S1 : strchr buf 0 GT = ok (Some q)).
  { rewrite strchr_start. unfold buf.
    change (LT :: n ++ GT :: R) with ((LT :: n) ++ GT :: R).
    rewrite strchr_scan_found.
    - unfold q. simpl. f_equal. f_equal. lia.
    - intros [H|H]; [discriminate | exact (Hgn H)].
    - intros [H|H]; [discriminate | exact (Hnn H)]. }
  rewrite S1. reflexivity.
Qed.

(** No prefix, a tag in front that is never closed. *)
Lemma normalize_bare_open (r T : list ascii) (nread : Z) :
  let buf := LT :: r ++ NUL :: T in
  ~ In GT r ->
  normalize buf nread = ok (buf, int_of_size_t nread).
Proof.
  intros buf Hr. unfold normalize.
  change (strncmp_eq buf 0 IFNAME IFNAMELEN) with (@ok bool false). run.
  change (load buf 0) with (ok LT). run.
  change (Ascii.eqb LT LT) with true. cbv iota.
  assert (S1 : strchr buf 0 GT = ok None).
  { rewrite strchr_start. unfold buf.
    change (LT :: r ++ NUL :: T) with ((LT :: r) ++ NUL :: T).
    apply strchr_scan_missing.
    - intros [H|H]; [discriminate | exact (Hr H)].
    - discriminate. }
  rewrite S1. reflexivity.
Qed.

(** Neither the prefix nor a tag in front. *)
Lemma normalize_other (c : ascii) (R : list ascii) (nread : Z) :
  let buf := c :: R in
  strncmp_eq buf 0 IFNAME IFNAMELEN = ok false ->
  Ascii.eqb c LT = false ->
  normalize buf nread = ok (buf, int_of_size_t nread).
Proof.
  intros buf Hcmp Hc. unfold normalize. rewrite Hcmp. run.
  change (load buf 0) with (ok c). run. rewrite Hc. reflexivity.
Qed.

End Branches.

(** * The rewrite on received messages *)

Section Shapes.

Lemma not_in_app (c : ascii) (a b : list ascii) :
  ~ In c a -> ~ In c b -> ~ In c (a ++ b).
Proof. intros Ha Hb H. apply in_app_or in H. tauto. Qed.

Lemma in_buffer_app (a b T : list ascii) :
  in_buffer (a ++ b) T = a ++ in_buffer b T.
Proof. unfold in_buffer. rewrite <- app_assoc. reflexivity. Qed.

(** [IFNAME=i text], the text not opening a tag. *)
Lemma iface_text_kept (P r T : list ascii) (nread : Z) :
  starts_with IFNAME (P ++ SPACE :: r) = true ->
  ~ In SPACE P -> ~ In NUL P -> not_leading LT r = true ->
  normalize (in_buffer (P ++ SPACE :: r) T) nread =
  ok (in_buffer (P ++ SPACE :: r) T, int_of_size_t nread).
Proof.
  intros Hpre HsP HnP Hr.
  pose proof (normalize_prefix_test (P ++ SPACE :: r) T) as Hcmp.
  rewrite Hpre in Hcmp. rewrite in_buffer_app in *.
  destruct r as [|c r]; simpl in *.
  - apply normalize_iface_other; [exact Hcmp | assumption | assumption |].
    reflexivity.
  - apply normalize_iface_other; [exact Hcmp | assumption | assumption |].
    apply negb_true_iff. exact Hr.
Qed.

(** [IFNAME=i <text] with the tag left open. *)
Lemma iface_open_tag_kept (P r T : list ascii) (nread : Z) :
  starts_with IFNAME (P ++ SPACE :: LT :: r) = true ->
  ~ In SPACE P -> ~ In NUL P -> ~ In GT r ->
  normalize (in_buffer (P ++ SPACE :: LT :: r) T) nread =
  ok (in_buffer (P ++ SPACE :: LT :: r) T, int_of_size_t nread).
Proof.
  intros Hpre HsP HnP Hr.
  pose proof (normalize_prefix_test (P ++ SPACE :: LT :: r) T) as Hcmp.
  rewrite Hpre in Hcmp. rewrite in_buffer_app in *. simpl in *.
  apply normalize_iface_open; assumption.
Qed.

(** [<text] with the tag left open. *)
Lemma bare_open_tag_kept (r T : list ascii) (nread : Z) :
  ~ In GT r ->
  normalize (in_buffer (LT :: r) T) nread =
  ok (in_buffer (LT :: r) T, int_of_size_t nread).
Proof. intros Hr. apply normalize_bare_open. exact Hr. Qed.

(** Text with neither prefix nor tag. *)
Lemma plain_kept (msg T : list ascii) (nread : Z) :
  starts_with IFNAME msg = false -> not_leading LT msg = true ->
  normalize (in_buffer msg T) nread = ok (in_buffer msg T, int_of_size_t nread).
Proof.
  intros Hpre Hlt.
  pose proof (normalize_prefix_test msg T) as Hcmp. rewrite Hpre in Hcmp.
  destruct msg as [|c msg].
  - apply normalize_other; [exact Hcmp | reflexivity].
  - apply normalize_other; [exact Hcmp |].
    simpl in Hlt. apply negb_true_iff. exact Hlt.
Qed.

(** The prefix with no space behind it. *)
Lemma unframed_replaced (msg T : list ascii) (nread : Z) :
  starts_with IFNAME msg = true -> ~ In SPACE msg ->
  normalize (in_buffer msg T) nread =
  ok (snprintf (in_buffer msg T) WPA_EVENT_IGNORE).
Proof.
  intros Hpre Hs.
  pose proof (normalize_prefix_test msg T) as Hcmp. rewrite Hpre in Hcmp.
  apply normalize_no_space; assumption.
Qed.

Lemma iface_prefix (i R : list ascii) :
  starts_with IFNAME ((IFNAME ++ i) ++ R) = true.
Proof. rewrite <- app_assoc. apply starts_with_app. Qed.

Lemma iface_head (i : list ascii) :
  iface_name i = true ->
  ~ In SPACE (IFNAME ++ i) /\ ~ In NUL (IFNAME ++ i).
Proof.
  intros Hi. apply iface_name_spec in Hi. destruct Hi as [Hs Hn].
  split; apply not_in_app;
    auto using IFNAME_no_SPACE, IFNAME_no_NUL.
Qed.

End Shapes.

(** * Messages whose tag is never closed *)

(** C2.  A message [IFNAME=i <r] or [<r] in which no [>] follows the
    opening bracket is returned as received, with its length, whatever
    the buffer holds behind the terminator and also when the terminator is
    the last byte of the buffer ([tail] empty): no access leaves the
    message and its terminator. *)
Theorem unclosed_tag_left_unchanged (i r tail : list ascii) :
  iface_name i = true ->
  has GT r = false ->
  fits_int (length (IFNAME ++ i ++ SPACE :: LT :: r)) ->
  run_normalize (IFNAME ++ i ++ SPACE :: LT :: r) tail =
    ok (in_buffer (IFNAME ++ i ++ SPACE :: LT :: r) tail,
        Z.of_nat (length (IFNAME ++ i ++ SPACE :: LT :: r)))
  /\ run_normalize (LT :: r) tail =
       ok (in_buffer (LT :: r) tail, Z.of_nat (length (LT :: r)))
  /\ run_normalize (IFNAME ++ i ++ SPACE :: LT :: r) [] =
       ok (IFNAME ++ i ++ SPACE :: LT :: r ++ [NUL],
           Z.of_nat (length (IFNAME ++ i ++ SPACE :: LT :: r)))
  /\ run_normalize (LT :: r) [] =
       ok (LT :: r ++ [NUL], Z.of_nat (length (LT :: r))).
Proof.
  intros Hi Hr Hfit.
  destruct (iface_head i Hi) as [HsP HnP].
  apply has_false in Hr.
  unfold fits_int in Hfit.
  assert (Hshort : (Z.of_nat (length (LT :: r)) <= INT_MAX)%Z).
  { rewrite !length_app in Hfit. simpl in *. lia. }
  assert (A : forall T,
    run_normalize (IFNAME ++ i ++ SPACE :: LT :: r) T =
    ok (in_buffer (IFNAME ++ i ++ SPACE :: LT :: r) T,
        Z.of_nat (length (IFNAME ++ i ++ SPACE :: LT :: r)))).
  { intros T. unfold run_normalize. rewrite (app_assoc IFNAME i).
    rewrite iface_open_tag_kept; auto using iface_prefix.
    rewrite int_of_size_t_exact; [reflexivity|].
    rewrite <- app_assoc. lia. }
  assert (B : forall T,
    run_normalize (LT :: r) T =
    ok (in_buffer (LT :: r) T, Z.of_nat (length (LT :: r)))).
  { intros T. unfold run_normalize.
    rewrite bare_open_tag_kept by assumption.
    rewrite int_of_size_t_exact; [reflexivity | lia]. }
  split; [apply A|]. split; [apply B|]. split.
  - rewrite A. unfold in_buffer. rewrite <- !app_assoc. reflexivity.
  - rewrite B. reflexivity.
Qed.

Lemma unclosed_tag_left_unchanged_witness :
  run_normalize (chars "IFNAME=wlan0 <3CTRL-EVENT-CONNECTED") [] =
  ok (chars "IFNAME=wlan0 <3CTRL-EVENT-CONNECTED" ++ [NUL], 35%Z).
Proof.
  pose proof (unclosed_tag_left_unchanged (chars "wlan0")
                (chars "3CTRL-EVENT-CONNECTED") []) as H.
  destruct H as [_ [_ [H _]]].
  - reflexivity.
  - reflexivity.
  - unfold fits_int. vm_compute. discriminate.
  - exact H.
Defined.

(** * Messages with a closed tag *)

Section Tagged.

Variables (P n rest : list ascii).
Let msg : list ascii := P ++ SPACE :: LT :: n ++ GT :: rest.

Hypothesis Hpre : starts_with IFNAME msg = true.
Hypothesis HsP : ~ In SPACE P.
Hypothesis HnP : ~ In NUL P.
Hypothesis Hgn : ~ In GT n.
Hypothesis Hnn : ~ In NUL n.
Hypothesis Hfit : fits_int (length msg).

Lemma tagged_length : length msg = length P + 3 + length n + length rest.
Proof. unfold msg. rewrite length_app. simpl. rewrite length_app. simpl. lia. Qed.

(** The move that the tagged branch asks for, for any buffer that starts
    with the message. *)
Lemma tagged_iface_move (T : list ascii) :
  normalize (in_buffer msg T) (Z.of_nat (length msg)) =
  (buf' <- memmove (in_buffer msg T) (length P + 1) (length P + 2 + length n + 1)
             (length rest + 2) ;;
   ok (buf', Z.of_nat (length P + 1 + length rest))).
Proof.
  pose proof (normalize_prefix_test msg T) as Hcmp. rewrite Hpre in Hcmp.
  pose proof tagged_length as Hlen.
  unfold fits_int, INT_MAX in Hfit.
  assert (Hbuf : in_buffer msg T =
                 P ++ SPACE :: LT :: n ++ GT :: in_buffer rest T).
  { unfold in_buffer, msg. repeat (rewrite <- app_assoc; simpl). reflexivity. }
  rewrite Hbuf in *.
  rewrite normalize_iface_tag by assumption.
  assert (N1 : size_sub (Z.of_nat (length msg))
                 (Z.of_nat (length P + 2 + length n) - Z.of_nat (length P)) =
               Z.of_nat (length P + 1 + length rest)).
  { rewrite size_sub_exact by (unfold SIZE_MOD; lia). lia. }
  rewrite N1.
  rewrite int_of_size_t_exact by (unfold INT_MAX; lia).
  assert (N2 : Z.to_nat (size_add (size_sub (Z.of_nat (length P + 1 + length rest))
                                     (Z.of_nat (length P))) 1) =
               length rest + 2).
  { rewrite size_sub_exact by (unfold SIZE_MOD; lia).
    rewrite size_add_exact by (unfold SIZE_MOD; lia). lia. }
  rewrite N2. reflexivity.
Qed.

(** With a byte to spare behind the terminator the tag is cut out. *)
Lemma tagged_iface_stripped (x : ascii) (T : list ascii) :
  run_normalize msg (x :: T) =
  ok (in_buffer (P ++ SPACE :: rest)
        (x :: skipn (length rest + 2) ((LT :: n ++ [GT]) ++ rest ++ [NUL; x])
           ++ T),
      Z.of_nat (length (P ++ SPACE :: rest))).
Proof.
  unfold run_normalize. rewrite tagged_iface_move.
  assert (Hblocks : in_buffer msg (x :: T) =
                    (P ++ [SPACE]) ++ (LT :: n ++ [GT]) ++
                    (rest ++ [NUL; x]) ++ T).
  { unfold in_buffer, msg. repeat (rewrite <- app_assoc; simpl). reflexivity. }
  replace (length P + 1) with (length (P ++ [SPACE]))
    by (rewrite length_app; reflexivity).
  replace (length P + 2 + length n + 1)
    with (length (P ++ [SPACE]) + length (LT :: n ++ [GT]))
    by (rewrite length_app; simpl; rewrite length_app; simpl; lia).
  replace (length rest + 2) with (length (rest ++ [NUL; x])) at 1
    by (rewrite length_app; reflexivity).
  rewrite Hblocks, memmove_blocks by (destruct rest; discriminate).
  run. f_equal. f_equal.
  - unfold in_buffer. rewrite length_app. simpl.
    repeat (rewrite <- app_assoc; simpl). reflexivity.
  - rewrite !length_app. simpl. f_equal. lia.
Qed.

(** With the terminator in the last byte of the buffer the move reads the
    byte behind the buffer. *)
Lemma tagged_iface_overread :
  run_normalize msg [] = oob (length msg + 1).
Proof.
  unfold run_normalize. rewrite tagged_iface_move.
  pose proof tagged_length as Hlen.
  assert (Hblen : length (in_buffer msg []) = length msg + 1).
  { unfold in_buffer. rewrite length_app. reflexivity. }
  unfold memmove.
  destruct (Nat.eqb_spec (length rest + 2) 0); [lia|].
  destruct (Nat.ltb_spec (length (in_buffer msg []))
              (length P + 2 + length n + 1 + (length rest + 2))); [|lia].
  rewrite Hblen. reflexivity.
Qed.

End Tagged.

Section BareTagged.

Variables (n rest : list ascii).
Let msg : list ascii := LT :: n ++ GT :: rest.

Hypothesis Hgn : ~ In GT n.
Hypothesis Hnn : ~ In NUL n.
Hypothesis Hfit : fits_int (length msg).

Lemma bare_tagged_stripped (T : list ascii) :
  run_normalize msg T =
  ok (in_buffer rest
        (skipn (length rest + 1) ((LT :: n ++ [GT]) ++ rest ++ [NUL]) ++ T),
      Z.of_nat (length rest)).
Proof.
  unfold run_normalize.
  assert (Hbuf : in_buffer msg T = LT :: n ++ GT :: rest ++ NUL :: T).
  { unfold in_buffer, msg. simpl. rewrite <- app_assoc. reflexivity. }
  rewrite Hbuf.
  rewrite normalize_bare_tag by assumption.
  assert (Hlen : length msg = length n + 2 + length rest).
  { unfold msg. simpl. rewrite length_app. simpl. lia. }
  unfold fits_int, INT_MAX in Hfit.
  assert (N1 : size_sub (Z.of_nat (length msg))
                 (Z.of_nat (length n + 1) + 1 - 0) =
               Z.of_nat (length rest)).
  { rewrite size_sub_exact by (unfold SIZE_MOD; lia). lia. }
  rewrite N1.
  rewrite int_of_size_t_exact by (unfold INT_MAX; lia).
  assert (N2 : Z.to_nat (size_add (Z.of_nat (length rest)) 1) =
               length (rest ++ [NUL])).
  { rewrite size_add_exact by (unfold SIZE_MOD; lia).
    rewrite length_app. simpl. lia. }
  rewrite N2.
  assert (Hblocks : LT :: n ++ GT :: rest ++ NUL :: T =
                    [] ++ (LT :: n ++ [GT]) ++ (rest ++ [NUL]) ++ T).
  { simpl. repeat (rewrite <- app_assoc; simpl). reflexivity. }
  change 0 with (length (@nil ascii)) at 1.
  replace (length n + 1 + 1)
    with (length (@nil ascii) + length (LT :: n ++ [GT]))
    by (simpl; rewrite length_app; simpl; lia).
  rewrite Hblocks, memmove_blocks by (destruct rest; discriminate).
  run. f_equal. f_equal.
  rewrite length_app. simpl.
  repeat (rewrite <- app_assoc; simpl). reflexivity.
Qed.

End BareTagged.

(** * The returned length *)

Section Lengths.

Lemma first_occurrence (c : ascii) (l : list ascii) :
  has c l = true -> exists a b, l = a ++ c :: b /\ ~ In c a.
Proof.
  induction l as [|x l IH]; intros H; [discriminate|].
  unfold has in H. simpl in H.
  destruct (Ascii.eqb_spec c x) as [E|E].
  - subst x. exists [], l. split; [reflexivity | intros []].
  - simpl in H. destruct (IH H) as [a [b [-> Ha]]].
    exists (x :: a), b. split; [reflexivity|].
    intros [K|K]; [congruence | exact (Ha K)].
Qed.

Lemma cstr_no_NUL (msg : list ascii) : ~ In NUL (cstr msg).
Proof.
  induction msg as [|x msg IH]; simpl; [tauto|].
  destruct (Ascii.eqb_spec x NUL) as [E|E]; simpl; [tauto|].
  intros [K|K]; [congruence | exact (IH K)].
Qed.

Lemma cstr_split (msg T : list ascii) :
  exists T', in_buffer msg T = in_buffer (cstr msg) T' /\
             length (cstr msg) <= length msg.
Proof.
  induction msg as [|x msg IH]; simpl.
  - exists T. split; [reflexivity | lia].
  - destruct (Ascii.eqb_spec x NUL) as [E|E].
    + subst x. exists (msg ++ NUL :: T). split; [reflexivity | simpl; lia].
    + destruct IH as [T' [E1 E2]]. exists T'. split; [|simpl; lia].
      unfold in_buffer in *. simpl. rewrite E1. reflexivity.
Qed.

Lemma memmove_inside (buf : list ascii) (dst src n : nat) :
  src + n <= length buf -> dst + n <= length buf ->
  exists b, memmove buf dst src n = ok b.
Proof.
  intros Hs Hd. unfold memmove.
  destruct (n =? 0); [eexists; reflexivity|].
  destruct (Nat.ltb_spec (length buf) (src + n)); [lia|].
  destruct (Nat.ltb_spec (length buf) (dst + n)); [lia|].
  eexists; reflexivity.
Qed.

(** For a buffer that starts with the text [cs] and its terminator, a
    received length of at least that text and two bytes of buffer behind
    the received length, the rewrite completes; it returns the length of
    the ignore marker when the text has the prefix and no space, and not
    more than the received length otherwise. *)
Lemma normalize_completes (cs T : list ascii) (nread : nat) :
  ~ In NUL cs ->
  length cs <= nread ->
  nread + 2 <= length (in_buffer cs T) ->
  fits_int nread ->
  exists b n,
    normalize (in_buffer cs T) (Z.of_nat nread) = ok (b, n) /\
    if starts_with IFNAME cs && negb (has SPACE cs)
    then n = Z.of_nat (length WPA_EVENT_IGNORE)
    else (n <= Z.of_nat nread)%Z.
Proof.
  intros Hnul Hlen Hroom Hfit. unfold fits_int in Hfit.
  assert (Hid : (int_of_size_t (Z.of_nat nread) <= Z.of_nat nread)%Z)
    by (apply int_of_size_t_le; lia).
  destruct (starts_with IFNAME cs) eqn:Hpre; cbn [andb].
  - destruct (has SPACE cs) eqn:Hsp; cbn [negb].
    + destruct (first_occurrence SPACE cs Hsp) as [P [r [-> HsP]]].
      assert (HnP : ~ In NUL P) by (intros K; apply Hnul, in_or_app; tauto).
      destruct r as [|c r].
      { eexists. eexists. split; [apply iface_text_kept; auto | exact Hid]. }
      destruct (Ascii.eqb_spec c LT) as [Ec|Ec].
      * subst c. destruct (has GT r) eqn:Hgt.
        -- destruct (first_occurrence GT r Hgt) as [n [rest [-> Hgn]]].
           assert (Hnn : ~ In NUL n).
           { intros K. apply Hnul, in_or_app. right. right. right.
             apply in_or_app. tauto. }
           pose proof (normalize_prefix_test
                         (P ++ SPACE :: LT :: n ++ GT :: rest) T) as Hcmp.
           rewrite Hpre in Hcmp.
           assert (Hbuf : in_buffer (P ++ SPACE :: LT :: n ++ GT :: rest) T =
                          P ++ SPACE :: LT :: n ++ GT :: in_buffer rest T).
           { unfold in_buffer. repeat (rewrite <- app_assoc; simpl).
             reflexivity. }
           rewrite Hbuf in *.
           rewrite normalize_iface_tag by assumption.
           lengths Hlen. lengths Hroom. unfold in_buffer in Hroom.
           lengths Hroom.
           rewrite (size_sub_exact (Z.of_nat nread))
             by (unfold SIZE_MOD, INT_MAX in *; lia).
           rewrite size_sub_exact by (unfold SIZE_MOD, INT_MAX in *; lia).
           rewrite size_add_exact by (unfold SIZE_MOD, INT_MAX in *; lia).
           destruct (memmove_inside
                       (P ++ SPACE :: LT :: n ++ GT :: in_buffer rest T)
                       (length P + 1) (length P + 2 + length n + 1)
                       (Z.to_nat (Z.of_nat nread -
                                  (Z.of_nat (length P + 2 + length n) -
                                   Z.of_nat (length P)) -
                                  Z.of_nat (length P) + 1)))
             as [b Hb].
           { unfold in_buffer. lengths Hlen. lia. }
           { unfold in_buffer. lengths Hlen. lia. }
           rewrite Hb. run. eexists. eexists. split; [reflexivity|].
           etransitivity; [apply int_of_size_t_le; lia | lia].
        -- apply has_false in Hgt.
           eexists. eexists.
           split; [apply iface_open_tag_kept; auto | exact Hid].
      * eexists. eexists. split; [apply iface_text_kept; auto | exact Hid].
        simpl. apply negb_true_iff, Ascii.eqb_neq. exact Ec.
    + apply has_false in Hsp.
      rewrite unframed_replaced by assumption.
      eexists. eexists. split; reflexivity.
  - destruct cs as [|c cs].
    { eexists. eexists. split; [apply plain_kept; auto | exact Hid]. }
    destruct (Ascii.eqb_spec c LT) as [Ec|Ec].
    + subst c. destruct (has GT cs) eqn:Hgt.
      * destruct (first_occurrence GT cs Hgt) as [n [rest [-> Hgn]]].
        assert (Hnn : ~ In NUL n).
        { intros K. apply Hnul. right. apply in_or_app. tauto. }
        assert (Hbuf : in_buffer (LT :: n ++ GT :: rest) T =
                       LT :: n ++ GT :: in_buffer rest T).
        { unfold in_buffer. simpl. rewrite <- app_assoc. reflexivity. }
        rewrite Hbuf in *.
        rewrite normalize_bare_tag by assumption.
        lengths Hlen. lengths Hroom. unfold in_buffer in Hroom.
        lengths Hroom.
        rewrite size_sub_exact by (unfold SIZE_MOD, INT_MAX in *; lia).
        rewrite size_add_exact by (unfold SIZE_MOD, INT_MAX in *; lia).
        destruct (memmove_inside (LT :: n ++ GT :: in_buffer rest T)
                    0 (length n + 1 + 1)
                    (Z.to_nat (Z.of_nat nread -
                               (Z.of_nat (length n + 1) + 1 - 0) + 1)))
          as [b Hb].
        { unfold in_buffer. lengths Hlen. lia. }
        { unfold in_buffer. lengths Hlen. lia. }
        rewrite Hb. run. eexists. eexists. split; [reflexivity|].
        etransitivity; [apply int_of_size_t_le; lia | lia].
      * apply has_false in Hgt.
        eexists. eexists. split; [apply bare_open_tag_kept; auto | exact Hid].
    + eexists. eexists. split; [apply plain_kept; auto | exact Hid].
      simpl. apply negb_true_iff, Ascii.eqb_neq. exact Ec.
Qed.

End Lengths.

(** C8, counterexample.  The ignore marker, 18 bytes, is longer than the
    12-byte message [IFNAME=wlan0] it replaces. *)
Lemma ignore_marker_longer_than_message :
  ~ shrinking (chars "IFNAME=wlan0") (chars "------").
Proof. intros H. vm_compute in H. apply H. reflexivity. Qed.

(** C8, amended.  With a byte to spare behind the terminator the rewrite
    of a received message completes, and the returned length is at most
    the received length on every branch but the one that replaces the
    message by the ignore marker, where it is the length of the marker,
    18, whatever the received length was. *)
Theorem returned_length_bounded (msg : list ascii) (x : ascii)
  (tail : list ascii) :
  fits_int (length msg) ->
  exists b n,
    run_normalize msg (x :: tail) = ok (b, n) /\
    if unframed msg then n = 18%Z else (n <= Z.of_nat (length msg))%Z.
Proof.
  intros Hfit. unfold run_normalize, unframed.
  destruct (cstr_split msg (x :: tail)) as [T' [Hbuf Hlen]].
  rewrite Hbuf.
  apply normalize_completes; auto using cstr_no_NUL.
  rewrite <- Hbuf. unfold in_buffer. rewrite length_app. simpl. lia.
Qed.

Lemma returned_length_bounded_witness :
  exists b n,
    run_normalize (chars "IFNAME=wlan0 <3>CTRL-EVENT-CONNECTED") [" "%char]
      = ok (b, n) /\ (n <= 36)%Z.
Proof.
  apply (returned_length_bounded
           (chars "IFNAME=wlan0 <3>CTRL-EVENT-CONNECTED") " "%char []).
  unfold fits_int. vm_compute. discriminate.
Defined.

(** * One pass strips one tag *)

(** C7, counterexample.  Of two tags in a row each pass strips one: a
    second pass over the result of [<1><2>X] changes it again. *)
Lemma stacked_tags_stripped_one_per_pass :
  ~ second_pass_changes_nothing (chars "<1><2>X") [].
Proof. intros H. vm_compute in H. discriminate H. Qed.

Section Idempotence.

Lemma has_app (c : ascii) (a b : list ascii) :
  has c (a ++ b) = has c a || has c b.
Proof. unfold has. apply existsb_app. Qed.

Lemma cstr_app (a b : list ascii) :
  ~ In NUL a -> cstr (a ++ b) = a ++ cstr b.
Proof.
  induction a as [|x a IH]; intros Hn; cbn [app cstr]; [reflexivity|].
  destruct (Ascii.eqb_spec x NUL) as [E|E]; [exfalso; apply Hn; left; exact E|].
  rewrite IH by (intros K; apply Hn; right; exact K). reflexivity.
Qed.

Lemma behind_app (c : ascii) (a b : list ascii) :
  ~ In c a -> behind c (a ++ c :: b) = b.
Proof.
  induction a as [|x a IH]; intros Hc; cbn [app behind].
  - rewrite Ascii.eqb_refl. reflexivity.
  - destruct (Ascii.eqb_spec x c) as [E|E]; [exfalso; apply Hc; left; exact E|].
    apply IH. intros K. apply Hc. right. exact K.
Qed.

(** The first [c] of the text before the terminator. *)
Lemma first_in_text (c : ascii) (s : list ascii) :
  has c (cstr s) = true ->
  exists a b, s = a ++ c :: b /\ ~ In c a /\ ~ In NUL a.
Proof.
  induction s as [|x s IH]; cbn [cstr]; intros H; [discriminate|].
  destruct (Ascii.eqb_spec x NUL) as [E|E]; [discriminate|].
  unfold has in H. cbn [existsb] in H.
  destruct (Ascii.eqb_spec c x) as [Ec|Ec].
  - subst x. exists [], s. split; [reflexivity|]. split; intros [].
  - cbn [orb] in H. destruct (IH H) as (a & b & -> & Ha & Hn).
    exists (x :: a), b. split; [reflexivity|]. split.
    + intros [K|K]; [congruence | exact (Ha K)].
    + intros [K|K]; [congruence | exact (Hn K)].
Qed.

(** Behind a prefix, the buffer of a message is the buffer of its text
    up to the first terminator. *)
Lemma in_buffer_cstr (pre r T : list ascii) :
  exists T', in_buffer (pre ++ r) T = in_buffer (pre ++ cstr r) T'.
Proof.
  destruct (cstr_split r T) as [T' [E _]]. exists T'.
  rewrite !in_buffer_app, E. reflexivity.
Qed.

Lemma iface_name_intro (i : list ascii) :
  ~ In SPACE i -> ~ In NUL i -> iface_name i = true.
Proof.
  intros Hs Hn. apply has_false in Hs, Hn. unfold iface_name.
  rewrite Hs, Hn. reflexivity.
Qed.

Lemma level_text_intro (n : list ascii) :
  ~ In GT n -> ~ In NUL n -> level_text n = true.
Proof.
  intros Hg Hn. apply has_false in Hg, Hn. unfold level_text.
  rewrite Hg, Hn. reflexivity.
Qed.

(** Every message has one of the shapes. *)
Lemma every_message_has_a_shape (msg : list ascii) :
  exists e, well_formed e = true /\ render e = msg.
Proof.
  destruct (starts_with IFNAME msg) eqn:Hpre.
  - destruct (starts_with_split _ _ Hpre) as [s ->].
    destruct (has SPACE (cstr s)) eqn:Hsp.
    + destruct (first_in_text SPACE s Hsp) as (i & r & -> & Hsi & Hni).
      pose proof (iface_name_intro i Hsi Hni) as Hi.
      destruct r as [|c r].
      { exists (IfaceUntagged i []). cbn [well_formed render not_leading].
        rewrite Hi. split; reflexivity. }
      destruct (Ascii.eqb_spec c LT) as [Ec|Ec].
      * subst c. destruct (has GT (cstr r)) eqn:Hgt.
        -- destruct (first_in_text GT r Hgt) as (n & rest & -> & Hgn & Hnn).
           exists (IfaceTagged i n rest). cbn [well_formed render].
           rewrite Hi, (level_text_intro n Hgn Hnn). split; reflexivity.
        -- exists (IfaceOpen i r). cbn [well_formed render].
           rewrite Hi, Hgt. split; reflexivity.
      * exists (IfaceUntagged i (c :: r)). cbn [well_formed render not_leading].
        rewrite Hi. apply Ascii.eqb_neq in Ec. rewrite Ec. split; reflexivity.
    + exists (IfaceOnly s). cbn [well_formed render]. rewrite Hsp.
      split; reflexivity.
  - destruct msg as [|c r].
    { exists (Plain []). split; reflexivity. }
    destruct (Ascii.eqb_spec c LT) as [Ec|Ec].
    + subst c. destruct (has GT (cstr r)) eqn:Hgt.
      * destruct (first_in_text GT r Hgt) as (n & rest & -> & Hgn & Hnn).
        exists (BareTagged n rest). cbn [well_formed render].
        rewrite (level_text_intro n Hgn Hnn). split; reflexivity.
      * exists (BareOpen r). cbn [well_formed render]. rewrite Hgt.
        split; reflexivity.
    + exists (Plain (c :: r)). cbn [well_formed render not_leading].
      rewrite Hpre. apply Ascii.eqb_neq in Ec. rewrite Ec. split; reflexivity.
Qed.

(** Behind the prefix and an interface name, a pass rewrites what has a
    closed tag at the head of the text. *)
Lemma rewritable_iface (i text : list ascii) :
  iface_name i = true ->
  rewritable (IFNAME ++ i ++ SPACE :: text) = tag_at_head text.
Proof.
  intros Hi. apply iface_name_spec in Hi. destruct Hi as [Hs Hn].
  unfold rewritable. rewrite starts_with_app.
  rewrite (app_assoc IFNAME i).
  rewrite cstr_app by (apply not_in_app; auto using IFNAME_no_NUL).
  rewrite has_app. cbn [cstr].
  change (Ascii.eqb SPACE NUL) with false. cbv iota.
  unfold has at 2. cbn [existsb]. rewrite Ascii.eqb_refl.
  cbn [orb]. rewrite orb_true_r. cbn [negb orb].
  rewrite behind_app by (apply not_in_app; auto using IFNAME_no_SPACE).
  reflexivity.
Qed.

Lemma tag_at_head_closed (n rest : list ascii) :
  ~ In NUL n -> tag_at_head (LT :: n ++ GT :: rest) = true.
Proof.
  intros Hn. cbn [tag_at_head]. rewrite Ascii.eqb_refl.
  rewrite cstr_app by exact Hn. rewrite has_app. cbn [cstr].
  change (Ascii.eqb GT NUL) with false. cbv iota.
  unfold has at 2. cbn [existsb]. rewrite Ascii.eqb_refl.
  cbn [orb andb]. apply orb_true_r.
Qed.

Lemma tag_at_head_other (text : list ascii) :
  not_leading LT text = true -> tag_at_head text = false.
Proof.
  destruct text as [|c r]; [reflexivity|]. cbn [not_leading tag_at_head].
  intros H. apply negb_true_iff in H. rewrite H. reflexivity.
Qed.

(** The shapes that a pass rewrites. *)
Lemma rewritable_render (e : raw_event) :
  well_formed e = true ->
  rewritable (render e) =
  match e with
  | IfaceTagged _ _ _ | IfaceOnly _ | BareTagged _ _ => true
  | _ => false
  end.
Proof.
  intros Hwf. destruct e as [i n rest|i r|i text|i|n rest|r|text];
    cbn [well_formed render] in *.
  - apply andb_true_iff in Hwf. destruct Hwf as [Hi Hn].
    apply level_text_spec in Hn. destruct Hn as [_ Hnn].
    rewrite rewritable_iface by exact Hi. apply tag_at_head_closed. exact Hnn.
  - apply andb_true_iff in Hwf. destruct Hwf as [Hi Hr].
    apply negb_true_iff in Hr.
    rewrite rewritable_iface by exact Hi. cbn [tag_at_head].
    rewrite Hr. apply andb_false_r.
  - apply andb_true_iff in Hwf. destruct Hwf as [Hi Ht].
    rewrite rewritable_iface by exact Hi. apply tag_at_head_other. exact Ht.
  - apply negb_true_iff in Hwf. unfold rewritable.
    rewrite starts_with_app, cstr_app by exact IFNAME_no_NUL.
    rewrite has_app, Hwf.
    replace (has SPACE IFNAME) with false by reflexivity. reflexivity.
  - apply level_text_spec in Hwf. destruct Hwf as [_ Hnn].
    unfold rewritable.
    replace (starts_with IFNAME (LT :: n ++ GT :: rest)) with false
      by reflexivity.
    apply tag_at_head_closed. exact Hnn.
  - apply negb_true_iff in Hwf. unfold rewritable.
    replace (starts_with IFNAME (LT :: r)) with false by reflexivity.
    cbn [tag_at_head]. rewrite Hwf. apply andb_false_r.
  - apply andb_true_iff in Hwf. destruct Hwf as [Ht Hp].
    apply negb_true_iff in Hp. unfold rewritable. rewrite Hp.
    apply tag_at_head_other. exact Ht.
Qed.

(** The prefix with no space before the terminator. *)
Lemma unframed_text_replaced (i T : list ascii) (nread : Z) :
  has SPACE (cstr i) = false ->
  normalize (in_buffer (IFNAME ++ i) T) nread =
  ok (snprintf (in_buffer (IFNAME ++ i) T) WPA_EVENT_IGNORE).
Proof.
  intros Hs. destruct (in_buffer_cstr IFNAME i T) as [T' E]. rewrite E.
  apply unframed_replaced; [apply starts_with_app|].
  apply not_in_app; [exact IFNAME_no_SPACE | apply has_false; exact Hs].
Qed.

(** A message that is not rewritable is returned as it is. *)
Lemma stable_kept (s T : list ascii) (nread : Z) :
  rewritable s = false ->
  normalize (in_buffer s T) nread = ok (in_buffer s T, int_of_size_t nread).
Proof.
  intros Hs. destruct (every_message_has_a_shape s) as (e & Hwf & <-).
  rewrite rewritable_render in Hs by exact Hwf.
  destruct e as [i n rest|i r|i text|i|n rest|r|text];
    try discriminate Hs; cbn [well_formed render] in *.
  - apply andb_true_iff in Hwf. destruct Hwf as [Hi Hr].
    apply negb_true_iff in Hr. apply has_false in Hr.
    destruct (iface_head i Hi) as [HsP HnP].
    destruct (in_buffer_cstr ((IFNAME ++ i) ++ [SPACE; LT]) r T) as [T' E].
    replace (IFNAME ++ i ++ SPACE :: LT :: r)
      with (((IFNAME ++ i) ++ [SPACE; LT]) ++ r)
      by (repeat (rewrite <- app_assoc; cbn [app]); reflexivity).
    rewrite E.
    replace (((IFNAME ++ i) ++ [SPACE; LT]) ++ cstr r)
      with ((IFNAME ++ i) ++ SPACE :: LT :: cstr r)
      by (repeat (rewrite <- app_assoc; cbn [app]); reflexivity).
    apply iface_open_tag_kept; auto using iface_prefix.
  - apply andb_true_iff in Hwf. destruct Hwf as [Hi Ht].
    destruct (iface_head i Hi) as [HsP HnP].
    rewrite (app_assoc IFNAME i).
    apply iface_text_kept; auto using iface_prefix.
  - apply negb_true_iff in Hwf. apply has_false in Hwf.
    destruct (in_buffer_cstr [LT] r T) as [T' E].
    change (LT :: r) with ([LT] ++ r). rewrite E.
    apply bare_open_tag_kept. exact Hwf.
  - apply andb_true_iff in Hwf. destruct Hwf as [Ht Hp].
    apply negb_true_iff in Hp. apply plain_kept; assumption.
Qed.

Lemma ok_length (b b' : list ascii) (n m : nat) :
  @ok (list ascii * Z) (b, Z.of_nat n) = ok (b', Z.of_nat m) -> n = m.
Proof.
  intros K. apply Nat2Z.inj.
  change (snd (b, Z.of_nat n) = snd (b', Z.of_nat m)).
  assert (E : (b, Z.of_nat n) = (b', Z.of_nat m)).
  { unfold ok in K. generalize dependent (Z.of_nat n).
    generalize dependent (Z.of_nat m). intros z z' K. injection K as -> ->.
    reflexivity. }
  rewrite E. reflexivity.
Qed.

(** A message that is rewritable is not returned as it is. *)
Lemma rewritable_changed (s T : list ascii) :
  rewritable s = true ->
  fits_int (length s) ->
  normalize (in_buffer s T) (Z.of_nat (length s)) <>
  ok (in_buffer s T, Z.of_nat (length s)).
Proof.
  intros Hs Hfit. destruct (every_message_has_a_shape s) as (e & Hwf & <-).
  rewrite rewritable_render in Hs by exact Hwf.
  destruct e as [i n rest|i r|i text|i|n rest|r|text];
    try discriminate Hs; cbn [well_formed render] in *.
  - apply andb_true_iff in Hwf. destruct Hwf as [Hi Hn].
    destruct (iface_head i Hi) as [HsP HnP].
    apply level_text_spec in Hn. destruct Hn as [Hgn Hnn].
    rewrite (app_assoc IFNAME i) in *.
    rewrite (tagged_iface_move (IFNAME ++ i) n rest) by
      (auto using iface_prefix).
    destruct (memmove _ _ _ _) as [f|b]; run; [discriminate|].
    intros K. apply ok_length in K. lengths K. lia.
  - apply negb_true_iff in Hwf.
    rewrite unframed_text_replaced by exact Hwf.
    unfold snprintf, in_buffer. rewrite length_app. cbn [length].
    change (length IFNAME) with 7.
    replace (7 + length i + S (length T))
      with (S (S (6 + length i + length T))) by lia.
    replace (S (S (6 + length i + length T)) - 1)
      with (S (6 + length i + length T)) by lia.
    change (firstn (S (6 + length i + length T)) WPA_EVENT_IGNORE)
      with ("C"%char :: firstn (6 + length i + length T) (tl WPA_EVENT_IGNORE)).
    intros K. discriminate K.
  - apply level_text_spec in Hwf. destruct Hwf as [Hgn Hnn].
    pose proof (bare_tagged_stripped n rest Hgn Hnn Hfit T) as E.
    unfold run_normalize in E. rewrite E.
    intros K. apply ok_length in K. lengths K. lia.
Qed.

End Idempotence.

Lemma ignore_marker_kept (L : nat) (buf : list ascii) :
  length buf = S (S L) ->
  normalize (fst (snprintf buf WPA_EVENT_IGNORE))
            (snd (snprintf buf WPA_EVENT_IGNORE)) =
  ok (snprintf buf WPA_EVENT_IGNORE).
Proof.
  intros HL. unfold snprintf. rewrite HL.
  replace (S (S L) - 1) with (S L) by lia.
  cbn [fst snd].
  change (firstn (S L) WPA_EVENT_IGNORE)
    with ("C"%char :: firstn L (tl WPA_EVENT_IGNORE)).
  cbn [app].
  rewrite normalize_other; reflexivity.
Qed.

(** C7, amended.  Every message has one of seven shapes: [IFNAME=i
    <n>rest], [IFNAME=i <r] with the tag left open, [IFNAME=i text] with
    text that opens no tag, [IFNAME=i] with no space behind it, [<n>rest],
    [<r] with the tag left open, and text with neither prefix nor tag.
    On each of them the first pass completes, for [IFNAME=i <n>rest] given
    a byte of buffer behind the terminator and for the others in any
    buffer, and a second pass returns the buffer and the length of the
    first exactly when the message is settled: always for the five shapes
    without a closed tag; for [IFNAME=i <n>rest] when [rest] does not begin
    with a further closed tag; for [<n>rest] when a pass would not rewrite
    [rest].  On a message that is not settled the second pass does not
    return the result of the first. *)
Theorem second_pass_identity_iff_settled (msg tail : list ascii) :
  fits_int (length msg) ->
  exists e,
    well_formed e = true /\ render e = msg /\
    (room e tail ->
     exists b n,
       run_normalize msg tail = ok (b, n) /\
       (settled e = true -> normalize b n = ok (b, n)) /\
       (settled e = false -> normalize b n <> ok (b, n))).
Proof.
  intros Hfit. destruct (every_message_has_a_shape msg) as (e & Hwf & <-).
  exists e. split; [exact Hwf|]. split; [reflexivity|]. intros Hroom.
  pose proof (rewritable_render e Hwf) as Hrw.
  assert (Hstable : rewritable (render e) = false -> settled e = true ->
            exists b n,
              run_normalize (render e) tail = ok (b, n) /\
              (settled e = true -> normalize b n = ok (b, n)) /\
              (settled e = false -> normalize b n <> ok (b, n))).
  { intros Hr Hset. unfold fits_int in Hfit.
    exists (in_buffer (render e) tail), (Z.of_nat (length (render e))).
    unfold run_normalize. rewrite !stable_kept by exact Hr.
    rewrite int_of_size_t_exact by lia.
    split; [reflexivity|]. split; [reflexivity|].
    intros K. rewrite Hset in K. discriminate K. }
  destruct e as [i n rest|i r|i text|i|n rest|r|text];
    try (apply Hstable; [exact Hrw | reflexivity]);
    cbn [well_formed render settled room] in *; clear Hstable Hrw.
  - (* IFNAME=i <n>rest *)
    destruct tail as [|x T]; [contradiction Hroom; reflexivity|].
    apply andb_true_iff in Hwf. destruct Hwf as [Hi Hn].
    destruct (iface_head i Hi) as [HsP HnP].
    apply level_text_spec in Hn. destruct Hn as [Hgn Hnn].
    assert (Hrest : rewritable ((IFNAME ++ i) ++ SPACE :: rest) =
                    tag_at_head rest).
    { rewrite <- app_assoc. apply rewritable_iface. exact Hi. }
    assert (Hshort : fits_int (length ((IFNAME ++ i) ++ SPACE :: rest))).
    { unfold fits_int in *. lengths Hfit. lia. }
    rewrite (app_assoc IFNAME i) in *.
    eexists. eexists. split.
    + apply tagged_iface_stripped; auto using iface_prefix.
    + split.
      * intros Hs. apply negb_true_iff in Hs.
        rewrite stable_kept by (rewrite Hrest; exact Hs).
        rewrite int_of_size_t_exact; [reflexivity|].
        unfold fits_int in Hshort. lia.
      * intros Hs. apply negb_false_iff in Hs.
        apply rewritable_changed; [rewrite Hrest; exact Hs | exact Hshort].
  - (* IFNAME=i *)
    apply negb_true_iff in Hwf.
    unfold run_normalize. rewrite unframed_text_replaced by exact Hwf.
    destruct (snprintf (in_buffer (IFNAME ++ i) tail) WPA_EVENT_IGNORE)
      as [b n] eqn:Es.
    exists b, n. split; [reflexivity|]. split; [|discriminate].
    intros _.
    pose proof (ignore_marker_kept (length i + 6 + length tail)
                  (in_buffer (IFNAME ++ i) tail)) as K.
    rewrite Es in K. apply K.
    unfold in_buffer. rewrite !length_app. cbn [length].
    change (length IFNAME) with 7. lia.
  - (* <n>rest *)
    apply level_text_spec in Hwf. destruct Hwf as [Hgn Hnn].
    assert (Hshort : fits_int (length rest)).
    { unfold fits_int in *. lengths Hfit. lia. }
    eexists. eexists. split.
    + apply bare_tagged_stripped; assumption.
    + split.
      * intros Hs. apply negb_true_iff in Hs.
        rewrite stable_kept by exact Hs.
        rewrite int_of_size_t_exact; [reflexivity|].
        unfold fits_int in Hshort. lia.
      * intros Hs. apply negb_false_iff in Hs.
        apply rewritable_changed; assumption.
Qed.

Lemma second_pass_identity_iff_settled_witness :
  exists e,
    well_formed e = true /\
    render e = chars "IFNAME=wlan0 <3>CTRL-EVENT-CONNECTED" /\
    (room e [" "%char] ->
     exists b n,
       run_normalize (chars "IFNAME=wlan0 <3>CTRL-EVENT-CONNECTED") [" "%char]
         = ok (b, n) /\
       (settled e = true -> normalize b n = ok (b, n)) /\
       (settled e = false -> normalize b n <> ok (b, n))).
Proof.
  apply (second_pass_identity_iff_settled
           (chars "IFNAME=wlan0 <3>CTRL-EVENT-CONNECTED") [" "%char]).
  unfold fits_int. vm_compute. discriminate.
Defined.

(** * A tagged event that fills the buffer *)

(** C1.  The event [IFNAME=w <3>X] has 13 bytes.  Received into a buffer
    of 14 bytes it fills the buffer up to the terminator, and the move of
    the tagged branch, one byte longer than the text and its terminator,
    reads [buf[14]]: the wait leaves the buffer.  With a fifteenth byte
    the same event is rewritten to [IFNAME=w X] and 10 is returned. *)
Theorem tagged_event_filling_buffer_overread :
  wifi_wait_on_socket [PollReturn POLLIN [] (status "running")]
    (Delivered (chars "IFNAME=w <3>X")) (repeat "-"%char 14) connected_wlan0
  = Some (oob 14)
  /\ (exists st,
      wifi_wait_on_socket [PollReturn POLLIN [] (status "running")]
        (Delivered (chars "IFNAME=w <3>X")) (repeat "-"%char 15)
        connected_wlan0
      = Some (ok (mkWait (chars "IFNAME=w X" ++ NUL :: chars "-X" ++ [NUL; "-"%char])
                    10 st))).
Proof.
  split.
  - vm_compute. reflexivity.
  - eexists. vm_compute. reflexivity.
Qed.

(** * The event wait *)

Section Wait.

Lemma set_exit_pending_same (st : state) :
  set_exit_pending (exit_pending st) st = st.
Proof. destruct st. reflexivity. Qed.

(** What [wifi_ctrl_recv] leaves alone: the handles, the descriptors and
    the interface name; bytes in flight are never taken away. *)
Lemma wifi_ctrl_recv_frame (polls : list poll_outcome) (rx : transport_outcome)
  (mon : handle) (reply : list ascii) (reply_len : Z) (st : state)
  (r : recv_state) :
  wifi_ctrl_recv polls rx mon reply reply_len st = Some (ok r) ->
  exit_sockets (rc_state r) = exit_sockets st /\
  ctrl_conn (rc_state r) = ctrl_conn st /\
  monitor_conn (rc_state r) = monitor_conn st /\
  primary_iface (rc_state r) = primary_iface st /\
  open_handles (rc_state r) = open_handles st /\
  open_fds (rc_state r) = open_fds st /\
  exists arrived, exit_pending (rc_state r) = exit_pending st ++ arrived.
Proof.
  revert st. induction polls as [|o polls IH]; intros st H; [discriminate|].
  destruct o as [|revents0 signalled st_prop]; cbn [wifi_ctrl_recv] in H.
  - injection H as <-. cbn. repeat split. exists []. symmetry. apply app_nil_r.
  - set (st1 := set_exit_pending (exit_pending (log (SysPoll 30000) st) ++ signalled)
                  (log (SysPoll 30000) st)) in *.
    assert (F1 : exit_sockets st1 = exit_sockets st /\
                 ctrl_conn st1 = ctrl_conn st /\
                 monitor_conn st1 = monitor_conn st /\
                 primary_iface st1 = primary_iface st /\
                 open_handles st1 = open_handles st /\
                 open_fds st1 = open_fds st /\
                 exit_pending st1 = exit_pending st ++ signalled)
      by (repeat split).
    destruct F1 as (E1 & E2 & E3 & E4 & E5 & E6 & E7).
    match type of H with
    | (if ?c then _ else _) = _ => destruct c
    end.
    + destruct (wifi_supplicant_connection_active st_prop <? 0)%Z.
      * injection H as <-. cbn [rc_state].
        rewrite E1, E2, E3, E4, E5, E6, E7. repeat split.
        exists signalled. reflexivity.
      * apply IH in H.
        destruct H as (H1 & H2 & H3 & H4 & H5 & H6 & [arrived H7]).
        rewrite H1, H2, H3, H4, H5, H6, H7, E1, E2, E3, E4, E5, E6, E7.
        repeat split. exists (signalled ++ arrived). rewrite app_assoc. reflexivity.
    + destruct (negb (Z.land revents0 POLLIN =? 0)%Z).
      * destruct (transport_fill rx reply reply_len) as [f|[[ret b] l]];
          cbn in H; [discriminate|].
        injection H as <-. cbn [rc_state].
        change (exit_sockets (log (WpaCtrlRecv mon) st1)) with (exit_sockets st1).
        change (ctrl_conn (log (WpaCtrlRecv mon) st1)) with (ctrl_conn st1).
        change (monitor_conn (log (WpaCtrlRecv mon) st1)) with (monitor_conn st1).
        change (primary_iface (log (WpaCtrlRecv mon) st1)) with (primary_iface st1).
        change (open_handles (log (WpaCtrlRecv mon) st1)) with (open_handles st1).
        change (open_fds (log (WpaCtrlRecv mon) st1)) with (open_fds st1).
        change (exit_pending (log (WpaCtrlRecv mon) st1)) with (exit_pending st1).
        rewrite E1, E2, E3, E4, E5, E6, E7. repeat split.
        exists signalled. reflexivity.
      * injection H as <-. cbn [rc_state].
        rewrite E1, E2, E3, E4, E5, E6, E7. repeat split.
        exists signalled. reflexivity.
Qed.

(** Timeouts with the daemon alive and nothing in the exit pair only
    repeat the call of [poll]. *)
Lemma quiet_timeouts_pass (quiet rest : list poll_outcome)
  (rx : transport_outcome) (mon : handle) (reply : list ascii)
  (reply_len : Z) (st : state) :
  forallb quiet_timeout quiet = true ->
  exit_revents st = 0%Z ->
  wifi_ctrl_recv (quiet ++ rest) rx mon reply reply_len st =
  wifi_ctrl_recv rest rx mon reply reply_len (polled (length quiet) st).
Proof.
  revert st. induction quiet as [|o quiet IH]; intros st Hq Hexit.
  - reflexivity.
  - cbn [forallb] in Hq. apply andb_true_iff in Hq. destruct Hq as [Ho Hq].
    destruct o as [|revents0 signalled st_prop]; [discriminate|].
    cbn [quiet_timeout] in Ho.
    apply andb_true_iff in Ho. destruct Ho as [Ho Hact].
    apply andb_true_iff in Ho. destruct Ho as [Hrev Hsig].
    apply Nat.eqb_eq in Hsig. apply length_zero_iff_nil in Hsig. subst signalled.
    apply Z.eqb_eq in Hact.
    cbn [app wifi_ctrl_recv length polled].
    rewrite app_nil_r, set_exit_pending_same.
    change (exit_revents (log (SysPoll 30000) st)) with (exit_revents st).
    rewrite Hexit, Hrev, Hact. cbn.
    apply IH; assumption.
Qed.

Lemma polled_frame (n : nat) (st : state) :
  exit_sockets (polled n st) = exit_sockets st /\
  ctrl_conn (polled n st) = ctrl_conn st /\
  monitor_conn (polled n st) = monitor_conn st /\
  primary_iface (polled n st) = primary_iface st /\
  open_handles (polled n st) = open_handles st /\
  open_fds (polled n st) = open_fds st /\
  exit_pending (polled n st) = exit_pending st /\
  trace (polled n st) = trace st ++ repeat (SysPoll 30000) n.
Proof.
  revert st. induction n as [|n IH]; intros st; cbn [polled repeat].
  - rewrite app_nil_r. repeat split.
  - destruct (IH (log (SysPoll 30000) st))
      as (H1 & H2 & H3 & H4 & H5 & H6 & H7 & H8).
    rewrite H1, H2, H3, H4, H5, H6, H7, H8. cbn.
    rewrite <- app_assoc. repeat split.
Qed.

End Wait.

(** * Cancellation of the event wait *)

(** C9, counterexample.  The byte that made the exit descriptor readable
    is still in the socket pair when the wait has returned. *)
Lemma cancellation_byte_left_unread :
  match wifi_wait_on_socket [PollReturn 0 [] (status "running")]
          (Failed 0) (repeat NUL 64)
          (set_exit_pending (chars "T") connected_wlan0) with
  | Some (inr w) =>
      ~ signal_consumed (set_exit_pending (chars "T") connected_wlan0)
          (wt_state w)
  | _ => False
  end.
Proof. vm_compute. discriminate. Qed.

(** C9, amended.  After any number of quiet timeouts, a return of [poll]
    with the exit descriptor readable and no input on the monitor
    descriptor makes the wait return the "connection closed" event.  The
    only calls made are those of [poll]: every byte of the exit pair,
    those that arrived during the wait included, is still in flight, and
    handles, descriptors and the pair are as before. *)
Theorem cancelled_wait_returns_closed (quiet more : list poll_outcome)
  (revents0 : Z) (signalled : list ascii) (st_prop : property)
  (rx : transport_outcome) (buf : list ascii) (st : state) (mon : handle) :
  monitor_conn st = Some mon ->
  forallb quiet_timeout quiet = true ->
  (quiet <> [] -> exit_revents st = 0%Z) ->
  Z.land revents0 POLLIN = 0%Z ->
  exit_revents (set_exit_pending (exit_pending st ++ signalled) st) = POLLIN ->
  exists st',
    wifi_wait_on_socket (quiet ++ PollReturn revents0 signalled st_prop :: more)
      rx buf st
    = Some (ok (synthetic buf CONNECTION_CLOSED st')) /\
    exit_pending st' = exit_pending st ++ signalled /\
    ctrl_conn st' = ctrl_conn st /\
    monitor_conn st' = monitor_conn st /\
    exit_sockets st' = exit_sockets st /\
    open_handles st' = open_handles st /\
    open_fds st' = open_fds st /\
    trace st' = trace st ++ repeat (SysPoll 30000) (S (length quiet)).
Proof.
  intros Hmon Hquiet Hidle Hrev Hexit.
  set (st1 := polled (length quiet) st).
  destruct (polled_frame (length quiet) st)
    as (F1 & F2 & F3 & F4 & F5 & F6 & F7 & F8). fold st1 in F1, F2, F3, F4, F5, F6, F7, F8.
  set (st2 := set_exit_pending (exit_pending (log (SysPoll 30000) st1) ++ signalled)
                (log (SysPoll 30000) st1)).
  exists st2.
  assert (Hloop :
    wifi_ctrl_recv (quiet ++ PollReturn revents0 signalled st_prop :: more)
      rx mon buf (size_sub (Z.of_nat (length buf)) 1) st =
    Some (ok (mkRecv (-2) buf (size_sub (Z.of_nat (length buf)) 1) st2))).
  { assert (Hskip :
      wifi_ctrl_recv (quiet ++ PollReturn revents0 signalled st_prop :: more)
        rx mon buf (size_sub (Z.of_nat (length buf)) 1) st =
      wifi_ctrl_recv (PollReturn revents0 signalled st_prop :: more)
        rx mon buf (size_sub (Z.of_nat (length buf)) 1) st1).
    { destruct quiet as [|o quiet'].
      - reflexivity.
      - apply quiet_timeouts_pass; [exact Hquiet | apply Hidle; discriminate]. }
    rewrite Hskip. cbn [wifi_ctrl_recv]. fold st2.
    assert (Hready : exit_revents st2 = POLLIN).
    { unfold exit_revents in *. cbn in *. rewrite F1, F6, F7. exact Hexit. }
    rewrite Hready, Hrev. cbn [Z.eqb POLLIN negb].
    destruct (revents0 =? 0)%Z; reflexivity. }
  split.
  - unfold wifi_wait_on_socket. rewrite Hmon, Hloop. reflexivity.
  - cbn. rewrite F1, F2, F3, F5, F6, F7, F8. repeat split.
    rewrite <- app_assoc. f_equal.
    change (SysPoll 30000 :: repeat (SysPoll 30000) (length quiet))
      with (repeat (SysPoll 30000) (S (length quiet))).
    rewrite <- repeat_cons. reflexivity.
Qed.

Lemma cancelled_wait_returns_closed_witness :
  exists st',
    wifi_wait_on_socket
      ([PollReturn 0 [] (status "running")]
         ++ PollReturn 0 (chars "T") (status "running") :: [])
      (Failed 0) (repeat NUL 64) connected_wlan0
    = Some (ok (synthetic (repeat NUL 64) CONNECTION_CLOSED st')) /\
    exit_pending st' = exit_pending connected_wlan0 ++ chars "T" /\
    ctrl_conn st' = ctrl_conn connected_wlan0 /\
    monitor_conn st' = monitor_conn connected_wlan0 /\
    exit_sockets st' = exit_sockets connected_wlan0 /\
    open_handles st' = open_handles connected_wlan0 /\
    open_fds st' = open_fds connected_wlan0 /\
    trace st' = trace connected_wlan0 ++ repeat (SysPoll 30000) 2.
Proof.
  apply (cancelled_wait_returns_closed
           [PollReturn 0 [] (status "running")] [] 0 (chars "T")
           (status "running") (Failed 0) (repeat NUL 64) connected_wlan0 2).
  - reflexivity.
  - reflexivity.
  - intros _. reflexivity.
  - reflexivity.
  - reflexivity.
Defined.

(** * Synthetic terminal events *)

(** C6, counterexample.  The marker ends in a space, so two spaces stand
    before the dash in the text made up after a disconnect. *)
Lemma disconnect_then_wait_text :
  event_text
    (wifi_wait_on_socket [] (Failed 0) (repeat NUL 64)
       (wifi_close_supplicant_connection (fun _ => status "stopped")
          connected_wlan0))
  <> Some (chars "IFNAME=wlan0 CTRL-EVENT-TERMINATING - connection closed").
Proof. vm_compute. discriminate. Qed.

Lemma terminal_event_text (iface reason : list ascii) :
  terminal_event iface reason =
  chars "IFNAME=" ++ iface ++ chars " CTRL-EVENT-TERMINATING  - " ++ reason.
Proof. reflexivity. Qed.

Lemma snprintf_fits (buf s : list ascii) :
  length s < length buf ->
  snprintf buf s = (s ++ NUL :: skipn (S (length s)) buf, Z.of_nat (length s)).
Proof.
  intros H. unfold snprintf.
  destruct (length buf) as [|L] eqn:E; [lia|].
  rewrite firstn_all2 by lia. reflexivity.
Qed.

Lemma sys_close_monitor (fd : Z) (st : state) :
  monitor_conn (sys_close fd st) = monitor_conn st.
Proof. unfold sys_close. cbv zeta. destruct (_ =? _)%Z; reflexivity. Qed.

Lemma sys_close_iface (fd : Z) (st : state) :
  primary_iface (sys_close fd st) = primary_iface st.
Proof. unfold sys_close. cbv zeta. destruct (_ =? _)%Z; reflexivity. Qed.

Lemma wifi_close_sockets_monitor (st : state) :
  monitor_conn (wifi_close_sockets st) = None /\
  primary_iface (wifi_close_sockets st) = primary_iface st.
Proof.
  unfold wifi_close_sockets. cbv zeta.
  set (st1 := match ctrl_conn st with
              | Some h => set_ctrl_conn None (wpa_ctrl_close h st)
              | None => st
              end).
  assert (H1 : monitor_conn st1 = monitor_conn st /\
               primary_iface st1 = primary_iface st)
    by (unfold st1; destruct (ctrl_conn st); split; reflexivity).
  set (st2 := match monitor_conn st1 with
              | Some h => set_monitor_conn None (wpa_ctrl_close h st1)
              | None => st1
              end).
  assert (H2 : monitor_conn st2 = None /\
               primary_iface st2 = primary_iface st).
  { unfold st2. destruct (monitor_conn st1) eqn:E; cbn.
    - split; [reflexivity | apply H1].
    - split; [exact E | apply H1]. }
  destruct H2 as [H2 H2'].
  set (st3 := if (fst (exit_sockets st2) >=? 0)%Z
              then set_exit_sockets ((-1)%Z, snd (exit_sockets st2))
                     (sys_close (fst (exit_sockets st2)) st2)
              else st2).
  assert (H3 : monitor_conn st3 = None /\
               primary_iface st3 = primary_iface st).
  { unfold st3.
    destruct (fst (exit_sockets st2) >=? 0)%Z;
      cbn [monitor_conn primary_iface set_exit_sockets].
    - rewrite sys_close_monitor, sys_close_iface. split; assumption.
    - split; assumption. }
  destruct H3 as [H3 H3'].
  destruct (snd (exit_sockets st3) >=? 0)%Z;
    cbn [monitor_conn primary_iface set_exit_sockets].
  - rewrite sys_close_monitor, sys_close_iface. split; assumption.
  - split; assumption.
Qed.

Lemma close_wait_frame (statuses : nat -> property) (count k : nat)
  (st : state) :
  monitor_conn (close_wait statuses count k st) = monitor_conn st /\
  primary_iface (close_wait statuses count k st) = primary_iface st.
Proof.
  revert k st. induction count as [|count IH]; intros k st; cbn [close_wait].
  - split; reflexivity.
  - destruct (property_get (statuses k) EmptyString) as [len v].
    destruct (negb (len =? 0)%Z && strcmp_eq v "stopped").
    + split; reflexivity.
    + destruct (IH (S k) (log (Usleep 100000) st)) as [H1 H2].
      rewrite H1, H2. split; reflexivity.
Qed.

(** C6, amended.  Every event the wait makes up is the text
    [IFNAME=<interface> CTRL-EVENT-TERMINATING  - <reason>] (two spaces
    before the dash) printed by [snprintf]: "connection closed" without
    a monitor connection, after a disconnect, and when [wifi_ctrl_recv]
    returns -2; "recv error" on any other negative result; "signal 0
    received" on a result of 0 with no bytes.  The whole text and a
    terminator are in the buffer when it has room for them, its first
    [buflen - 1] characters otherwise; the length of the whole text is
    returned. *)
Theorem terminal_events_format (polls : list poll_outcome)
  (rx : transport_outcome) (buf : list ascii) (st : state) :
  let text := fun reason =>
    chars "IFNAME=" ++ primary_iface st
      ++ chars " CTRL-EVENT-TERMINATING  - " ++ reason in
  let event := fun b reason st' =>
    Some (ok (mkWait (fst (snprintf b (text reason)))
                     (Z.of_nat (length (text reason))) st')) in
  (monitor_conn st = None ->
   wifi_wait_on_socket polls rx buf st = event buf CONNECTION_CLOSED st)
  /\ (forall statuses,
        wifi_wait_on_socket polls rx buf
          (wifi_close_supplicant_connection statuses st)
        = event buf CONNECTION_CLOSED
            (wifi_close_supplicant_connection statuses st))
  /\ (forall mon r,
        monitor_conn st = Some mon ->
        wifi_ctrl_recv polls rx mon buf (size_sub (Z.of_nat (length buf)) 1) st
          = Some (ok r) ->
        (rc_ret r = (-2)%Z ->
         wifi_wait_on_socket polls rx buf st
           = event (rc_reply r) CONNECTION_CLOSED (rc_state r))
        /\ ((rc_ret r < 0)%Z -> rc_ret r <> (-2)%Z ->
            wifi_wait_on_socket polls rx buf st
              = event (rc_reply r) RECV_ERROR (rc_state r))
        /\ (forall b,
              rc_ret r = 0%Z -> rc_reply_len r = 0%Z ->
              store (rc_reply r) 0 NUL = ok b ->
              wifi_wait_on_socket polls rx buf st
                = event b SIGNAL_0_RECEIVED (rc_state r)))
  /\ (forall b reason,
        length (text reason) < length b ->
        fst (snprintf b (text reason))
          = text reason ++ NUL :: skipn (S (length (text reason))) b).
Proof.
  intros text event.
  assert (Hsyn : forall b reason st',
            primary_iface st' = primary_iface st ->
            Some (ok (synthetic b reason st')) = event b reason st').
  { intros b reason st' Hif. unfold synthetic, event.
    rewrite Hif, terminal_event_text. fold (text reason).
    unfold snprintf. reflexivity. }
  split; [|split; [|split]].
  - intros Hmon. unfold wifi_wait_on_socket. rewrite Hmon.
    apply Hsyn. reflexivity.
  - intros statuses. unfold wifi_close_supplicant_connection.
    destruct (close_wait_frame statuses 50 0 (wifi_close_sockets st))
      as [H1 H2].
    destruct (wifi_close_sockets_monitor st) as [H3 H4].
    unfold wifi_wait_on_socket. rewrite H1, H3.
    apply Hsyn. rewrite H2, H4. reflexivity.
  - intros mon r Hmon Hrecv.
    destruct (wifi_ctrl_recv_frame _ _ _ _ _ _ _ Hrecv)
      as (_ & _ & _ & Hif & _).
    destruct r as [ret b l st']. cbn [rc_ret rc_reply rc_reply_len rc_state] in *.
    unfold wifi_wait_on_socket. unfold ok in Hrecv. rewrite Hmon, Hrecv.
    cbv beta iota.
    split; [|split].
    + intros ->. apply Hsyn. exact Hif.
    + intros Hneg Hne.
      destruct (Z.eqb_spec ret (-2)); [contradiction|].
      destruct (Z.ltb_spec ret 0); [|lia].
      apply Hsyn. exact Hif.
    + intros b' -> -> Hstore. cbn [Z.eqb Z.ltb Z.to_nat andb].
      rewrite Hstore. run.
      apply Hsyn. exact Hif.
  - intros b reason Hroom. rewrite snprintf_fits by exact Hroom. reflexivity.
Qed.

Lemma terminal_events_format_witness :
  event_text
    (wifi_wait_on_socket [] (Failed 0) (repeat NUL 64)
       (wifi_close_supplicant_connection (fun _ => status "stopped")
          connected_wlan0))
  = Some (chars "IFNAME=wlan0 CTRL-EVENT-TERMINATING  - connection closed").
Proof.
  destruct (terminal_events_format [] (Failed 0) (repeat NUL 64)
              connected_wlan0) as (_ & H & _ & _).
  rewrite (H (fun _ => status "stopped")). reflexivity.
Defined.

(** * The connector *)

(** C5, counterexample.  The connect does not look at the handles it
    finds.  On a channel that is already connected, a connect that finds
    the daemon not running returns -1 with both handles still set; one
    whose first open fails returns -1 with the control handle null, the
    monitor handle still set, and both earlier connections and the exit
    pair still open. *)
Lemma failed_connect_on_connected_channel :
  let down := mkConnectWorld (status "stopped") (Some 5) (Some 6) 0
                (Some (7%Z, 8%Z)) in
  let refused := mkConnectWorld (status "running") None (Some 6) 0
                   (Some (7%Z, 8%Z)) in
  let path := "/data/system/wpa_supplicant/wlan0"%string in
  (fst (wifi_connect_on_socket_path down path connected_wlan0) = (-1)%Z /\
   ctrl_conn (snd (wifi_connect_on_socket_path down path connected_wlan0))
     = Some 1 /\
   monitor_conn (snd (wifi_connect_on_socket_path down path connected_wlan0))
     = Some 2)
  /\ (fst (wifi_connect_on_socket_path refused path connected_wlan0)
        = (-1)%Z /\
      ctrl_conn (snd (wifi_connect_on_socket_path refused path connected_wlan0))
        = None /\
      monitor_conn
        (snd (wifi_connect_on_socket_path refused path connected_wlan0))
        = Some 2 /\
      open_handles
        (snd (wifi_connect_on_socket_path refused path connected_wlan0))
        = [2; 1] /\
      open_fds (snd (wifi_connect_on_socket_path refused path connected_wlan0))
        = [3%Z; 4%Z]).
Proof. repeat split. Qed.

(** C5, amended.  A connect from the disconnected state either fails, and then
    both handles are null again, every connection it opened has been
    closed, the last opened first, and connections, descriptors and exit
    pair are those of before; or it succeeds, and then both handles and
    both descriptors of the pair are set and nothing was closed.  The
    pair is asked for only behind two successful opens and a successful
    attach. *)
Theorem connect_all_or_none (w : connect_world) (path : string) (st : state) :
  ctrl_conn st = None ->
  monitor_conn st = None ->
  let ret := fst (wifi_connect_on_socket_path w path st) in
  let st' := snd (wifi_connect_on_socket_path w path st) in
  exists new,
    trace st' = trace st ++ new /\
    (ret <> 0%Z ->
     ret = (-1)%Z /\
     ctrl_conn st' = None /\ monitor_conn st' = None /\
     open_handles st' = open_handles st /\
     open_fds st' = open_fds st /\
     exit_sockets st' = exit_sockets st /\
     exit_pending st' = exit_pending st /\
     closed new = rev (opened new)) /\
    (ret = 0%Z ->
     exists c m a b,
       ctrl_conn st' = Some c /\ monitor_conn st' = Some m /\
       exit_sockets st' = (a, b) /\
       open_handles st' = m :: c :: open_handles st /\
       open_fds st' = a :: b :: open_fds st /\
       closed new = []) /\
    (existsb is_socketpair new = true ->
     exists c m r,
       firstn 4 new = [WpaCtrlOpen path (Some c); WpaCtrlOpen path (Some m);
                       WpaCtrlAttach m 0; SocketPair r]).
Proof.
  intros Hc Hm. unfold wifi_connect_on_socket_path.
  destruct w as [stp oc om att sp]. cbn [cw_status cw_open_ctrl cw_open_monitor cw_attach cw_socketpair].
  destruct (property_get stp EmptyString) as [len v].
  destruct ((len =? 0)%Z || negb (strcmp_eq v "running")).
  { exists []. cbn. rewrite app_nil_r.
    repeat split; try first [assumption | discriminate | congruence]. }
  destruct oc as [c|].
  2:{ exists [WpaCtrlOpen path None]. cbn.
      repeat split; try first [assumption | discriminate | congruence]. }
  destruct om as [m|].
  2:{ exists [WpaCtrlOpen path (Some c); WpaCtrlOpen path None;
              WpaCtrlClose c].
      cbn. repeat (rewrite Nat.eqb_refl; cbn). rewrite <- ?app_assoc. cbn.
      repeat split; try first [assumption | discriminate | congruence]. }
  cbn [wpa_ctrl_open wpa_ctrl_attach].
  destruct (Z.eqb_spec att 0) as [Eatt|Eatt]; cbn [negb].
  2:{ exists [WpaCtrlOpen path (Some c); WpaCtrlOpen path (Some m);
              WpaCtrlAttach m att; WpaCtrlClose m; WpaCtrlClose c].
      cbn. repeat (rewrite Nat.eqb_refl; cbn). rewrite <- ?app_assoc. cbn.
      repeat split; try first [assumption | discriminate | congruence]. }
  subst att.
  destruct sp as [[a b]|].
  - exists [WpaCtrlOpen path (Some c); WpaCtrlOpen path (Some m);
            WpaCtrlAttach m 0; SocketPair (Some (a, b))].
    cbn. rewrite <- !app_assoc. cbn.
    split; [reflexivity|]. split; [intros K; contradiction|].
    split.
    + intros _. exists c, m, a, b. repeat split.
    + intros _. exists c, m, (Some (a, b)). reflexivity.
  - exists [WpaCtrlOpen path (Some c); WpaCtrlOpen path (Some m);
            WpaCtrlAttach m 0; SocketPair None; WpaCtrlClose m; WpaCtrlClose c].
    cbn. repeat (rewrite Nat.eqb_refl; cbn). rewrite <- ?app_assoc. cbn.
    split; [reflexivity|]. split.
    + intros _. repeat split; assumption.
    + split; [discriminate|].
      intros _. exists c, m, None. reflexivity.
Qed.

Lemma connect_all_or_none_witness :
  exists new,
    trace (snd (wifi_connect_on_socket_path
                  (mkConnectWorld (status "running") (Some 1) (Some 2) 0 None)
                  "/data/system/wpa_supplicant/wlan0"
                  (mkState ((-1)%Z, (-1)%Z) None None (chars "wlan0") [] [] [] [])))
      = [] ++ new /\
    closed new = [2; 1] /\ opened new = [1; 2].
Proof.
  destruct (connect_all_or_none
              (mkConnectWorld (status "running") (Some 1) (Some 2) 0 None)
              "/data/system/wpa_supplicant/wlan0"
              (mkState ((-1)%Z, (-1)%Z) None None (chars "wlan0") [] [] [] []))
    as [new [Ht _]].
  - reflexivity.
  - reflexivity.
  - exists new. split; [exact Ht|].
    cbn in Ht. subst new. split; reflexivity.
Defined.

(** * The command executor *)

Section Executor.

Lemma command_probe (cmd : string) :
  strncmp_eq (chars cmd ++ [NUL]) 0 (chars "PING") 4 =
  ok (starts_with (chars "PING") (chars cmd)).
Proof.
  apply (strncmp_eq_literal (chars "PING") (chars cmd) [] 0).
  apply has_false. reflexivity.
Qed.

(** The comparison on any buffer: it reads the buffer up to the first
    byte that departs from the marker, and leaves a buffer that ends
    before that. *)
Lemma reply_probe_total (reply : list ascii) :
  strncmp_eq reply 0 (chars "FAIL") 4 =
  if probe_inside reply then ok (starts_with (chars "FAIL") reply)
  else oob (length reply).
Proof.
  unfold probe_inside.
  destruct reply as [|a [|b [|c [|d r]]]];
    cbn [strncmp_eq chars list_ascii_of_string hd tl starts_with length
         Nat.leb orb negb andb];
    repeat match goal with
           | |- context [Ascii.eqb ?x ?y] =>
               destruct (Ascii.eqb_spec x y);
               [subst; try discriminate | try congruence];
               cbn [andb negb orb]
           end;
    try reflexivity; try congruence.
Qed.

(** A reply of four bytes or more decides the comparison by itself. *)
Lemma reply_probe_content (reply : list ascii) (len : Z) :
  4 <= Z.to_nat len ->
  starts_with (chars "FAIL") reply =
  starts_with (chars "FAIL") (reply_content reply len).
Proof.
  intros H. unfold reply_content.
  destruct (Z.to_nat len) as [|[|[|[|k]]]]; try lia.
  destruct reply as [|a [|b [|c [|d r]]]]; reflexivity.
Qed.

Lemma store_inside (buf : list ascii) (k : nat) (c : ascii) :
  k < length buf ->
  store buf k c = ok (firstn k buf ++ c :: skipn (S k) buf).
Proof.
  intros H. unfold store. destruct (Nat.ltb_spec k (length buf)); [|lia].
  reflexivity.
Qed.

Lemma store_outside (buf : list ascii) (k : nat) (c : ascii) :
  length buf <= k -> store buf k c = oob k.
Proof.
  intros H. unfold store. destruct (Nat.ltb_spec k (length buf)); [lia|].
  reflexivity.
Qed.

Lemma stored_byte (buf : list ascii) (k : nat) (c : ascii) :
  k < length buf ->
  nth_error (firstn k buf ++ c :: skipn (S k) buf) k = Some c /\
  length (firstn k buf ++ c :: skipn (S k) buf) = length buf.
Proof.
  intros H. split.
  - rewrite nth_error_app2 by (rewrite length_firstn; lia).
    rewrite length_firstn. replace (k - Nat.min k (length buf)) with 0 by lia.
    reflexivity.
  - rewrite length_app, length_firstn. cbn [length]. rewrite length_skipn. lia.
Qed.

(** The library writes only the bytes it counts. *)
Lemma transport_fill_frame (t : transport_outcome) (reply : list ascii)
  (reply_len ret : Z) (reply1 : list ascii) (len1 : Z) :
  transport_fill t reply reply_len = ok (ret, reply1, len1) ->
  length reply1 = length reply /\
  forall i, Z.to_nat len1 <= i -> nth_error reply1 i = nth_error reply i.
Proof.
  unfold transport_fill. destruct t as [data|r].
  - set (d := firstn (Z.to_nat reply_len) data).
    destruct (Nat.leb_spec (length d) (length reply)); [|discriminate].
    intros K. injection K as <- <- <-. split.
    + rewrite length_app, length_skipn. lia.
    + intros i Hi. rewrite Nat2Z.id in Hi.
      rewrite nth_error_app2 by exact Hi.
      rewrite nth_error_skipn. f_equal. lia.
  - intros K. injection K as <- <- <-. split; reflexivity.
Qed.

End Executor.

(** C4, counterexample.  The comparison with ["FAIL"] runs over the
    reply buffer, not over the bytes replied.  A reply of the three bytes
    ["FAI"], stored in a buffer whose fourth byte is ["L"], and an empty
    reply, stored in a buffer that still holds an earlier ["FAIL-BUSY"],
    are both turned down with -1, although the transport reported success
    and the content of neither reply begins with the marker. *)
Lemma stale_bytes_complete_failure_marker :
  wifi_send_command (Delivered (chars "FAI")) "STATUS" (chars "OK-L----") 8
    connected_wlan0
  = ok (mkReply (-1) (chars "FAIL----") 3
          (log (WpaCtrlRequest 1 "STATUS") connected_wlan0))
  /\ starts_with (chars "FAIL") (reply_content (chars "FAIL----") 3) = false
  /\ wifi_send_command (Delivered []) "STATUS" (chars "FAIL-BUSY") 9
       connected_wlan0
     = ok (mkReply (-1) (chars "FAIL-BUSY") 0
             (log (WpaCtrlRequest 1 "STATUS") connected_wlan0))
  /\ starts_with (chars "FAIL") (reply_content (chars "FAIL-BUSY") 0) = false.
Proof. repeat split. Qed.

(** C4, amended.  Without a control connection the command fails with
    -1 and nothing is called.  Otherwise the request is made once, and
    with what the library returned ([ret], the reply buffer, the reply
    length): a timeout (-2) writes the one byte ["T"] into the first
    socket of the exit pair and returns -2; any other negative result
    returns -1; otherwise the reply buffer is compared with ["FAIL"],
    whatever the reply length is: a buffer that begins with the marker
    returns -1, one that ends inside the marker is read beyond its end,
    and everything else returns 0, where for a command that begins with
    ["PING"] the byte behind the reply is set to the terminator, which
    leaves the buffer when the reply fills it.  For a reply of four bytes
    or more the buffer begins with the marker exactly when the reply
    does. *)
Theorem send_command_classified (t : transport_outcome) (cmd : string)
  (reply : list ascii) (reply_len : Z) (st : state) :
  (ctrl_conn st = None ->
   wifi_send_command t cmd reply reply_len st =
   ok (mkReply (-1) reply reply_len st))
  /\ (forall ctrl ret reply1 len1,
        ctrl_conn st = Some ctrl ->
        transport_fill t reply reply_len = ok (ret, reply1, len1) ->
        let st1 := log (WpaCtrlRequest ctrl cmd) st in
        let st2 := sys_write (fst (exit_sockets st)) (chars "T") st1 in
        (ret = (-2)%Z ->
         wifi_send_command t cmd reply reply_len st =
           ok (mkReply (-2) reply1 len1 st2)
         /\ trace st2 = trace st ++ [WpaCtrlRequest ctrl cmd;
                                     SysWrite (fst (exit_sockets st)) (chars "T")]
         /\ (existsb (Z.eqb (fst (exit_sockets st))) (open_fds st) = true ->
             exit_pending st2 = exit_pending st ++ chars "T"))
        /\ ((ret < 0)%Z -> ret <> (-2)%Z ->
            wifi_send_command t cmd reply reply_len st =
              ok (mkReply (-1) reply1 len1 st1))
        /\ ((0 <= ret)%Z -> probe_inside reply1 = false ->
            wifi_send_command t cmd reply reply_len st =
              oob (length reply1))
        /\ ((0 <= ret)%Z -> probe_inside reply1 = true ->
            starts_with (chars "FAIL") reply1 = true ->
            wifi_send_command t cmd reply reply_len st =
              ok (mkReply (-1) reply1 len1 st1))
        /\ ((0 <= ret)%Z -> probe_inside reply1 = true ->
            starts_with (chars "FAIL") reply1 = false ->
            (starts_with (chars "PING") (chars cmd) = false ->
             wifi_send_command t cmd reply reply_len st =
               ok (mkReply 0 reply1 len1 st1))
            /\ (starts_with (chars "PING") (chars cmd) = true ->
                Z.to_nat len1 < length reply1 ->
                wifi_send_command t cmd reply reply_len st =
                  ok (mkReply 0
                        (firstn (Z.to_nat len1) reply1
                           ++ NUL :: skipn (S (Z.to_nat len1)) reply1)
                        len1 st1))
            /\ (starts_with (chars "PING") (chars cmd) = true ->
                length reply1 <= Z.to_nat len1 ->
                wifi_send_command t cmd reply reply_len st =
                  oob (Z.to_nat len1)))
        /\ (4 <= Z.to_nat len1 ->
            starts_with (chars "FAIL") reply1 =
            starts_with (chars "FAIL") (reply_content reply1 len1))).
Proof.
  split.
  - intros Hc. unfold wifi_send_command. rewrite Hc. reflexivity.
  - intros ctrl ret reply1 len1 Hc Hfill st1 st2.
    unfold wifi_send_command. rewrite Hc, Hfill. run.
    fold st1. split; [|split; [|split; [|split; [|split]]]].
    + intros ->. cbn [Z.eqb]. split; [reflexivity|]. split.
      * unfold st2, st1, sys_write. cbv zeta.
        destruct (existsb _ _); cbn; rewrite <- app_assoc; reflexivity.
      * intros Hopen. unfold st2, st1, sys_write. cbv zeta.
        change (open_fds (log (SysWrite (fst (exit_sockets st)) (chars "T"))
                            (log (WpaCtrlRequest ctrl cmd) st)))
          with (open_fds st).
        rewrite Hopen. reflexivity.
    + intros Hneg Hne.
      destruct (Z.eqb_spec ret (-2)); [contradiction|].
      destruct (Z.ltb_spec ret 0); [|lia]. reflexivity.
    + intros Hpos Hout.
      destruct (Z.eqb_spec ret (-2)); [lia|].
      destruct (Z.ltb_spec ret 0); [lia|].
      rewrite reply_probe_total, Hout. reflexivity.
    + intros Hpos Hroom Hfail.
      destruct (Z.eqb_spec ret (-2)); [lia|].
      destruct (Z.ltb_spec ret 0); [lia|].
      rewrite reply_probe_total, Hroom, Hfail. reflexivity.
    + intros Hpos Hroom Hfail.
      destruct (Z.eqb_spec ret (-2)); [lia|].
      destruct (Z.ltb_spec ret 0); [lia|].
      rewrite reply_probe_total, Hroom, Hfail. run.
      rewrite command_probe. run. split; [|split].
      * intros ->. reflexivity.
      * intros -> Hin. rewrite store_inside by exact Hin. reflexivity.
      * intros -> Hout. rewrite store_outside by exact Hout. reflexivity.
    + intros Hlen. apply reply_probe_content. exact Hlen.
Qed.

Lemma send_command_classified_witness :
  wifi_send_command (Delivered (chars "PONG")) "PING" (repeat "-"%char 8) 7
    connected_wlan0
  = ok (mkReply 0 (chars "PONG" ++ NUL :: chars "---") 4
          (log (WpaCtrlRequest 1 "PING") connected_wlan0)).
Proof.
  destruct (send_command_classified (Delivered (chars "PONG")) "PING"
              (repeat "-"%char 8) 7 connected_wlan0) as [_ H].
  destruct (H 1 0%Z (chars "PONG" ++ chars "----") 4%Z)
    as (_ & _ & _ & _ & K & _).
  - reflexivity.
  - reflexivity.
  - destruct K as (_ & K & _).
    + lia.
    + reflexivity.
    + reflexivity.
    + apply K; [reflexivity | cbn; lia].
Defined.

(** * The terminator behind a probe reply *)

(** C10.  A command that begins with ["PING"], on a connected channel,
    with a request that did not fail and a reply buffer that does not
    begin with ["FAIL"], succeeds when [*reply_len] lies inside the reply
    buffer: it returns 0, and the buffer it returns holds the terminator
    at index [*reply_len] and the bytes of the library everywhere else.
    When the buffer ends at [*reply_len] the store leaves it.  Any other
    command succeeds with the buffer as the library left it, in which
    every byte from index [*reply_len] on is the caller's.  Conversely,
    whenever a command succeeds, the terminator is at index [*reply_len],
    inside the buffer, for a command that begins with ["PING"], and the
    bytes from [*reply_len] on are the caller's for any other. *)
Theorem probe_terminator_behind_reply (t : transport_outcome) (cmd : string)
  (reply : list ascii) (reply_len : Z) (st : state) :
  (forall ctrl ret reply1 len1,
     ctrl_conn st = Some ctrl ->
     transport_fill t reply reply_len = ok (ret, reply1, len1) ->
     (0 <= ret)%Z ->
     probe_inside reply1 = true ->
     starts_with (chars "FAIL") reply1 = false ->
     let st1 := log (WpaCtrlRequest ctrl cmd) st in
     (starts_with (chars "PING") (chars cmd) = true ->
      Z.to_nat len1 < length reply1 ->
      exists reply2,
        wifi_send_command t cmd reply reply_len st =
          ok (mkReply 0 reply2 len1 st1) /\
        length reply2 = length reply /\
        nth_error reply2 (Z.to_nat len1) = Some NUL /\
        forall i, i <> Z.to_nat len1 ->
                  nth_error reply2 i = nth_error reply1 i)
     /\ (starts_with (chars "PING") (chars cmd) = true ->
         length reply1 <= Z.to_nat len1 ->
         wifi_send_command t cmd reply reply_len st = oob (Z.to_nat len1))
     /\ (starts_with (chars "PING") (chars cmd) = false ->
         wifi_send_command t cmd reply reply_len st =
           ok (mkReply 0 reply1 len1 st1) /\
         forall i, Z.to_nat len1 <= i ->
                   nth_error reply1 i = nth_error reply i))
  /\ (forall r,
        wifi_send_command t cmd reply reply_len st = ok r ->
        rp_ret r = 0%Z ->
        length (rp_reply r) = length reply
        /\ (starts_with (chars "PING") (chars cmd) = true ->
            Z.to_nat (rp_reply_len r) < length (rp_reply r) /\
            nth_error (rp_reply r) (Z.to_nat (rp_reply_len r)) = Some NUL)
        /\ (starts_with (chars "PING") (chars cmd) = false ->
            forall i, Z.to_nat (rp_reply_len r) <= i ->
                      nth_error (rp_reply r) i = nth_error reply i)).
Proof.
  split.
  - intros ctrl ret reply1 len1 Hc Hfill Hpos Hroom Hfail st1.
    destruct (transport_fill_frame _ _ _ _ _ _ Hfill) as [Hlen Hkeep].
    unfold wifi_send_command. rewrite Hc, Hfill. run. fold st1.
    destruct (Z.eqb_spec ret (-2)); [lia|].
    destruct (Z.ltb_spec ret 0); [lia|].
    rewrite reply_probe_total, Hroom, Hfail. run.
    rewrite command_probe. run. split; [|split].
    + intros -> Hin. rewrite store_inside by exact Hin. run.
      destruct (stored_byte reply1 (Z.to_nat len1) NUL Hin) as [Hb Hl].
      eexists. split; [reflexivity|].
      split; [rewrite Hl; exact Hlen|]. split; [exact Hb|].
      intros i Hi.
      destruct (Nat.lt_ge_cases i (Z.to_nat len1)) as [Hlt|Hge].
      * rewrite nth_error_app1 by (rewrite length_firstn; lia).
        rewrite nth_error_firstn.
        destruct (Nat.ltb_spec i (Z.to_nat len1)); [reflexivity | lia].
      * rewrite nth_error_app2 by (rewrite length_firstn; lia).
        rewrite length_firstn.
        replace (Nat.min (Z.to_nat len1) (length reply1))
          with (Z.to_nat len1) by lia.
        destruct (i - Z.to_nat len1) as [|j] eqn:Ej; [lia|].
        cbn [nth_error]. rewrite nth_error_skipn. f_equal. lia.
    + intros -> Hout. rewrite store_outside by exact Hout. reflexivity.
    + intros ->. split; [reflexivity | exact Hkeep].
  - intros r Hsend Hret. unfold wifi_send_command in Hsend.
    destruct (ctrl_conn st) as [ctrl|].
    2:{ injection Hsend as <-. discriminate Hret. }
    destruct (transport_fill t reply reply_len) as [f|[[ret reply1] len1]] eqn:Hfill;
      [discriminate|].
    destruct (transport_fill_frame _ _ _ _ _ _ Hfill) as [Hlen Hkeep].
    revert Hsend. run.
    destruct (ret =? -2)%Z.
    { intros K. injection K as <-. discriminate Hret. }
    destruct (ret <? 0)%Z.
    { intros K. injection K as <-. discriminate Hret. }
    destruct (strncmp_eq reply1 0 (chars "FAIL") 4) as [f|[|]].
    { intros K. discriminate K. }
    { intros K. injection K as <-. discriminate Hret. }
    rewrite command_probe. run.
    destruct (starts_with (chars "PING") (chars cmd)).
    + unfold store.
      destruct (Nat.ltb_spec (Z.to_nat len1) (length reply1)) as [Hin|Hout];
        unfold oob; run; [|intros K; discriminate K].
      intros K. injection K as <-. cbn [rp_reply rp_reply_len].
      destruct (stored_byte reply1 (Z.to_nat len1) NUL Hin) as [Hb Hl].
      change (match reply1 with
              | [] => []
              | _ :: l => skipn (Z.to_nat len1) l
              end) with (skipn (S (Z.to_nat len1)) reply1).
      rewrite Hl. split; [exact Hlen|]. split; [|discriminate].
      intros _. split; [exact Hin | exact Hb].
    + intros K. injection K as <-. cbn [rp_reply rp_reply_len].
      split; [exact Hlen|]. split; [discriminate|].
      intros _. exact Hkeep.
Qed.

Lemma probe_terminator_behind_reply_witness :
  (exists reply2,
     wifi_send_command (Delivered (chars "PONG")) "PING" (repeat "-"%char 8) 7
       connected_wlan0
     = ok (mkReply 0 reply2 4 (log (WpaCtrlRequest 1 "PING") connected_wlan0))
     /\ length reply2 = 8
     /\ nth_error reply2 4 = Some NUL
     /\ forall i, i <> 4 ->
                  nth_error reply2 i = nth_error (chars "PONG----") i)
  /\ wifi_send_command (Delivered (chars "PONG")) "PING" (repeat "-"%char 4) 4
       connected_wlan0
     = oob 4.
Proof.
  split.
  - destruct (probe_terminator_behind_reply (Delivered (chars "PONG")) "PING"
                (repeat "-"%char 8) 7 connected_wlan0) as [H _].
    destruct (H 1 0%Z (chars "PONG----") 4%Z) as (K & _).
    + reflexivity.
    + reflexivity.
    + lia.
    + reflexivity.
    + reflexivity.
    + apply K; [reflexivity | cbn; lia].
  - destruct (probe_terminator_behind_reply (Delivered (chars "PONG")) "PING"
                (repeat "-"%char 4) 4 connected_wlan0) as [H _].
    destruct (H 1 0%Z (chars "PONG") 4%Z) as (_ & K & _).
    + reflexivity.
    + reflexivity.
    + lia.
    + reflexivity.
    + reflexivity.
    + apply K; [reflexivity | cbn; lia].
Defined.

(** * The start of the daemon *)

Section Provisioning.

Lemma file_calls_app (a b : list fs_call) (st : state) :
  file_calls (a ++ b) st = file_calls b (file_calls a st).
Proof. unfold file_calls. apply fold_left_app. Qed.

(** Calls to the file system touch the descriptors of the process and
    nothing else of its state; they are recorded in order. *)
Lemma file_calls_frame (calls : list fs_call) (st : state) :
  exit_sockets (file_calls calls st) = exit_sockets st /\
  ctrl_conn (file_calls calls st) = ctrl_conn st /\
  monitor_conn (file_calls calls st) = monitor_conn st /\
  primary_iface (file_calls calls st) = primary_iface st /\
  open_handles (file_calls calls st) = open_handles st /\
  exit_pending (file_calls calls st) = exit_pending st /\
  trace (file_calls calls st) = trace st ++ map FileSystem calls.
Proof.
  revert st. induction calls as [|c calls IH]; intros st.
  - cbn. rewrite app_nil_r. repeat split.
  - change (file_calls (c :: calls) st)
      with (file_calls calls (file_system c st)).
    destruct (IH (file_system c st)) as (H1 & H2 & H3 & H4 & H5 & H6 & H7).
    rewrite H1, H2, H3, H4, H5, H6, H7.
    assert (Ht : trace (file_system c st) = trace st ++ [FileSystem c]).
    { destruct c; cbn; try reflexivity. destruct (fd <? 0)%Z; reflexivity. }
    rewrite Ht, <- app_assoc.
    destruct c; cbn; try (repeat split; fail).
    destruct (fd <? 0)%Z; repeat split.
Qed.

End Provisioning.

Section Start.

Variable w : start_world.

Lemma reference_held_next (k : nat) :
  reference_held w (S k) =
  reference_held w k || prop_found (sw_status_at_pass w k).
Proof.
  unfold reference_held. rewrite seq_S, existsb_app. cbn [existsb Nat.add].
  rewrite orb_false_r, orb_assoc. reflexivity.
Qed.

(** A pass that does not end the wait sleeps and goes on. *)
Lemma start_wait_pass (count k : nat) (st : state) :
  terminal_pass w k = false ->
  start_wait w (recorded_serial w) (reference_held w k) (S count) k st =
  start_wait w (recorded_serial w) (reference_held w (S k)) count (S k)
    (log (Usleep 100000) st).
Proof.
  intros Hnt. cbn [start_wait].
  unfold terminal_pass, serial_advanced, reads in Hnt.
  rewrite reference_held_next in *.
  replace (if reference_held w k then true
           else prop_found (sw_status_at_pass w k))
    with (reference_held w k || prop_found (sw_status_at_pass w k))
    by (destruct (reference_held w k); reflexivity).
  destruct (reference_held w k || prop_found (sw_status_at_pass w k));
    [|reflexivity].
  destruct (negb (prop_serial (sw_status_at_pass w k) =? recorded_serial w)%Z);
    [|reflexivity].
  cbn [andb] in Hnt. apply orb_false_iff in Hnt. destruct Hnt as [H1 H2].
  rewrite H1, H2. reflexivity.
Qed.

Lemma start_wait_passes (m count k : nat) (st : state) :
  (forall j, k <= j < k + m -> terminal_pass w j = false) ->
  start_wait w (recorded_serial w) (reference_held w k) (m + count) k st =
  start_wait w (recorded_serial w) (reference_held w (k + m)) count (k + m)
    (sleeps m st).
Proof.
  revert k st. induction m as [|m IH]; intros k st Hnt.
  - rewrite Nat.add_0_r. reflexivity.
  - cbn [Nat.add sleeps]. rewrite start_wait_pass by (apply Hnt; lia).
    rewrite IH by (intros j Hj; apply Hnt; lia).
    replace (S k + m) with (k + S m) by lia. reflexivity.
Qed.

(** The pass that ends the wait. *)
Lemma start_wait_ends (count k : nat) (st : state) :
  serial_advanced w k = true ->
  start_wait w (recorded_serial w) (reference_held w k) (S count) k st =
  if reads w k "running" then (0%Z, st)
  else if reads w k "stopped" then ((-1)%Z, st)
  else start_wait w (recorded_serial w) (reference_held w (S k)) count (S k)
         (log (Usleep 100000) st).
Proof.
  intros Hadv. cbn [start_wait].
  unfold serial_advanced in Hadv. rewrite reference_held_next in *.
  replace (if reference_held w k then true
           else prop_found (sw_status_at_pass w k))
    with (reference_held w k || prop_found (sw_status_at_pass w k))
    by (destruct (reference_held w k); reflexivity).
  apply andb_true_iff in Hadv. destruct Hadv as [H1 H2].
  rewrite H1, H2. reflexivity.
Qed.

Lemma start_enters_wait (st : state) :
  already (sw_status_at_entry w) "running" = false ->
  (0 <= sw_config_file w)%Z ->
  wifi_start_supplicant w st =
  start_wait w (recorded_serial w) (reference_held w 0) 200 0
    (start_issued w st).
Proof.
  intros Hrun Hcfg. unfold wifi_start_supplicant, already in *.
  destruct (property_get (sw_status_at_entry w) EmptyString) as [len v].
  cbn [fst snd] in Hrun. rewrite Hrun. cbv zeta.
  change (pv_ret (ensure_config_file_exists (sw_config_files w)
                    SUPP_CONFIG_FILE)) with (sw_config_file w).
  destruct (Z.ltb_spec (sw_config_file w) 0); [lia|].
  unfold reference_held, recorded_serial. cbn [seq existsb].
  rewrite orb_false_r.
  unfold start_issued, provisioning_calls, config_calls.
  rewrite !file_calls_app. reflexivity.
Qed.

End Start.

(** C3, counterexample.  When the daemon is not running and its
    configuration file cannot be provided, the call fails at once and the
    supervisor is never asked to start the daemon. *)
Lemma start_without_configuration_file :
  let w := mkStartWorld (status "stopped") file_missing file_present
             file_present (status "stopped") (status "wlan0")
             (fun _ => mkProperty true 2 "running") in
  already (sw_status_at_entry w) "running" = false /\
  fst (wifi_start_supplicant w disconnected) = (-1)%Z /\
  ~ start_requested (snd (wifi_start_supplicant w disconnected)).
Proof.
  split; [reflexivity|]. split; [reflexivity|].
  intros H. vm_compute in H.
  repeat (destruct H as [H|H]; [discriminate H|]). exact H.
Qed.

(** C3, amended.  A call that finds the status "running" returns 0 and
    does nothing.  Otherwise the main configuration file is provided for,
    and when that fails the call returns -1 having made the calls to the
    file system of that attempt and nothing else.  Otherwise the two other
    files are provided for, the serial of the status property is
    recorded, the start is asked for, and the status is looked at up to
    200 times, 100 ms apart: the first pass at which the serial differs
    from the recorded one and the status reads "running" or "stopped" ends
    the call, with 0 for "running" and -1 for "stopped", after one sleep
    per earlier pass; without such a pass the call returns -1 after 200
    sleeps. *)
Theorem start_supplicant_outcome (w : start_world) (st : state) :
  (already (sw_status_at_entry w) "running" = true ->
   wifi_start_supplicant w st = (0%Z, st))
  /\ (already (sw_status_at_entry w) "running" = false ->
      (sw_config_file w < 0)%Z ->
      wifi_start_supplicant w st = ((-1)%Z, file_calls (config_calls w) st)
      /\ trace (file_calls (config_calls w) st) =
           trace st ++ map FileSystem (config_calls w))
  /\ (already (sw_status_at_entry w) "running" = false ->
      (0 <= sw_config_file w)%Z ->
      let st0 := start_issued w st in
      trace st0 = trace st ++ map FileSystem (provisioning_calls w)
                    ++ [WpaCtrlCleanup;
                        PropertySet "ctl.start" SUPPLICANT_SERVICE_NAME;
                        SchedYield]
      /\ (forall k,
            k < 200 ->
            (forall j, j < k -> terminal_pass w j = false) ->
            serial_advanced w k = true ->
            (reads w k "running" = true ->
             wifi_start_supplicant w st = (0%Z, sleeps k st0))
            /\ (reads w k "running" = false ->
                reads w k "stopped" = true ->
                wifi_start_supplicant w st = ((-1)%Z, sleeps k st0)))
      /\ ((forall j, j < 200 -> terminal_pass w j = false) ->
          wifi_start_supplicant w st = ((-1)%Z, sleeps 200 st0))).
Proof.
  split; [|split].
  - intros Hrun. unfold wifi_start_supplicant, already in *.
    destruct (property_get (sw_status_at_entry w) EmptyString) as [len v].
    cbn [fst snd] in Hrun. rewrite Hrun. reflexivity.
  - intros Hrun Hcfg. split.
    + unfold wifi_start_supplicant, already in *.
      destruct (property_get (sw_status_at_entry w) EmptyString) as [len v].
      cbn [fst snd] in Hrun. rewrite Hrun. cbv zeta.
      change (pv_ret (ensure_config_file_exists (sw_config_files w)
                        SUPP_CONFIG_FILE)) with (sw_config_file w).
      destruct (Z.ltb_spec (sw_config_file w) 0); [reflexivity | lia].
    + apply file_calls_frame.
  - intros Hrun Hcfg st0. split; [|split].
    + unfold st0, start_issued.
      cbn [trace log set_primary_iface set_exit_sockets].
      destruct (file_calls_frame (provisioning_calls w) st)
        as (_ & _ & _ & _ & _ & _ & Ht).
      rewrite Ht, <- !app_assoc. reflexivity.
    + intros k Hk Hbefore Hadv.
      assert (E : wifi_start_supplicant w st =
                  if reads w k "running" then (0%Z, sleeps k st0)
                  else if reads w k "stopped" then ((-1)%Z, sleeps k st0)
                  else start_wait w (recorded_serial w)
                         (reference_held w (S k)) (199 - k) (S k)
                         (log (Usleep 100000) (sleeps k st0))).
      { rewrite start_enters_wait by assumption. fold st0.
        replace 200 with (k + S (199 - k)) by lia.
        rewrite start_wait_passes by (intros j Hj; apply Hbefore; lia).
        cbn [Nat.add]. apply start_wait_ends. exact Hadv. }
      split.
      * intros Hr. rewrite E, Hr. reflexivity.
      * intros Hr Hs. rewrite E, Hr, Hs. reflexivity.
    + intros Hnone.
      rewrite start_enters_wait by assumption. fold st0.
      replace 200 with (200 + 0) at 1 by lia.
      rewrite start_wait_passes by (intros j Hj; apply Hnone; lia).
      reflexivity.
Qed.

Lemma start_supplicant_outcome_witness :
  let w := mkStartWorld (status "stopped") file_copied file_present
             file_present (status "stopped") (status "wlan0")
             (fun k => if k <? 3 then status "stopped"
                       else mkProperty true 2 "running") in
  wifi_start_supplicant w disconnected =
  (0%Z, sleeps 3 (start_issued w disconnected)).
Proof.
  intros w.
  destruct (start_supplicant_outcome w disconnected) as (_ & _ & H).
  destruct H as (_ & H & _).
  - reflexivity.
  - vm_compute. discriminate.
  - destruct (H 3) as [K _].
    + lia.
    + intros j Hj.
      destruct j as [|[|[|j]]]; [reflexivity | reflexivity | reflexivity | lia].
    + reflexivity.
    + apply K. reflexivity.
Defined.

(** * Closing the channel *)

Section Closing.

Lemma geb_false (x : Z) : (x >=? 0)%Z = false <-> (x < 0)%Z.
Proof. rewrite Z.geb_leb, Z.leb_gt. tauto. Qed.

(** Nothing is left to close: the call changes nothing. *)
Lemma wifi_close_sockets_nothing_open (st : state) :
  ctrl_conn st = None -> monitor_conn st = None ->
  (fst (exit_sockets st) < 0)%Z -> (snd (exit_sockets st) < 0)%Z ->
  wifi_close_sockets st = st.
Proof.
  intros Hc Hm H0 H1. unfold wifi_close_sockets.
  rewrite Hc. cbv zeta. rewrite Hm.
  apply geb_false in H0. apply geb_false in H1.
  rewrite H0, H1. reflexivity.
Qed.

Lemma sys_close_fields (fd : Z) (st : state) :
  exit_sockets (sys_close fd st) = exit_sockets st /\
  ctrl_conn (sys_close fd st) = ctrl_conn st /\
  monitor_conn (sys_close fd st) = monitor_conn st /\
  open_handles (sys_close fd st) = open_handles st /\
  open_fds (sys_close fd st) = release_fd fd (open_fds st).
Proof.
  unfold sys_close. cbv zeta. destruct (_ =? _)%Z; repeat split.
Qed.

(** The fields of the state after the handles have been closed (the
    first two steps of [wifi_close_sockets]). *)
Lemma handles_closed (st : state) :
  let st1 := match ctrl_conn st with
             | Some h => set_ctrl_conn None (wpa_ctrl_close h st)
             | None => st
             end in
  let st2 := match monitor_conn st1 with
             | Some h => set_monitor_conn None (wpa_ctrl_close h st1)
             | None => st1
             end in
  ctrl_conn st2 = None /\ monitor_conn st2 = None /\
  exit_sockets st2 = exit_sockets st /\ open_fds st2 = open_fds st.
Proof.
  destruct st as [es c m i hs fds pend tr].
  destruct c as [c|], m as [m|]; cbn; repeat split.
Qed.

End Closing.

(** X1.  After [wifi_close_sockets] both handles are null and both
    descriptors of the exit pair are negative, whatever the state was;
    a second call finds nothing to close and changes nothing. *)
Theorem close_sockets_idempotent (st : state) :
  ctrl_conn (wifi_close_sockets st) = None /\
  monitor_conn (wifi_close_sockets st) = None /\
  (fst (exit_sockets (wifi_close_sockets st)) < 0)%Z /\
  (snd (exit_sockets (wifi_close_sockets st)) < 0)%Z /\
  wifi_close_sockets (wifi_close_sockets st) = wifi_close_sockets st.
Proof.
  assert (P : ctrl_conn (wifi_close_sockets st) = None /\
              monitor_conn (wifi_close_sockets st) = None /\
              (fst (exit_sockets (wifi_close_sockets st)) < 0)%Z /\
              (snd (exit_sockets (wifi_close_sockets st)) < 0)%Z).
  { unfold wifi_close_sockets. cbv zeta.
    pose proof (handles_closed st) as H. cbv zeta in H.
    set (st2 := match monitor_conn _ with
                | Some h => _
                | None => _
                end) in *.
    destruct H as (Hc & Hm & _ & _).
    set (st3 := if (fst (exit_sockets st2) >=? 0)%Z
                then set_exit_sockets ((-1)%Z, snd (exit_sockets st2))
                       (sys_close (fst (exit_sockets st2)) st2)
                else st2).
    assert (H3 : ctrl_conn st3 = None /\ monitor_conn st3 = None /\
                 (fst (exit_sockets st3) < 0)%Z).
    { unfold st3.
      destruct (fst (exit_sockets st2) >=? 0)%Z eqn:E;
        cbn [ctrl_conn monitor_conn exit_sockets set_exit_sockets fst].
      - destruct (sys_close_fields (fst (exit_sockets st2)) st2)
          as (_ & K1 & K2 & _).
        rewrite K1, K2. split; [|split]; [assumption | assumption | lia].
      - apply geb_false in E. split; [|split]; assumption. }
    destruct H3 as (Hc3 & Hm3 & H03).
    destruct (snd (exit_sockets st3) >=? 0)%Z eqn:E;
      cbn [ctrl_conn monitor_conn exit_sockets set_exit_sockets fst snd].
    - destruct (sys_close_fields (snd (exit_sockets st3)) st3)
        as (_ & K1 & K2 & _).
      rewrite K1, K2.
      split; [|split; [|split]]; [assumption | assumption | assumption | lia].
    - apply geb_false in E. split; [|split; [|split]]; assumption. }
  destruct P as (Hc & Hm & H0 & H1).
  split; [|split; [|split; [|split]]]; try assumption.
  apply wifi_close_sockets_nothing_open; assumption.
Qed.

(** Releasing both of two handles, or descriptors, pushed last. *)
Lemma release_pair_handles m c hs :
  release_handle m (release_handle c (m :: c :: hs)) = hs.
Proof.
  cbn [release_handle]. destruct (Nat.eqb_spec m c) as [E|E].
  - subst. cbn [release_handle]. rewrite Nat.eqb_refl. reflexivity.
  - cbn [release_handle]. rewrite !Nat.eqb_refl. reflexivity.
Qed.

Lemma release_pair_fds a b fds :
  release_fd b (release_fd a (a :: b :: fds)) = fds.
Proof.
  cbn [release_fd]. rewrite Z.eqb_refl. cbn [release_fd].
  rewrite Z.eqb_refl. reflexivity.
Qed.

(** [wifi_close_sockets] on a connected state in closed form. *)
Lemma close_connected (a b : Z) (c m : handle) (i : list ascii)
  (hs : list handle) (fds : list Z) (p : list ascii) (tr : list action) :
  (0 <= a)%Z -> (0 <= b)%Z ->
  let st' := wifi_close_sockets
               (mkState (a, b) (Some c) (Some m) i (m :: c :: hs)
                  (a :: b :: fds) p tr) in
  ctrl_conn st' = None /\ monitor_conn st' = None /\
  exit_sockets st' = ((-1)%Z, (-1)%Z) /\
  open_handles st' = hs /\ open_fds st' = fds /\ exit_pending st' = [].
Proof.
  intros Ha Hb.
  assert (Ea : (a >=? 0)%Z = true) by (rewrite Z.geb_leb; apply Z.leb_le; lia).
  assert (Eb : (b >=? 0)%Z = true) by (rewrite Z.geb_leb; apply Z.leb_le; lia).
  cbv beta iota zeta delta
    [wifi_close_sockets sys_close wpa_ctrl_close log
     set_open_fds set_exit_sockets set_exit_pending set_open_handles
     set_ctrl_conn set_monitor_conn exit_sockets ctrl_conn monitor_conn
     primary_iface open_handles open_fds exit_pending trace fst snd].
  rewrite Ea. cbv beta iota. rewrite Eb.
  destruct (a =? b)%Z; cbv beta iota; rewrite Z.eqb_refl; cbv beta iota;
    rewrite release_pair_handles, release_pair_fds; repeat split.
Qed.

(** X2.  A successful connect from the disconnected state followed by
    [wifi_close_sockets] gives back everything: the connections and the
    descriptors the process holds are those of before the connect, both
    handles are null, the exit pair is [(-1, -1)] and nothing is in
    flight.  (Descriptors returned by [socketpair] are not negative.) *)
Theorem connect_then_close_releases (w : connect_world) (path : string)
  (st : state) :
  ctrl_conn st = None ->
  monitor_conn st = None ->
  fst (wifi_connect_on_socket_path w path st) = 0%Z ->
  (forall a b, cw_socketpair w = Some (a, b) -> (0 <= a)%Z /\ (0 <= b)%Z) ->
  let st' := wifi_close_sockets (snd (wifi_connect_on_socket_path w path st)) in
  ctrl_conn st' = None /\ monitor_conn st' = None /\
  exit_sockets st' = ((-1)%Z, (-1)%Z) /\
  open_handles st' = open_handles st /\
  open_fds st' = open_fds st /\
  exit_pending st' = [].
Proof.
  intros Hc Hm. unfold wifi_connect_on_socket_path.
  destruct w as [stp oc om att sp].
  cbn [cw_status cw_open_ctrl cw_open_monitor cw_attach cw_socketpair].
  destruct (property_get stp EmptyString) as [len v].
  destruct ((len =? 0)%Z || negb (strcmp_eq v "running")); [discriminate|].
  destruct oc as [c|]; [|discriminate].
  destruct om as [m|]; [|discriminate].
  cbn [wpa_ctrl_open wpa_ctrl_attach].
  destruct (Z.eqb_spec att 0) as [Eatt|Eatt]; cbn [negb]; [|discriminate].
  destruct sp as [[a b]|]; [|discriminate].
  intros _ Hfd. destruct (Hfd a b eq_refl) as [Ha Hb].
  destruct st as [es c0 m0 i hs fds pend tr]. cbn in Hc, Hm. subst c0 m0.
  cbv zeta.
  match goal with
  | |- context [wifi_close_sockets ?s] =>
      assert (Hst : exists tr',
                 s = mkState (a, b) (Some c) (Some m) i (m :: c :: hs)
                       (a :: b :: fds) [] tr')
        by (eexists; reflexivity);
      destruct Hst as [tr' Hst]; rewrite Hst
  end.
  apply close_connected; assumption.
Qed.

Lemma connect_then_close_releases_witness :
  open_fds (wifi_close_sockets
              (snd (wifi_connect_on_socket_path
                      (mkConnectWorld (status "running") (Some 1) (Some 2) 0
                         (Some (3%Z, 4%Z)))
                      "/data/system/wpa_supplicant/wlan0" disconnected)))
  = open_fds disconnected.
Proof.
  apply (connect_then_close_releases
           (mkConnectWorld (status "running") (Some 1) (Some 2) 0
              (Some (3%Z, 4%Z)))
           "/data/system/wpa_supplicant/wlan0" disconnected).
  - reflexivity.
  - reflexivity.
  - reflexivity.
  - intros a b H. injection H as <- <-. split; lia.
Defined.

(** * Waiting for the daemon to stop *)

Section Stopping.

Variable statuses : nat -> property.

Lemma close_wait_first_stopped (count k0 : nat) (st : state) :
  exists m,
    m <= count /\
    close_wait statuses count k0 st = sleeps m st /\
    (m < count -> already (statuses (k0 + m)) "stopped" = true) /\
    (forall j, j < m -> already (statuses (k0 + j)) "stopped" = false).
Proof.
  revert k0 st. induction count as [|count IH]; intros k0 st.
  - exists 0. split; [lia|]. split; [reflexivity|].
    split; [intros H; lia | intros j Hj; lia].
  - cbn [close_wait].
    assert (Hal : already (statuses k0) "stopped" =
                  (let '(len, v) := property_get (statuses k0) EmptyString in
                   negb (len =? 0)%Z && strcmp_eq v "stopped")).
    { unfold already. destruct (property_get (statuses k0) EmptyString).
      reflexivity. }
    destruct (property_get (statuses k0) EmptyString) as [len v].
    destruct (negb (len =? 0)%Z && strcmp_eq v "stopped").
    + exists 0. rewrite Nat.add_0_r. split; [lia|]. split; [reflexivity|].
      split; [intros _; exact Hal | intros j Hj; lia].
    + destruct (IH (S k0) (log (Usleep 100000) st))
        as (m & Hm & Hw & Hstop & Hbefore).
      exists (S m). split; [lia|]. split; [exact Hw|]. split.
      * intros Hlt. rewrite Nat.add_succ_r. apply Hstop. lia.
      * intros j Hj. destruct j as [|j].
        -- rewrite Nat.add_0_r. exact Hal.
        -- rewrite Nat.add_succ_r. apply Hbefore. lia.
Qed.

Lemma stop_wait_first_stopped (count k0 : nat) (st : state) :
  exists m,
    m <= count /\
    stop_wait statuses count k0 st =
      (if m <? count then 0%Z else (-1)%Z, sleeps m st) /\
    (m < count -> already (statuses (k0 + m)) "stopped" = true) /\
    (forall j, j < m -> already (statuses (k0 + j)) "stopped" = false).
Proof.
  revert k0 st. induction count as [|count IH]; intros k0 st.
  - exists 0. split; [lia|]. split; [reflexivity|].
    split; [intros H; lia | intros j Hj; lia].
  - cbn [stop_wait].
    assert (Hal : already (statuses k0) "stopped" =
                  (let '(len, v) := property_get (statuses k0) EmptyString in
                   negb (len =? 0)%Z && strcmp_eq v "stopped")).
    { unfold already. destruct (property_get (statuses k0) EmptyString).
      reflexivity. }
    destruct (property_get (statuses k0) EmptyString) as [len v].
    destruct (negb (len =? 0)%Z && strcmp_eq v "stopped").
    + exists 0. rewrite Nat.add_0_r. split; [lia|]. split; [reflexivity|].
      split; [intros _; exact Hal | intros j Hj; lia].
    + destruct (IH (S k0) (log (Usleep 100000) st))
        as (m & Hm & Hw & Hstop & Hbefore).
      exists (S m). split; [lia|]. split.
      { rewrite Hw. reflexivity. }
      split.
      * intros Hlt. rewrite Nat.add_succ_r. apply Hstop. lia.
      * intros j Hj. destruct j as [|j].
        -- rewrite Nat.add_0_r. exact Hal.
        -- rewrite Nat.add_succ_r. apply Hbefore. lia.
Qed.

End Stopping.

(** X3.  [wifi_stop_supplicant] returns 0 at once, asking for nothing,
    when the status reads "stopped".  Otherwise it asks the supervisor to
    stop the daemon once and looks at the status up to 50 times, 100 ms
    apart: it returns 0 at the first pass [m] that reads "stopped", after
    [m] sleeps, and -1 after 50 sleeps when no pass does. *)
Theorem stop_supplicant_outcome (entry : property)
  (statuses : nat -> property) (st : state) :
  (already entry "stopped" = true ->
   wifi_stop_supplicant entry statuses st = (0%Z, st))
  /\ (already entry "stopped" = false ->
      exists m,
        m <= 50 /\
        wifi_stop_supplicant entry statuses st =
          (if m <? 50 then 0%Z else (-1)%Z, sleeps m (stop_issued st)) /\
        (m < 50 -> already (statuses m) "stopped" = true) /\
        (forall j, j < m -> already (statuses j) "stopped" = false)).
Proof.
  split.
  - intros H. unfold wifi_stop_supplicant, already in *.
    destruct (property_get entry EmptyString) as [len v].
    cbn [fst snd] in H. rewrite H. reflexivity.
  - intros H. unfold wifi_stop_supplicant, already in H |- *.
    destruct (property_get entry EmptyString) as [len v].
    cbn [fst snd] in H. rewrite H.
    exact (stop_wait_first_stopped statuses 50 0 (stop_issued st)).
Qed.

Lemma stop_supplicant_outcome_witness :
  wifi_stop_supplicant (status "running")
    (fun k => if k <? 2 then status "running" else status "stopped")
    disconnected
  = (0%Z, sleeps 2 (stop_issued disconnected)).
Proof.
  destruct (stop_supplicant_outcome (status "running")
              (fun k => if k <? 2 then status "running" else status "stopped")
              disconnected) as [_ H].
  destruct (H eq_refl) as (m & Hm & Hw & Hstop & Hbefore).
  destruct m as [|[|[|m]]].
  - discriminate (Hstop ltac:(lia)).
  - discriminate (Hstop ltac:(lia)).
  - exact Hw.
  - discriminate (Hbefore 2 ltac:(lia)).
Defined.

(** X4.  [wifi_close_supplicant_connection] closes the channel first,
    whatever the daemon does, and then only sleeps: [m] times 100 ms, up
    to the first pass that reads "stopped" and at most 50 times. *)
Theorem close_connection_waits_for_stop (statuses : nat -> property)
  (st : state) :
  exists m,
    m <= 50 /\
    wifi_close_supplicant_connection statuses st =
      sleeps m (wifi_close_sockets st) /\
    (m < 50 -> already (statuses m) "stopped" = true) /\
    (forall j, j < m -> already (statuses j) "stopped" = false).
Proof.
  exact (close_wait_first_stopped statuses 50 0 (wifi_close_sockets st)).
Qed.

(** * Events through the wait *)

(** A list with an element in it is not empty. *)
Ltac nonempty :=
  let E := fresh "E" in
  intros E; apply (f_equal (@length ascii)) in E;
  repeat rewrite length_app in E;
  change (length IFNAME) with 7 in E; cbn [length] in E; lia.

Section Receiving.

Lemma cstr_text (s tail : list ascii) :
  ~ In NUL s -> cstr (s ++ NUL :: tail) = s.
Proof.
  induction s as [|x s IH]; intros Hn; cbn [app cstr].
  - reflexivity.
  - destruct (Ascii.eqb_spec x NUL) as [E|E].
    + exfalso. apply Hn. left. exact E.
    + rewrite IH; [reflexivity|]. intros K. apply Hn. right. exact K.
Qed.

Lemma skipn_behind (data buf : list ascii) :
  skipn (S (length data)) (data ++ skipn (length data) buf) =
  skipn (S (length data)) buf.
Proof.
  rewrite skipn_app, skipn_all2 by lia.
  replace (S (length data) - length data) with 1 by lia.
  cbn [app]. rewrite skipn_skipn. reflexivity.
Qed.

(** The monitor descriptor is readable: whatever the exit pair holds, the
    event is received into the buffer, terminated, and rewritten. *)
Lemma wait_receives (revents0 : Z) (signalled : list ascii) (st_prop : property)
  (more : list poll_outcome) (data buf : list ascii) (st : state)
  (mon : handle) :
  monitor_conn st = Some mon ->
  Z.land revents0 POLLIN <> 0%Z ->
  data <> [] ->
  length data + 1 <= length buf ->
  fits_int (length buf) ->
  wifi_wait_on_socket (PollReturn revents0 signalled st_prop :: more)
    (Delivered data) buf st =
  Some (r <- run_normalize data (skipn (S (length data)) buf) ;;
        ok (mkWait (fst r) (snd r)
              (log (WpaCtrlRecv mon)
                 (set_exit_pending (exit_pending st ++ signalled)
                    (log (SysPoll 30000) st))))).
Proof.
  intros Hmon Hrev Hdata Hroom Hfit. unfold fits_int, INT_MAX in Hfit.
  unfold wifi_wait_on_socket. rewrite Hmon. cbn [wifi_ctrl_recv].
  set (st1 := set_exit_pending (exit_pending (log (SysPoll 30000) st) ++ signalled)
                (log (SysPoll 30000) st)).
  assert (Hnz : (revents0 =? 0)%Z = false).
  { apply Z.eqb_neq. intros ->. apply Hrev. reflexivity. }
  rewrite Hnz.
  assert (Hres : (((1 + (if (exit_revents st1 =? 0)%Z then 0 else 1)) =? 0)%Z
                  = false)).
  { destruct (exit_revents st1 =? 0)%Z; reflexivity. }
  rewrite Hres.
  apply Z.eqb_neq in Hrev. rewrite Hrev. cbn [negb].
  rewrite size_sub_exact by (unfold SIZE_MOD; lia).
  unfold transport_fill.
  rewrite firstn_all2 by lia.
  destruct (Nat.leb_spec (length data) (length buf)); [|lia].
  run. cbn [Z.eqb Z.ltb].
  rewrite Nat2Z.id.
  assert (Hstore : store (data ++ skipn (length data) buf) (length data) NUL =
                   ok (in_buffer data (skipn (S (length data)) buf))).
  { unfold store. rewrite length_app, length_skipn.
    destruct (Nat.ltb_spec (length data)
                (length data + (length buf - length data))); [|lia].
    rewrite firstn_app, firstn_all, Nat.sub_diag, skipn_behind.
    cbn [firstn]. rewrite app_nil_r. reflexivity. }
  rewrite Hstore. run.
  assert (Hlen : (Z.of_nat (length data) =? 0)%Z = false).
  { apply Z.eqb_neq. destruct data; [congruence | cbn [length]; lia]. }
  rewrite Hlen. cbn [andb]. reflexivity.
Qed.

End Receiving.

(** X5.  On a connected channel with nothing in the exit pair, timeouts
    of [poll] with the daemon not reported stopped never end the wait:
    after any number of them the call is still blocked. *)
Theorem quiet_daemon_keeps_wait_blocked (quiet : list poll_outcome)
  (rx : transport_outcome) (buf : list ascii) (st : state) (mon : handle) :
  monitor_conn st = Some mon ->
  forallb quiet_timeout quiet = true ->
  exit_revents st = 0%Z ->
  wifi_wait_for_event quiet rx buf st = None.
Proof.
  intros Hmon Hquiet Hidle.
  unfold wifi_wait_for_event, wifi_wait_on_socket. rewrite Hmon.
  rewrite <- (app_nil_r quiet).
  rewrite quiet_timeouts_pass by assumption. reflexivity.
Qed.

Lemma quiet_daemon_keeps_wait_blocked_witness :
  wifi_wait_for_event
    [PollReturn 0 [] (status "running"); PollReturn 0 [] (status "running")]
    (Delivered (chars "never read")) (repeat NUL 64) connected_wlan0
  = None.
Proof.
  apply (quiet_daemon_keeps_wait_blocked
           [PollReturn 0 [] (status "running");
            PollReturn 0 [] (status "running")]
           (Delivered (chars "never read")) (repeat NUL 64) connected_wlan0 2);
    reflexivity.
Defined.

(** X6.  A timeout of [poll] that finds the daemon reported "stopped"
    ends the wait with the "connection closed" event; nothing was
    received: the only calls made are those of [poll]. *)
Theorem stopped_daemon_ends_wait (quiet more : list poll_outcome)
  (st_prop : property) (rx : transport_outcome) (buf : list ascii)
  (st : state) (mon : handle) :
  monitor_conn st = Some mon ->
  forallb quiet_timeout quiet = true ->
  exit_revents st = 0%Z ->
  already st_prop "stopped" = true ->
  exists st',
    wifi_wait_for_event (quiet ++ PollReturn 0 [] st_prop :: more) rx buf st
    = Some (ok (synthetic buf CONNECTION_CLOSED st')) /\
    trace st' = trace st ++ repeat (SysPoll 30000) (S (length quiet)) /\
    open_handles st' = open_handles st /\ open_fds st' = open_fds st /\
    primary_iface st' = primary_iface st.
Proof.
  intros Hmon Hquiet Hidle Hstop.
  destruct (polled_frame (length quiet) st)
    as (F1 & F2 & F3 & F4 & F5 & F6 & F7 & F8).
  set (st1 := polled (length quiet) st) in *.
  exists (log (SysPoll 30000) st1).
  assert (Hidle1 : exit_revents st1 = 0%Z).
  { unfold exit_revents in *. rewrite F1, F6, F7. exact Hidle. }
  assert (Hact : (wifi_supplicant_connection_active st_prop <? 0)%Z = true).
  { unfold wifi_supplicant_connection_active, already in *.
    destruct (property_get st_prop EmptyString) as [len v].
    cbn [fst snd] in Hstop. rewrite Hstop. reflexivity. }
  split; [|split; [|split; [|split]]]; [| | | |cbn; exact F4].
  - unfold wifi_wait_for_event, wifi_wait_on_socket. rewrite Hmon.
    rewrite quiet_timeouts_pass by assumption. fold st1.
    cbn [wifi_ctrl_recv].
    rewrite app_nil_r, set_exit_pending_same.
    change (exit_revents (log (SysPoll 30000) st1)) with (exit_revents st1).
    rewrite Hidle1, Hact. reflexivity.
  - cbn. rewrite F8, <- app_assoc. f_equal.
    change (SysPoll 30000 :: repeat (SysPoll 30000) (length quiet))
      with (repeat (SysPoll 30000) (S (length quiet))).
    rewrite <- repeat_cons. reflexivity.
  - cbn. exact F5.
  - cbn. exact F6.
Qed.

Lemma stopped_daemon_ends_wait_witness :
  exists st',
    wifi_wait_for_event
      ([PollReturn 0 [] (status "running")]
         ++ PollReturn 0 [] (status "stopped") :: [])
      (Failed 0) (repeat NUL 64) connected_wlan0
    = Some (ok (synthetic (repeat NUL 64) CONNECTION_CLOSED st')) /\
    trace st' = trace connected_wlan0 ++ repeat (SysPoll 30000) 2 /\
    open_handles st' = open_handles connected_wlan0 /\
    open_fds st' = open_fds connected_wlan0 /\
    primary_iface st' = primary_iface connected_wlan0.
Proof.
  apply (stopped_daemon_ends_wait [PollReturn 0 [] (status "running")] []
           (status "stopped") (Failed 0) (repeat NUL 64) connected_wlan0 2);
    reflexivity.
Defined.

(** X7.  A command that times out cancels every later wait: the byte it
    writes makes the exit descriptor readable, and a wait that finds the
    exit descriptor readable and nothing to read on the monitor returns
    the "connection closed" event and leaves the descriptor readable for
    the next wait. *)
Theorem timed_out_command_cancels_waits (cmd : string) (reply : list ascii)
  (reply_len : Z) (st : state) (ctrl : handle) :
  ctrl_conn st = Some ctrl ->
  monitor_conn st <> None ->
  existsb (Z.eqb (fst (exit_sockets st))) (open_fds st) = true ->
  existsb (Z.eqb (snd (exit_sockets st))) (open_fds st) = true ->
  (exists st1,
     wifi_command (Failed (-2)) cmd reply reply_len st =
       ok (mkReply (-2) reply reply_len st1) /\
     cancel_pending st1)
  /\ (forall st1 revents0 signalled st_prop more rx buf,
        cancel_pending st1 ->
        Z.land revents0 POLLIN = 0%Z ->
        exists st2,
          wifi_wait_for_event (PollReturn revents0 signalled st_prop :: more)
            rx buf st1
          = Some (ok (synthetic buf CONNECTION_CLOSED st2)) /\
          cancel_pending st2).
Proof.
  intros Hc Hm Hfd0 Hfd1. split.
  - unfold wifi_command, wifi_send_command. rewrite Hc. cbn [transport_fill].
    run. cbn [Z.eqb]. eexists. split; [reflexivity|].
    unfold cancel_pending, sys_write. cbv zeta.
    change (open_fds (log (SysWrite (fst (exit_sockets
                                           (log (WpaCtrlRequest ctrl cmd) st)))
                             (chars "T"))
                        (log (WpaCtrlRequest ctrl cmd) st)))
      with (open_fds st).
    change (exit_sockets (log (WpaCtrlRequest ctrl cmd) st))
      with (exit_sockets st).
    rewrite Hfd0. split; [exact Hm|].
    unfold exit_revents. cbn. rewrite Hfd1, Hfd0. cbn [negb].
    rewrite length_app. cbn [length].
    replace (length (exit_pending st) + 1 =? 0) with false
      by (symmetry; apply Nat.eqb_neq; lia).
    reflexivity.
  - intros st1 revents0 signalled st_prop more rx buf [Hm1 Hready] Hrev.
    destruct (monitor_conn st1) as [mon|] eqn:Emon; [|congruence].
    set (st2 := set_exit_pending
                  (exit_pending (log (SysPoll 30000) st1) ++ signalled)
                  (log (SysPoll 30000) st1)).
    assert (Hready2 : exit_revents st2 = POLLIN).
    { unfold exit_revents in *. cbn.
      destruct (existsb (Z.eqb (snd (exit_sockets st1))) (open_fds st1));
        [|destruct (snd (exit_sockets st1) <? 0)%Z; discriminate Hready].
      destruct (existsb (Z.eqb (fst (exit_sockets st1))) (open_fds st1));
        [|discriminate Hready].
      destruct (exit_pending st1) as [|x p]; [discriminate Hready|].
      reflexivity. }
    exists st2. split.
    + unfold wifi_wait_for_event, wifi_wait_on_socket. rewrite Emon.
      cbn [wifi_ctrl_recv]. fold st2. rewrite Hready2, Hrev.
      cbn [Z.eqb POLLIN negb].
      destruct (revents0 =? 0)%Z; reflexivity.
    + split; [cbn; rewrite Emon; discriminate | exact Hready2].
Qed.

Lemma timed_out_command_cancels_waits_witness :
  exists st1,
    wifi_command (Failed (-2)) "SCAN" (repeat NUL 16) 15 connected_wlan0 =
      ok (mkReply (-2) (repeat NUL 16) 15 st1) /\
    cancel_pending st1.
Proof.
  destruct (timed_out_command_cancels_waits "SCAN" (repeat NUL 16) 15
              connected_wlan0 1) as [H _].
  - reflexivity.
  - discriminate.
  - reflexivity.
  - reflexivity.
  - exact H.
Defined.

(** X21.  A broken exit pair ends the wait at the first return of
    [poll], with no byte written and whatever the daemon does: [poll]
    reports hang-up for a reading end whose writing end is closed, and an
    invalid descriptor for a stale one, and with no input on the monitor
    descriptor either makes the wait return the "connection closed" event
    after that one call. *)
Theorem broken_exit_pair_ends_wait (revents0 : Z) (signalled : list ascii)
  (st_prop : property) (more : list poll_outcome) (rx : transport_outcome)
  (buf : list ascii) (st : state) (mon : handle) :
  monitor_conn st = Some mon ->
  Z.land revents0 POLLIN = 0%Z ->
  (existsb (Z.eqb (snd (exit_sockets st))) (open_fds st) = true /\
   existsb (Z.eqb (fst (exit_sockets st))) (open_fds st) = false)
  \/ (existsb (Z.eqb (snd (exit_sockets st))) (open_fds st) = false /\
      (0 <= snd (exit_sockets st))%Z) ->
  exit_revents st <> 0%Z /\
  exists st',
    wifi_wait_for_event (PollReturn revents0 signalled st_prop :: more)
      rx buf st
    = Some (ok (synthetic buf CONNECTION_CLOSED st')) /\
    trace st' = trace st ++ [SysPoll 30000] /\
    open_handles st' = open_handles st /\ open_fds st' = open_fds st /\
    exit_sockets st' = exit_sockets st.
Proof.
  intros Hmon Hrev Hbroken.
  set (st1 := set_exit_pending
                (exit_pending (log (SysPoll 30000) st) ++ signalled)
                (log (SysPoll 30000) st)).
  assert (Hrep : forall pending,
            exit_revents (set_exit_pending pending st) <> 0%Z).
  { intros pending. unfold exit_revents. cbn.
    destruct Hbroken as [[H1 H0]|[H1 Hpos]]; rewrite H1.
    - rewrite H0. discriminate.
    - destruct (Z.ltb_spec (snd (exit_sockets st)) 0); [lia | discriminate]. }
  split.
  - specialize (Hrep (exit_pending st)).
    rewrite set_exit_pending_same in Hrep. exact Hrep.
  - exists st1. split; [|repeat split].
    unfold wifi_wait_for_event, wifi_wait_on_socket. rewrite Hmon.
    cbn [wifi_ctrl_recv]. fold st1.
    assert (Hready : (exit_revents st1 =? 0)%Z = false).
    { apply Z.eqb_neq. exact (Hrep (exit_pending st ++ signalled)). }
    rewrite Hready, Hrev. cbn [Z.eqb negb].
    destruct (revents0 =? 0)%Z; reflexivity.
Qed.

Lemma broken_exit_pair_ends_wait_witness :
  exists st',
    wifi_wait_for_event [PollReturn 0 [] (status "running")]
      (Failed 0) (repeat NUL 64)
      (mkState (3%Z, 4%Z) (Some 1) (Some 2) (chars "wlan0") [2; 1] [4%Z] [] [])
    = Some (ok (synthetic (repeat NUL 64) CONNECTION_CLOSED st')) /\
    trace st' = [SysPoll 30000].
Proof.
  destruct (broken_exit_pair_ends_wait 0 [] (status "running") [] (Failed 0)
              (repeat NUL 64)
              (mkState (3%Z, 4%Z) (Some 1) (Some 2) (chars "wlan0")
                 [2; 1] [4%Z] [] []) 2)
    as (_ & st' & H & Ht & _).
  - reflexivity.
  - reflexivity.
  - left. split; reflexivity.
  - exists st'. split; [exact H | exact Ht].
Defined.

(** X8.  An event [IFNAME=i <n>rest] that is read while the monitor
    descriptor is readable, into a buffer with at least one byte behind
    its terminator, comes back as [IFNAME=i rest] followed by the
    terminator, with the length of that text, whether or not the exit
    pair holds a cancellation byte. *)
Theorem wait_strips_level_behind_interface (i n rest : list ascii)
  (revents0 : Z) (signalled : list ascii) (st_prop : property)
  (more : list poll_outcome) (buf : list ascii) (st : state) (mon : handle) :
  let msg := IFNAME ++ i ++ SPACE :: LT :: n ++ GT :: rest in
  let text := IFNAME ++ i ++ SPACE :: rest in
  monitor_conn st = Some mon ->
  Z.land revents0 POLLIN <> 0%Z ->
  iface_name i = true -> level_text n = true ->
  length msg + 2 <= length buf ->
  fits_int (length buf) ->
  exists tail st',
    wifi_wait_for_event (PollReturn revents0 signalled st_prop :: more)
      (Delivered msg) buf st
    = Some (ok (mkWait (in_buffer text tail) (Z.of_nat (length text)) st')).
Proof.
  intros msg text Hmon Hrev Hi Hn Hroom Hfit.
  destruct (iface_head i Hi) as [HsP HnP].
  apply level_text_spec in Hn. destruct Hn as [Hgn Hnn].
  unfold wifi_wait_for_event.
  rewrite wait_receives with (mon := mon); try assumption;
    [| unfold msg; nonempty | lia].
  destruct (skipn (S (length msg)) buf) as [|x T] eqn:Etail.
  { apply (f_equal (@length ascii)) in Etail.
    rewrite length_skipn in Etail. cbn [length] in Etail. lia. }
  unfold msg, text. rewrite !(app_assoc IFNAME i).
  rewrite tagged_iface_stripped; auto using iface_prefix.
  - eexists. eexists. reflexivity.
  - unfold fits_int in *. unfold msg in Hroom.
    rewrite (app_assoc IFNAME i) in Hroom. lia.
Qed.

Lemma wait_strips_level_behind_interface_witness :
  exists tail st',
    wifi_wait_for_event [PollReturn POLLIN (chars "T") (status "running")]
      (Delivered (chars "IFNAME=wlan0 <3>CTRL-EVENT-CONNECTED"))
      (repeat "-"%char 64) connected_wlan0
    = Some (ok (mkWait (in_buffer (chars "IFNAME=wlan0 CTRL-EVENT-CONNECTED") tail)
                  33 st')).
Proof.
  apply (wait_strips_level_behind_interface (chars "wlan0") (chars "3")
           (chars "CTRL-EVENT-CONNECTED") POLLIN (chars "T")
           (status "running") [] (repeat "-"%char 64) connected_wlan0 2).
  - reflexivity.
  - discriminate.
  - reflexivity.
  - reflexivity.
  - cbn. lia.
  - unfold fits_int. vm_compute. discriminate.
Defined.

(** X9.  An event [<n>rest] without interface prefix comes back as
    [rest] followed by the terminator, with the length of [rest], also
    when the event fills the buffer up to its last byte. *)
Theorem wait_strips_leading_level (n rest : list ascii)
  (revents0 : Z) (signalled : list ascii) (st_prop : property)
  (more : list poll_outcome) (buf : list ascii) (st : state) (mon : handle) :
  let msg := LT :: n ++ GT :: rest in
  monitor_conn st = Some mon ->
  Z.land revents0 POLLIN <> 0%Z ->
  level_text n = true ->
  length msg + 1 <= length buf ->
  fits_int (length buf) ->
  exists tail st',
    wifi_wait_for_event (PollReturn revents0 signalled st_prop :: more)
      (Delivered msg) buf st
    = Some (ok (mkWait (in_buffer rest tail) (Z.of_nat (length rest)) st')).
Proof.
  intros msg Hmon Hrev Hn Hroom Hfit.
  apply level_text_spec in Hn. destruct Hn as [Hgn Hnn].
  unfold wifi_wait_for_event.
  rewrite wait_receives with (mon := mon); try assumption; [|discriminate].
  unfold msg. rewrite bare_tagged_stripped; try assumption.
  - eexists. eexists. reflexivity.
  - unfold fits_int in *. fold msg. lia.
Qed.

Lemma wait_strips_leading_level_witness :
  exists tail st',
    wifi_wait_for_event [PollReturn POLLIN [] (status "running")]
      (Delivered (chars "<2>CTRL-EVENT-DISCONNECTED"))
      (repeat "-"%char 27) connected_wlan0
    = Some (ok (mkWait (in_buffer (chars "CTRL-EVENT-DISCONNECTED") tail)
                  23 st')).
Proof.
  apply (wait_strips_leading_level (chars "2")
           (chars "CTRL-EVENT-DISCONNECTED") POLLIN []
           (status "running") [] (repeat "-"%char 27) connected_wlan0 2).
  - reflexivity.
  - discriminate.
  - reflexivity.
  - cbn. lia.
  - unfold fits_int. vm_compute. discriminate.
Defined.

(** X10.  Events without a level tag pass the wait unchanged, with
    their length, in any buffer that holds them and their terminator:
    [IFNAME=i text] whose text does not begin with [<], and text that
    begins neither with [IFNAME=] nor with [<]. *)
Theorem wait_passes_untagged_events
  (revents0 : Z) (signalled : list ascii) (st_prop : property)
  (more : list poll_outcome) (buf : list ascii) (st : state) (mon : handle) :
  monitor_conn st = Some mon ->
  Z.land revents0 POLLIN <> 0%Z ->
  fits_int (length buf) ->
  (forall i text,
     iface_name i = true ->
     not_leading LT text = true ->
     length (IFNAME ++ i ++ SPACE :: text) + 1 <= length buf ->
     exists tail st',
       wifi_wait_for_event (PollReturn revents0 signalled st_prop :: more)
         (Delivered (IFNAME ++ i ++ SPACE :: text)) buf st
       = Some (ok (mkWait (in_buffer (IFNAME ++ i ++ SPACE :: text) tail)
                     (Z.of_nat (length (IFNAME ++ i ++ SPACE :: text))) st')))
  /\ (forall text,
        text <> [] ->
        not_leading LT text = true ->
        starts_with IFNAME text = false ->
        length text + 1 <= length buf ->
        exists tail st',
          wifi_wait_for_event (PollReturn revents0 signalled st_prop :: more)
            (Delivered text) buf st
          = Some (ok (mkWait (in_buffer text tail)
                        (Z.of_nat (length text)) st'))).
Proof.
  intros Hmon Hrev Hfit.
  unfold wifi_wait_for_event. unfold fits_int in Hfit. split.
  - intros i text Hi Htext Hroom.
    destruct (iface_head i Hi) as [HsP HnP].
    rewrite wait_receives with (mon := mon); try assumption;
      [| nonempty].
    unfold run_normalize. rewrite (app_assoc IFNAME i) in *.
    rewrite iface_text_kept; auto using iface_prefix.
    rewrite int_of_size_t_exact by lia.
    eexists. eexists. reflexivity.
  - intros text Hne Htext Hpre Hroom.
    rewrite wait_receives with (mon := mon); try assumption.
    unfold run_normalize. rewrite plain_kept by assumption.
    rewrite int_of_size_t_exact by lia.
    eexists. eexists. reflexivity.
Qed.

Lemma wait_passes_untagged_events_witness :
  (exists tail st',
     wifi_wait_for_event [PollReturn POLLIN [] (status "running")]
       (Delivered (chars "IFNAME=wlan0 CTRL-EVENT-SCAN-RESULTS"))
       (repeat "-"%char 64) connected_wlan0
     = Some (ok (mkWait (in_buffer (chars "IFNAME=wlan0 CTRL-EVENT-SCAN-RESULTS")
                           tail) 36 st')))
  /\ (exists tail st',
       wifi_wait_for_event [PollReturn POLLIN [] (status "running")]
         (Delivered (chars "CTRL-EVENT-SCAN-RESULTS"))
         (repeat "-"%char 24) connected_wlan0
       = Some (ok (mkWait (in_buffer (chars "CTRL-EVENT-SCAN-RESULTS") tail)
                     23 st'))).
Proof.
  split.
  - destruct (wait_passes_untagged_events POLLIN [] (status "running") []
                (repeat "-"%char 64) connected_wlan0 2) as [H _].
    + reflexivity.
    + discriminate.
    + unfold fits_int. vm_compute. discriminate.
    + apply (H (chars "wlan0") (chars "CTRL-EVENT-SCAN-RESULTS"));
        [reflexivity | reflexivity | cbn; lia].
  - destruct (wait_passes_untagged_events POLLIN [] (status "running") []
                (repeat "-"%char 24) connected_wlan0 2) as [_ H].
    + reflexivity.
    + discriminate.
    + unfold fits_int. vm_compute. discriminate.
    + apply (H (chars "CTRL-EVENT-SCAN-RESULTS"));
        [discriminate | reflexivity | reflexivity | cbn; lia].
Defined.

(** X11.  An event [IFNAME=i] with no space behind the interface name
    is replaced by the ignore marker: the wait returns 18, the length of
    the marker, whatever the size of the buffer, while the buffer holds
    as much of the marker as fits in front of the terminator: the whole
    marker exactly when the buffer has at least 19 bytes. *)
Theorem wait_replaces_unframed_event (i : list ascii)
  (revents0 : Z) (signalled : list ascii) (st_prop : property)
  (more : list poll_outcome) (buf : list ascii) (st : state) (mon : handle) :
  monitor_conn st = Some mon ->
  Z.land revents0 POLLIN <> 0%Z ->
  iface_name i = true ->
  length (IFNAME ++ i) + 1 <= length buf ->
  fits_int (length buf) ->
  exists w,
    wifi_wait_for_event (PollReturn revents0 signalled st_prop :: more)
      (Delivered (IFNAME ++ i)) buf st = Some (ok w) /\
    wt_ret w = 18%Z /\
    length (wt_buf w) = length buf /\
    cstr (wt_buf w) = firstn (length buf - 1) WPA_EVENT_IGNORE /\
    (19 <= length buf <-> cstr (wt_buf w) = WPA_EVENT_IGNORE).
Proof.
  intros Hmon Hrev Hi Hroom Hfit.
  destruct (iface_head i Hi) as [HsP HnP].
  unfold wifi_wait_for_event.
  rewrite wait_receives with (mon := mon); try assumption; [| nonempty].
  unfold run_normalize.
  rewrite unframed_replaced; [| apply starts_with_app | assumption].
  run. eexists. split; [reflexivity|]. cbn [wt_ret wt_buf].
  split; [reflexivity|].
  set (b := in_buffer (IFNAME ++ i) (skipn (S (length (IFNAME ++ i))) buf)).
  assert (Hb : length b = length buf).
  { unfold b, in_buffer. rewrite length_app. cbn [length].
    rewrite length_skipn. lia. }
  lengths Hroom.
  destruct (length buf) as [|L] eqn:EL; [lia|].
  replace (S L - 1) with L by lia.
  assert (Hw : length (firstn L WPA_EVENT_IGNORE) = Nat.min L 18)
    by (rewrite length_firstn; reflexivity).
  assert (Hsn : fst (snprintf b WPA_EVENT_IGNORE) =
                firstn L WPA_EVENT_IGNORE
                  ++ NUL :: skipn (S (length (firstn L WPA_EVENT_IGNORE))) b).
  { unfold snprintf. rewrite Hb. replace (S L - 1) with L by lia.
    reflexivity. }
  rewrite Hsn.
  assert (Htext : cstr (firstn L WPA_EVENT_IGNORE
                          ++ NUL :: skipn (S (length (firstn L WPA_EVENT_IGNORE))) b)
                  = firstn L WPA_EVENT_IGNORE).
  { apply cstr_text. intros K.
    assert (K' : In NUL (firstn L WPA_EVENT_IGNORE ++ skipn L WPA_EVENT_IGNORE))
      by (apply in_or_app; left; exact K).
    rewrite firstn_skipn in K'. revert K'. apply has_false. reflexivity. }
  split; [|split; [exact Htext|]].
  - rewrite length_app. cbn [length]. rewrite length_skipn, Hb, Hw. lia.
  - rewrite Htext. split.
    + intros Hbig. apply firstn_all2. change (length WPA_EVENT_IGNORE) with 18.
      lia.
    + intros E. rewrite E in Hw. change (length WPA_EVENT_IGNORE) with 18 in Hw.
      lia.
Qed.

Lemma wait_replaces_unframed_event_witness :
  exists w,
    wifi_wait_for_event [PollReturn POLLIN [] (status "running")]
      (Delivered (chars "IFNAME=wlan0")) (repeat "-"%char 13) connected_wlan0
      = Some (ok w) /\
    wt_ret w = 18%Z /\
    length (wt_buf w) = 13 /\
    cstr (wt_buf w) = chars "CTRL-EVENT-I" /\
    (19 <= 13 <-> cstr (wt_buf w) = WPA_EVENT_IGNORE).
Proof.
  apply (wait_replaces_unframed_event (chars "wlan0") POLLIN []
           (status "running") [] (repeat "-"%char 13) connected_wlan0 2).
  - reflexivity.
  - discriminate.
  - reflexivity.
  - cbn. lia.
  - unfold fits_int. vm_compute. discriminate.
Defined.

(** X12.  With at least one byte of buffer behind the place of the
    terminator, the wait on a readable monitor descriptor completes for
    every received event, bytes that are no text included: no access
    leaves the buffer.  It returns 18 when the text up to the first
    terminator has the prefix and no space, and at most the received
    length otherwise. *)
Theorem wait_stays_inside_buffer (data : list ascii)
  (revents0 : Z) (signalled : list ascii) (st_prop : property)
  (more : list poll_outcome) (buf : list ascii) (st : state) (mon : handle) :
  monitor_conn st = Some mon ->
  Z.land revents0 POLLIN <> 0%Z ->
  data <> [] ->
  length data + 2 <= length buf ->
  fits_int (length buf) ->
  exists w,
    wifi_wait_for_event (PollReturn revents0 signalled st_prop :: more)
      (Delivered data) buf st = Some (ok w) /\
    if unframed data then wt_ret w = 18%Z
    else (wt_ret w <= Z.of_nat (length data))%Z.
Proof.
  intros Hmon Hrev Hdata Hroom Hfit.
  unfold wifi_wait_for_event.
  rewrite wait_receives with (mon := mon); try assumption; [|lia].
  unfold run_normalize, unframed.
  set (tail := skipn (S (length data)) buf).
  assert (Htail : length tail = length buf - S (length data))
    by apply length_skipn.
  destruct (cstr_split data tail) as [T' [Hbuf Hlen]].
  destruct (normalize_completes (cstr data) T' (length data))
    as (b & n & Hn & Hbound).
  - apply cstr_no_NUL.
  - exact Hlen.
  - rewrite <- Hbuf. unfold in_buffer. rewrite length_app. cbn [length]. lia.
  - unfold fits_int in *. lia.
  - rewrite Hbuf, Hn. run. eexists. split; [reflexivity|]. exact Hbound.
Qed.

Lemma wait_stays_inside_buffer_witness :
  exists w,
    wifi_wait_for_event [PollReturn POLLIN [] (status "running")]
      (Delivered (chars "IFNAME=w <3>X")) (repeat "-"%char 15) connected_wlan0
      = Some (ok w) /\ (wt_ret w <= 13)%Z.
Proof.
  apply (wait_stays_inside_buffer (chars "IFNAME=w <3>X") POLLIN []
           (status "running") [] (repeat "-"%char 15) connected_wlan0 2).
  - reflexivity.
  - discriminate.
  - discriminate.
  - cbn. lia.
  - unfold fits_int. vm_compute. discriminate.
Defined.

(** * Providing the configuration and entropy files *)

Section Files.

Lemma fs_opened_app (a b : list fs_call) :
  fs_opened (a ++ b) = fs_opened a ++ fs_opened b.
Proof.
  induction a as [|c a IH]; [reflexivity|].
  destruct c; cbn [app fs_opened]; try exact IH.
  destruct (fd <? 0)%Z; [exact IH | cbn [app]; rewrite IH; reflexivity].
Qed.

Lemma fs_closed_app (a b : list fs_call) :
  fs_closed (a ++ b) = fs_closed a ++ fs_closed b.
Proof.
  induction a as [|c a IH]; [reflexivity|].
  destruct c; cbn [app fs_closed]; try exact IH.
  rewrite IH. reflexivity.
Qed.

Lemma fs_handed_app (a b : list fs_call) :
  fs_handed (a ++ b) = fs_handed a ++ fs_handed b.
Proof.
  induction a as [|c a IH]; [reflexivity|].
  destruct c; cbn [app fs_handed]; try exact IH.
  rewrite IH, app_assoc. reflexivity.
Qed.

(** The copy loop: its result and its calls come from the reads alone;
    it opens and closes nothing and unlinks nothing; it hands to [write]
    exactly the bytes read, and these reach the file when every [write]
    is complete. *)
Lemma copy_template_spec (reads : list read_outcome) (write : nat -> Z)
  (srcfd destfd : Z) :
  forall (k : nat) (calls : list fs_call) (written : list ascii),
  exists stored,
    copy_template reads write k srcfd destfd calls written =
      (match template_read reads with Some _ => true | None => false end,
       calls ++ copy_calls reads srcfd destfd,
       written ++ stored) /\
    (forall t, template_read reads = Some t ->
       fs_handed (copy_calls reads srcfd destfd) = t /\
       ((forall j data, nth_error reads j = Some (ReadChunk data) ->
                        write (k + j) = Z.of_nat (length (firstn 2048 data))) ->
        stored = t)) /\
    ((forall j, (write j <= 0)%Z) -> stored = []).
Proof.
  induction reads as [|r reads IH]; intros k calls written.
  - exists []. cbn. rewrite app_nil_r. split; [reflexivity|]. split.
    + intros t Ht. injection Ht as <-. split; reflexivity.
    + reflexivity.
  - destruct r as [data|].
    + cbn [copy_template template_read copy_calls].
      destruct (firstn 2048 data) as [|c chunk] eqn:Echunk.
      * exists []. rewrite app_nil_r. split; [reflexivity|]. split.
        -- intros t Ht. injection Ht as <-. split; reflexivity.
        -- reflexivity.
      * destruct (IH (S k)
                    ((calls ++ [FsRead srcfd 2048]) ++
                     [FsWrite destfd (c :: chunk)])
                    (written ++ firstn (Z.to_nat (write k)) (c :: chunk)))
          as (stored & Hrun & Hread & Hnone).
        exists (firstn (Z.to_nat (write k)) (c :: chunk) ++ stored).
        rewrite Hrun. clear Hrun.
        destruct (template_read reads) as [more|] eqn:Emore.
        -- split; [rewrite <- !app_assoc; reflexivity|]. split.
           ++ intros t Ht. injection Ht as <-.
              destruct (Hread more eq_refl) as [Hh Hs]. split.
              ** cbn [fs_handed]. rewrite Hh. reflexivity.
              ** intros Hw. rewrite Hs.
                 --- pose proof (Hw 0 data eq_refl) as H0.
                     rewrite Nat.add_0_r, Echunk in H0.
                     rewrite H0, Nat2Z.id, firstn_all. reflexivity.
                 --- intros j d Hj. rewrite <- (Hw (S j) d Hj). f_equal. lia.
           ++ intros Hw. rewrite (Hnone Hw).
              replace (Z.to_nat (write k)) with 0 by (specialize (Hw k); lia).
              reflexivity.
        -- split; [rewrite <- !app_assoc; reflexivity|]. split.
           ++ intros t Ht. discriminate Ht.
           ++ intros Hw. rewrite (Hnone Hw).
              replace (Z.to_nat (write k)) with 0 by (specialize (Hw k); lia).
              reflexivity.
    + exists []. cbn. rewrite app_nil_r. split; [reflexivity|]. split.
      * intros t Ht. discriminate.
      * reflexivity.
Qed.

Lemma copy_calls_nothing_opened (reads : list read_outcome) (srcfd destfd : Z) :
  fs_opened (copy_calls reads srcfd destfd) = [] /\
  fs_closed (copy_calls reads srcfd destfd) = [] /\
  existsb is_fs_unlink (copy_calls reads srcfd destfd) = false.
Proof.
  induction reads as [|r reads IH]; [repeat split|].
  destruct r as [data|]; [|repeat split].
  cbn [copy_calls]. destruct (firstn 2048 data); [repeat split|].
  exact IH.
Qed.

End Files.

Section ConfigFile.

Variables (w : file_world) (config_file : string).

Let srcfd : Z := fw_open_template w.
Let destfd : Z := fw_open_file w.
Let opened_both : list fs_call :=
  [FsAccess config_file (Z.lor R_OK W_OK);
   FsOpen SUPP_CONFIG_TEMPLATE O_RDONLY 0 srcfd;
   FsOpen config_file (Z.lor O_CREAT O_RDWR) MODE_RW_RW destfd]
  ++ copy_calls (fw_reads w) srcfd destfd.

(** The file is missing and both files could be opened: the calls and
    the result of [ensure_config_file_exists]. *)
Lemma config_file_copied :
  fw_access w = Inaccessible ENOENT ->
  (0 <= srcfd)%Z -> (0 <= destfd)%Z ->
  exists stored,
    ensure_config_file_exists w config_file =
      match template_read (fw_reads w) with
      | None =>
          mkProvision (-1)
            (opened_both ++ [FsClose srcfd; FsClose destfd;
                             FsUnlink config_file]) stored
      | Some _ =>
          if (fw_chmod w <? 0)%Z then
            mkProvision (-1)
              (opened_both ++ [FsClose destfd; FsClose srcfd;
                               FsChmod config_file MODE_RW_RW;
                               FsUnlink config_file]) stored
          else if (fw_chown w <? 0)%Z then
            mkProvision (-1)
              (opened_both ++ [FsClose destfd; FsClose srcfd;
                               FsChmod config_file MODE_RW_RW;
                               FsChown config_file AID_SYSTEM AID_WIFI;
                               FsUnlink config_file]) stored
          else
            mkProvision 0
              (opened_both ++ [FsClose destfd; FsClose srcfd;
                               FsChmod config_file MODE_RW_RW;
                               FsChown config_file AID_SYSTEM AID_WIFI]) stored
      end /\
    (forall t, template_read (fw_reads w) = Some t ->
       fs_handed (copy_calls (fw_reads w) srcfd destfd) = t /\
       (complete_writes (fw_reads w) (fw_write w) -> stored = t)) /\
    ((forall j, (fw_write w j <= 0)%Z) -> stored = []).
Proof.
  intros Hacc Hsrc Hdest. unfold ensure_config_file_exists.
  rewrite Hacc. cbn [Z.eqb ENOENT EACCES negb]. cbv zeta.
  fold srcfd destfd.
  destruct (Z.ltb_spec srcfd 0); [lia|].
  destruct (Z.ltb_spec destfd 0); [lia|].
  destruct (copy_template_spec (fw_reads w) (fw_write w) srcfd destfd 0
              (([FsAccess config_file (Z.lor R_OK W_OK)] ++
                [FsOpen SUPP_CONFIG_TEMPLATE O_RDONLY 0 srcfd]) ++
               [FsOpen config_file (Z.lor O_CREAT O_RDWR) MODE_RW_RW destfd])
              [])
    as (stored & Hrun & Hread & Hnone).
  exists stored. rewrite Hrun. cbn [app]. split; [|split].
  - unfold opened_both. cbn [app].
    destruct (template_read (fw_reads w)).
    + destruct (fw_chmod w <? 0)%Z;
        [|destruct (fw_chown w <? 0)%Z];
        repeat (rewrite <- app_assoc; cbn [app]); reflexivity.
    + repeat (rewrite <- app_assoc; cbn [app]). reflexivity.
  - intros t Ht. destruct (Hread t Ht) as [Hh Hs]. split; [exact Hh|].
    intros Hw. apply Hs. intros j data Hj. apply Hw. exact Hj.
  - exact Hnone.
Qed.

End ConfigFile.

(** X15.  Both provisioning functions give back every descriptor they
    obtain, on every path: the descriptors closed are those that [open]
    returned, each once. *)
Theorem provisioning_closes_what_it_opens (w : file_world)
  (config_file : string) :
  Permutation (fs_opened (pv_calls (ensure_config_file_exists w config_file)))
              (fs_closed (pv_calls (ensure_config_file_exists w config_file)))
  /\ Permutation (fs_opened (pv_calls (ensure_entropy_file_exists w)))
                 (fs_closed (pv_calls (ensure_entropy_file_exists w))).
Proof.
  split.
  - destruct (fw_access w) as [|e] eqn:Hacc.
    { unfold ensure_config_file_exists. rewrite Hacc. apply perm_nil. }
    destruct (Z.eqb_spec e EACCES) as [Ee|Ee].
    { unfold ensure_config_file_exists. rewrite Hacc. subst e. cbn.
      destruct (fw_chmod_rw w =? 0)%Z; apply perm_nil. }
    destruct (Z.eqb_spec e ENOENT) as [En|En].
    2:{ unfold ensure_config_file_exists. rewrite Hacc.
        apply Z.eqb_neq in Ee, En. rewrite Ee, En. apply perm_nil. }
    subst e.
    destruct (Z.ltb_spec (fw_open_template w) 0) as [Hs|Hs].
    { unfold ensure_config_file_exists. rewrite Hacc. cbn.
      apply Z.ltb_lt in Hs. rewrite Hs. cbn. rewrite Hs. apply perm_nil. }
    destruct (Z.ltb_spec (fw_open_file w) 0) as [Hd|Hd].
    { unfold ensure_config_file_exists. rewrite Hacc. cbn.
      apply Z.ltb_ge in Hs. apply Z.ltb_lt in Hd. rewrite Hs, Hd. cbn.
      rewrite Hs, Hd. apply Permutation_refl. }
    destruct (config_file_copied w config_file Hacc Hs Hd)
      as (stored & Hrun & _).
    rewrite Hrun.
    destruct (copy_calls_nothing_opened (fw_reads w) (fw_open_template w)
                (fw_open_file w)) as (Ho & Hc & _).
    apply Z.ltb_ge in Hs, Hd.
    destruct (template_read (fw_reads w));
      [destruct (fw_chmod w <? 0)%Z; [|destruct (fw_chown w <? 0)%Z]|];
      cbn [pv_calls]; rewrite !fs_opened_app, !fs_closed_app, Ho, Hc;
      cbn; rewrite Hs, Hd; cbn;
      first [apply perm_swap | apply Permutation_refl].
  - unfold ensure_entropy_file_exists.
    destruct (fw_access w) as [|e]; [apply perm_nil|].
    destruct (e =? EACCES)%Z.
    { cbn. destruct (fw_chmod_rw w =? 0)%Z; apply perm_nil. }
    cbv zeta.
    destruct (fw_open_file w <? 0)%Z eqn:Hd.
    { cbn. rewrite Hd. apply perm_nil. }
    destruct (negb (fw_write w 0 =? Z.of_nat (length dummy_key))%Z);
      [|destruct (fw_chmod w <? 0)%Z; [|destruct (fw_chown w <? 0)%Z]];
      cbn; rewrite Hd; apply Permutation_refl.
Qed.

(** X16.  When the configuration file is missing and the template is
    read to its end, the bytes handed to [write] are the bytes read, in
    order; they are the bytes in the file when every [write] takes all it
    is handed. *)
Theorem config_copy_hands_over_template (w : file_world)
  (config_file : string) (t : list ascii) :
  fw_access w = Inaccessible ENOENT ->
  (0 <= fw_open_template w)%Z ->
  (0 <= fw_open_file w)%Z ->
  template_read (fw_reads w) = Some t ->
  fs_handed (pv_calls (ensure_config_file_exists w config_file)) = t /\
  (complete_writes (fw_reads w) (fw_write w) ->
   pv_written (ensure_config_file_exists w config_file) = t).
Proof.
  intros Hacc Hs Hd Ht.
  destruct (config_file_copied w config_file Hacc Hs Hd)
    as (stored & Hrun & Hread & _).
  destruct (Hread t Ht) as [Hh Hst].
  rewrite Hrun, Ht.
  destruct (fw_chmod w <? 0)%Z; [|destruct (fw_chown w <? 0)%Z];
    cbn [pv_calls pv_written]; rewrite !fs_handed_app, Hh; cbn;
    rewrite app_nil_r; (split; [reflexivity | exact Hst]).
Qed.

Lemma config_copy_hands_over_template_witness :
  pv_written
    (ensure_config_file_exists
       (mkFileWorld (Inaccessible ENOENT) 0 5 6
          [ReadChunk (chars "ctrl_interface=wlan0"); ReadChunk (chars "update_config=1")]
          (fun k => if k =? 0 then 20%Z else 15%Z) 0 0)
       SUPP_CONFIG_FILE)
  = chars "ctrl_interface=wlan0update_config=1".
Proof.
  destruct (config_copy_hands_over_template
              (mkFileWorld (Inaccessible ENOENT) 0 5 6
                 [ReadChunk (chars "ctrl_interface=wlan0");
                  ReadChunk (chars "update_config=1")]
                 (fun k => if k =? 0 then 20%Z else 15%Z) 0 0)
              SUPP_CONFIG_FILE (chars "ctrl_interface=wlan0update_config=1"))
    as [_ H].
  - reflexivity.
  - cbn. lia.
  - cbn. lia.
  - reflexivity.
  - apply H. intros k data Hk.
    destruct k as [|[|k]]; cbn in Hk.
    + injection Hk as <-. reflexivity.
    + injection Hk as <-. reflexivity.
    + destruct k; discriminate Hk.
Defined.

(** X17.  What [write] returns is never looked at by
    [ensure_config_file_exists]: the result and the calls are the same
    whatever the writes answer, and when no write takes a byte the file
    is left empty whatever the function returns. *)
Theorem config_copy_ignores_write_results (w : file_world)
  (write : nat -> Z) (config_file : string) :
  pv_ret (ensure_config_file_exists (with_write w write) config_file) =
    pv_ret (ensure_config_file_exists w config_file)
  /\ pv_calls (ensure_config_file_exists (with_write w write) config_file) =
       pv_calls (ensure_config_file_exists w config_file)
  /\ ((forall j, (fw_write w j <= 0)%Z) ->
      pv_written (ensure_config_file_exists w config_file) = []).
Proof.
  destruct (fw_access w) as [|e] eqn:Hacc.
  { unfold ensure_config_file_exists. cbn [with_write fw_access].
    rewrite Hacc. repeat split. }
  destruct (Z.eqb_spec e EACCES) as [Ee|Ee].
  { unfold ensure_config_file_exists. cbn [with_write fw_access fw_chmod_rw].
    rewrite Hacc. subst e. cbn [Z.eqb EACCES].
    destruct (negb (fw_chmod_rw w =? 0)%Z); repeat split. }
  destruct (Z.eqb_spec e ENOENT) as [En|En].
  2:{ unfold ensure_config_file_exists. cbn [with_write fw_access].
      rewrite Hacc. apply Z.eqb_neq in Ee, En. rewrite Ee, En.
      repeat split. }
  subst e.
  destruct (Z.ltb_spec (fw_open_template w) 0) as [Hs|Hs].
  { unfold ensure_config_file_exists.
    cbn [with_write fw_access fw_open_template].
    rewrite Hacc. cbn [Z.eqb ENOENT EACCES negb]. cbv zeta.
    apply Z.ltb_lt in Hs. rewrite Hs. repeat split. }
  destruct (Z.ltb_spec (fw_open_file w) 0) as [Hd|Hd].
  { unfold ensure_config_file_exists.
    cbn [with_write fw_access fw_open_template fw_open_file].
    rewrite Hacc. cbn [Z.eqb ENOENT EACCES negb]. cbv zeta.
    apply Z.ltb_ge in Hs. apply Z.ltb_lt in Hd. rewrite Hs, Hd.
    repeat split. }
  destruct (config_file_copied w config_file Hacc Hs Hd)
    as (stored & Hrun & _ & Hnone).
  destruct (config_file_copied (with_write w write) config_file Hacc Hs Hd)
    as (stored' & Hrun' & _).
  cbn [with_write fw_reads fw_chmod fw_chown fw_open_template fw_open_file]
    in Hrun'.
  rewrite Hrun, Hrun'.
  destruct (template_read (fw_reads w));
    [destruct (fw_chmod w <? 0)%Z; [|destruct (fw_chown w <? 0)%Z]|];
    (split; [reflexivity|]; split; [reflexivity|];
     intros Hw; cbn [pv_written]; exact (Hnone Hw)).
Qed.

Lemma config_copy_ignores_write_results_witness :
  pv_ret
    (ensure_config_file_exists
       (mkFileWorld (Inaccessible ENOENT) 0 5 6
          [ReadChunk (chars "ctrl_interface=wlan0")] (fun _ => (-1)%Z) 0 0)
       SUPP_CONFIG_FILE) = 0%Z
  /\ pv_written
       (ensure_config_file_exists
          (mkFileWorld (Inaccessible ENOENT) 0 5 6
             [ReadChunk (chars "ctrl_interface=wlan0")] (fun _ => (-1)%Z) 0 0)
          SUPP_CONFIG_FILE) = [].
Proof.
  destruct (config_copy_ignores_write_results
              (mkFileWorld (Inaccessible ENOENT) 0 5 6
                 [ReadChunk (chars "ctrl_interface=wlan0")] (fun _ => (-1)%Z)
                 0 0)
              (fun _ => 20%Z) SUPP_CONFIG_FILE) as (_ & _ & H).
  split; [reflexivity|]. apply H. intros j. cbn. lia.
Defined.

(** X18.  Once the configuration file has been created, the call ends
    in one of two ways: it returns 0 after setting the mode to 0660 and
    the owner to system:wifi, without any [unlink]; or it returns -1 and
    its last call removes the file. *)
Theorem config_file_complete_or_removed (w : file_world)
  (config_file : string) :
  fw_access w = Inaccessible ENOENT ->
  (0 <= fw_open_template w)%Z ->
  (0 <= fw_open_file w)%Z ->
  let r := ensure_config_file_exists w config_file in
  (pv_ret r = 0%Z /\
   (exists before,
      pv_calls r = before ++ [FsChmod config_file MODE_RW_RW;
                              FsChown config_file AID_SYSTEM AID_WIFI]) /\
   existsb is_fs_unlink (pv_calls r) = false)
  \/ (pv_ret r = (-1)%Z /\
      exists before, pv_calls r = before ++ [FsUnlink config_file]).
Proof.
  intros Hacc Hs Hd. cbv zeta.
  destruct (config_file_copied w config_file Hacc Hs Hd)
    as (stored & Hrun & _).
  rewrite Hrun. cbv zeta.
  destruct (copy_calls_nothing_opened (fw_reads w) (fw_open_template w)
              (fw_open_file w)) as (_ & _ & Hu).
  set (pre := [FsAccess config_file (Z.lor R_OK W_OK);
               FsOpen SUPP_CONFIG_TEMPLATE O_RDONLY 0 (fw_open_template w);
               FsOpen config_file (Z.lor O_CREAT O_RDWR) MODE_RW_RW
                 (fw_open_file w)]
              ++ copy_calls (fw_reads w) (fw_open_template w) (fw_open_file w)).
  destruct (template_read (fw_reads w));
    [destruct (fw_chmod w <? 0)%Z; [|destruct (fw_chown w <? 0)%Z]|];
    cbn [pv_ret pv_calls].
  - right. split; [reflexivity|].
    exists (pre ++ [FsClose (fw_open_file w); FsClose (fw_open_template w);
                    FsChmod config_file MODE_RW_RW]).
    rewrite <- app_assoc. reflexivity.
  - right. split; [reflexivity|].
    exists (pre ++ [FsClose (fw_open_file w); FsClose (fw_open_template w);
                    FsChmod config_file MODE_RW_RW;
                    FsChown config_file AID_SYSTEM AID_WIFI]).
    rewrite <- app_assoc. reflexivity.
  - left. split; [reflexivity|]. split.
    + exists (pre ++ [FsClose (fw_open_file w); FsClose (fw_open_template w)]).
      rewrite <- app_assoc. reflexivity.
    + unfold pre. rewrite !existsb_app, Hu. reflexivity.
  - right. split; [reflexivity|].
    exists (pre ++ [FsClose (fw_open_template w); FsClose (fw_open_file w)]).
    rewrite <- app_assoc. reflexivity.
Qed.

Lemma config_file_complete_or_removed_witness :
  pv_calls
    (ensure_config_file_exists
       (mkFileWorld (Inaccessible ENOENT) 0 5 6 [ReadError] (fun _ => 0%Z) 0 0)
       SUPP_CONFIG_FILE)
  = [FsAccess SUPP_CONFIG_FILE 6;
     FsOpen SUPP_CONFIG_TEMPLATE 0 0 5;
     FsOpen SUPP_CONFIG_FILE 66 432 6;
     FsRead 5 2048; FsClose 5; FsClose 6; FsUnlink SUPP_CONFIG_FILE].
Proof.
  destruct (config_file_complete_or_removed
              (mkFileWorld (Inaccessible ENOENT) 0 5 6 [ReadError]
                 (fun _ => 0%Z) 0 0)
              SUPP_CONFIG_FILE) as [[H _]|[_ _]].
  - reflexivity.
  - cbn. lia.
  - cbn. lia.
  - discriminate H.
  - reflexivity.
Defined.

(** X19.  [ensure_config_file_exists] creates, writes or removes a file
    only when [access] failed with [ENOENT]: on any other error but
    [EACCES] it returns -1 after the one call of [access].
    [ensure_entropy_file_exists] has no such check: it leaves the file
    alone when [access] succeeded or failed with [EACCES], and goes on to
    create it on every other error. *)
Theorem files_touched_only_when_missing (w : file_world)
  (config_file : string) :
  (fw_access w <> Inaccessible ENOENT ->
   existsb fs_changes_files
     (pv_calls (ensure_config_file_exists w config_file)) = false /\
   pv_written (ensure_config_file_exists w config_file) = [])
  /\ (forall e, fw_access w = Inaccessible e -> e <> EACCES -> e <> ENOENT ->
      ensure_config_file_exists w config_file =
        mkProvision (-1) [FsAccess config_file (Z.lor R_OK W_OK)] [])
  /\ (fw_access w = Accessible \/ fw_access w = Inaccessible EACCES ->
      existsb fs_changes_files (pv_calls (ensure_entropy_file_exists w))
        = false /\
      pv_written (ensure_entropy_file_exists w) = [])
  /\ (forall e, fw_access w = Inaccessible e -> e <> EACCES ->
      existsb fs_changes_files (pv_calls (ensure_entropy_file_exists w))
        = true).
Proof.
  split; [|split; [|split]].
  - intros Hne. unfold ensure_config_file_exists.
    destruct (fw_access w) as [|e]; [split; reflexivity|].
    destruct (Z.eqb_spec e EACCES) as [Ee|Ee].
    { cbv zeta. destruct (negb (fw_chmod_rw w =? 0)%Z); split; reflexivity. }
    destruct (Z.eqb_spec e ENOENT) as [En|En]; [congruence|].
    split; reflexivity.
  - intros e Hacc Ee En. unfold ensure_config_file_exists. rewrite Hacc.
    apply Z.eqb_neq in Ee, En. rewrite Ee, En. reflexivity.
  - intros [Hacc|Hacc]; unfold ensure_entropy_file_exists; rewrite Hacc.
    + split; reflexivity.
    + cbn [Z.eqb EACCES]. cbv zeta.
      destruct (negb (fw_chmod_rw w =? 0)%Z); split; reflexivity.
  - intros e Hacc Ee. unfold ensure_entropy_file_exists. rewrite Hacc.
    apply Z.eqb_neq in Ee. rewrite Ee. cbv zeta.
    destruct (fw_open_file w <? 0)%Z; [reflexivity|].
    destruct (negb (fw_write w 0 =? Z.of_nat (length dummy_key))%Z);
      [reflexivity|].
    destruct (fw_chmod w <? 0)%Z; [reflexivity|].
    destruct (fw_chown w <? 0)%Z; reflexivity.
Qed.

Lemma files_touched_only_when_missing_witness :
  ensure_config_file_exists
    (mkFileWorld (Inaccessible 20) 0 5 6 [] (fun _ => 0%Z) 0 0)
    SUPP_CONFIG_FILE
  = mkProvision (-1) [FsAccess SUPP_CONFIG_FILE 6] []
  /\ existsb fs_changes_files
       (pv_calls (ensure_entropy_file_exists
                    (mkFileWorld (Inaccessible 20) 0 5 6 [] (fun _ => 0%Z) 0 0)))
     = true.
Proof.
  destruct (files_touched_only_when_missing
              (mkFileWorld (Inaccessible 20) 0 5 6 [] (fun _ => 0%Z) 0 0)
              SUPP_CONFIG_FILE) as (_ & H1 & _ & H2).
  split.
  - apply (H1 20%Z); [reflexivity | discriminate | discriminate].
  - apply (H2 20%Z); [reflexivity | discriminate].
Defined.

(** X20.  Once the entropy file has been opened for creation: a write
    of all 21 bytes of the key followed by a successful [chmod] and
    [chown] returns 0 with the key in the file; a write of anything else
    returns -1 and leaves what was written in place, since no [unlink]
    is made; a failing [chmod] or [chown] returns -1 with the file
    removed by the last call. *)
Theorem entropy_file_outcome (w : file_world) (e : Z) :
  fw_access w = Inaccessible e ->
  e <> EACCES ->
  (0 <= fw_open_file w)%Z ->
  let r := ensure_entropy_file_exists w in
  (fw_write w 0 <> 21%Z ->
   pv_ret r = (-1)%Z /\
   existsb is_fs_unlink (pv_calls r) = false /\
   pv_written r = firstn (Z.to_nat (fw_write w 0)) dummy_key)
  /\ (fw_write w 0 = 21%Z ->
      pv_written r = dummy_key /\
      (((fw_chmod w < 0)%Z \/ (fw_chown w < 0)%Z) ->
       pv_ret r = (-1)%Z /\
       exists before, pv_calls r = before ++ [FsUnlink kWiFiEntropyFile]) /\
      ((0 <= fw_chmod w)%Z -> (0 <= fw_chown w)%Z ->
       pv_ret r = 0%Z /\ existsb is_fs_unlink (pv_calls r) = false)).
Proof.
  intros Hacc Ee Hd. cbv zeta. unfold ensure_entropy_file_exists.
  rewrite Hacc. apply Z.eqb_neq in Ee. rewrite Ee. cbv zeta.
  apply Z.ltb_ge in Hd. rewrite Hd.
  change (Z.of_nat (length dummy_key)) with 21%Z.
  split.
  - intros Hw. apply Z.eqb_neq in Hw. rewrite Hw. cbn [negb].
    repeat split.
  - intros Hw. rewrite Hw. cbn [Z.eqb Pos.eqb negb].
    split; [|split].
    + destruct (fw_chmod w <? 0)%Z; [|destruct (fw_chown w <? 0)%Z];
        reflexivity.
    + intros Hfail.
      destruct (Z.ltb_spec (fw_chmod w) 0) as [Hm|Hm].
      * split; [reflexivity|]. eexists. cbn [pv_calls]. reflexivity.
      * destruct (Z.ltb_spec (fw_chown w) 0) as [Ho|Ho]; [|lia].
        split; [reflexivity|]. eexists. cbn [pv_calls]. reflexivity.
    + intros Hm Ho.
      destruct (Z.ltb_spec (fw_chmod w) 0); [lia|].
      destruct (Z.ltb_spec (fw_chown w) 0); [lia|].
      split; reflexivity.
Qed.

Lemma entropy_file_outcome_witness :
  pv_ret (ensure_entropy_file_exists
            (mkFileWorld (Inaccessible ENOENT) 0 5 6 [] (fun _ => 7%Z) 0 0))
    = (-1)%Z
  /\ existsb is_fs_unlink
       (pv_calls (ensure_entropy_file_exists
                    (mkFileWorld (Inaccessible ENOENT) 0 5 6 []
                       (fun _ => 7%Z) 0 0))) = false
  /\ pv_written (ensure_entropy_file_exists
                   (mkFileWorld (Inaccessible ENOENT) 0 5 6 []
                      (fun _ => 7%Z) 0 0))
     = firstn 7 dummy_key.
Proof.
  destruct (entropy_file_outcome
              (mkFileWorld (Inaccessible ENOENT) 0 5 6 [] (fun _ => 7%Z) 0 0)
              ENOENT) as [H _].
  - reflexivity.
  - discriminate.
  - cbn. lia.
  - apply H. cbn. discriminate.
Defined.

(** * What the start of the daemon leaves behind *)

Section StartFrame.

Lemma file_calls_fds (calls : list fs_call) (st : state) :
  open_fds (file_calls calls st) = held_after calls (open_fds st).
Proof.
  revert st. induction calls as [|c calls IH]; intros st; [reflexivity|].
  change (file_calls (c :: calls) st)
    with (file_calls calls (file_system c st)).
  rewrite IH. unfold held_after. cbn [fold_left]. f_equal.
  destruct c; cbn; try reflexivity.
  destruct (fd <? 0)%Z; reflexivity.
Qed.

Lemma held_after_app (a b : list fs_call) (fds : list Z) :
  held_after (a ++ b) fds = held_after b (held_after a fds).
Proof. unfold held_after. apply fold_left_app. Qed.

Lemma copy_calls_hold (reads : list read_outcome) (srcfd destfd : Z)
  (fds : list Z) :
  held_after (copy_calls reads srcfd destfd) fds = fds.
Proof.
  induction reads as [|r reads IH]; [reflexivity|].
  destruct r as [data|]; [|reflexivity].
  cbn [copy_calls]. destruct (firstn 2048 data); [reflexivity|].
  exact IH.
Qed.

Lemma release_pair (a b : Z) (fds : list Z) :
  release_fd b (release_fd a (b :: a :: fds)) = fds.
Proof.
  cbn [release_fd]. destruct (Z.eqb_spec b a) as [E|E].
  - subst. cbn [release_fd]. rewrite Z.eqb_refl. reflexivity.
  - rewrite Z.eqb_refl. cbn [release_fd]. rewrite Z.eqb_refl. reflexivity.
Qed.

(** What [ensure_config_file_exists] opens it closes, on every path. *)
Lemma config_calls_balanced (w : file_world) (config_file : string)
  (fds : list Z) :
  held_after (pv_calls (ensure_config_file_exists w config_file)) fds = fds.
Proof.
  destruct (fw_access w) as [|e] eqn:Hacc.
  { unfold ensure_config_file_exists. rewrite Hacc. reflexivity. }
  destruct (Z.eqb_spec e EACCES) as [Ee|Ee].
  { unfold ensure_config_file_exists. rewrite Hacc. subst e. cbn.
    destruct (fw_chmod_rw w =? 0)%Z; reflexivity. }
  destruct (Z.eqb_spec e ENOENT) as [En|En].
  2:{ unfold ensure_config_file_exists. rewrite Hacc.
      apply Z.eqb_neq in Ee, En. rewrite Ee, En. reflexivity. }
  subst e.
  destruct (Z.ltb_spec (fw_open_template w) 0) as [Hs|Hs].
  { unfold ensure_config_file_exists. rewrite Hacc. cbn.
    apply Z.ltb_lt in Hs. rewrite Hs. cbn. rewrite Hs. reflexivity. }
  destruct (Z.ltb_spec (fw_open_file w) 0) as [Hd|Hd].
  { unfold ensure_config_file_exists. rewrite Hacc. cbn.
    apply Z.ltb_ge in Hs. apply Z.ltb_lt in Hd. rewrite Hs, Hd. cbn.
    rewrite Hs, Hd. cbn [release_fd]. rewrite Z.eqb_refl. reflexivity. }
  destruct (config_file_copied w config_file Hacc Hs Hd)
    as (stored & Hrun & _).
  rewrite Hrun.
  apply Z.ltb_ge in Hs, Hd.
  assert (Hboth : forall tail,
    held_after
      (([FsAccess config_file (Z.lor R_OK W_OK);
         FsOpen SUPP_CONFIG_TEMPLATE O_RDONLY 0 (fw_open_template w);
         FsOpen config_file (Z.lor O_CREAT O_RDWR) MODE_RW_RW (fw_open_file w)]
        ++ copy_calls (fw_reads w) (fw_open_template w) (fw_open_file w))
       ++ tail) fds =
    held_after tail (fw_open_file w :: fw_open_template w :: fds)).
  { intros tail. rewrite !held_after_app, copy_calls_hold.
    f_equal. unfold held_after. cbn [fold_left]. rewrite Hs, Hd. reflexivity. }
  destruct (template_read (fw_reads w));
    [destruct (fw_chmod w <? 0)%Z; [|destruct (fw_chown w <? 0)%Z]|];
    cbn [pv_calls]; rewrite Hboth; unfold held_after; cbn [fold_left];
    first [ apply release_pair
          | cbn [release_fd]; rewrite Z.eqb_refl; cbn [release_fd];
            rewrite Z.eqb_refl; reflexivity ].
Qed.

(** What [ensure_entropy_file_exists] opens it closes, on every path. *)
Lemma entropy_calls_balanced (w : file_world) (fds : list Z) :
  held_after (pv_calls (ensure_entropy_file_exists w)) fds = fds.
Proof.
  unfold ensure_entropy_file_exists.
  destruct (fw_access w) as [|e]; [reflexivity|].
  destruct (e =? EACCES)%Z.
  { cbn. destruct (fw_chmod_rw w =? 0)%Z; reflexivity. }
  cbv zeta.
  destruct (fw_open_file w <? 0)%Z eqn:Hd.
  { cbn. rewrite Hd. reflexivity. }
  destruct (negb (fw_write w 0 =? Z.of_nat (length dummy_key))%Z);
    [|destruct (fw_chmod w <? 0)%Z; [|destruct (fw_chown w <? 0)%Z]];
    cbn; rewrite Hd; cbn; rewrite Z.eqb_refl; reflexivity.
Qed.

Lemma provisioning_balanced (w : start_world) (fds : list Z) :
  held_after (config_calls w) fds = fds /\
  held_after (provisioning_calls w) fds = fds.
Proof.
  unfold provisioning_calls, config_calls.
  rewrite !held_after_app, !config_calls_balanced, entropy_calls_balanced.
  split; reflexivity.
Qed.

Lemma file_calls_quiet (calls : list fs_call) :
  existsb touches_channel (map FileSystem calls) = false.
Proof. induction calls as [|c calls IH]; [reflexivity | exact IH]. Qed.

Lemma sleeps_quiet (m : nat) :
  existsb touches_channel (repeat (Usleep 100000) m) = false.
Proof. induction m as [|m IH]; [reflexivity | exact IH]. Qed.

Lemma start_wait_frame (w : start_world) (serial : Z) (count : nat) :
  forall (pi : bool) (k : nat) (st : state),
    let st' := snd (start_wait w serial pi count k st) in
    exit_sockets st' = exit_sockets st /\
    ctrl_conn st' = ctrl_conn st /\
    monitor_conn st' = monitor_conn st /\
    primary_iface st' = primary_iface st /\
    open_handles st' = open_handles st /\
    open_fds st' = open_fds st /\
    exit_pending st' = exit_pending st /\
    exists m, trace st' = trace st ++ repeat (Usleep 100000) m.
Proof.
  induction count as [|count IH]; intros pi k st; cbn [start_wait].
  - do 7 (split; [reflexivity|]). exists 0. cbn. rewrite app_nil_r. reflexivity.
  - assert (Hstop : forall r : Z,
      let st' := snd (r, st) in
      exit_sockets st' = exit_sockets st /\
      ctrl_conn st' = ctrl_conn st /\
      monitor_conn st' = monitor_conn st /\
      primary_iface st' = primary_iface st /\
      open_handles st' = open_handles st /\
      open_fds st' = open_fds st /\
      exit_pending st' = exit_pending st /\
      exists m, trace st' = trace st ++ repeat (Usleep 100000) m).
    { intros r. do 7 (split; [reflexivity|]). exists 0. cbn.
      rewrite app_nil_r. reflexivity. }
    assert (Hnext :
      let st' := snd (start_wait w serial
                        (if pi then true
                         else prop_found (sw_status_at_pass w k))
                        count (S k) (log (Usleep 100000) st)) in
      exit_sockets st' = exit_sockets st /\
      ctrl_conn st' = ctrl_conn st /\
      monitor_conn st' = monitor_conn st /\
      primary_iface st' = primary_iface st /\
      open_handles st' = open_handles st /\
      open_fds st' = open_fds st /\
      exit_pending st' = exit_pending st /\
      exists m, trace st' = trace st ++ repeat (Usleep 100000) m).
    { destruct (IH (if pi then true else prop_found (sw_status_at_pass w k))
                  (S k) (log (Usleep 100000) st))
        as (H1 & H2 & H3 & H4 & H5 & H6 & H7 & m & H8).
      cbv zeta. rewrite H1, H2, H3, H4, H5, H6, H7, H8.
      do 7 (split; [reflexivity|]). exists (S m).
      cbn [trace log repeat]. rewrite <- app_assoc. reflexivity. }
    destruct (if pi then true else prop_found (sw_status_at_pass w k));
      [|exact Hnext].
    destruct (negb (prop_serial (sw_status_at_pass w k) =? serial)%Z);
      [|exact Hnext].
    destruct (strcmp_eq (prop_value (sw_status_at_pass w k)) "running");
      [apply Hstop|].
    destruct (strcmp_eq (prop_value (sw_status_at_pass w k)) "stopped");
      [apply Hstop | exact Hnext].
Qed.

End StartFrame.

(** X13.  [wifi_start_supplicant] returns with the connections and the
    descriptors it was called with, on every path: the descriptors it
    opens are those of the files it provides, and each is closed again
    before the start is asked for; it makes no call on the control
    channel or on the exit pair, and leaves the bytes in the pair alone.
    When it goes on to ask for the start it sets the exit pair to
    [(-1, -1)] without closing it, so that a following
    [wifi_close_sockets] closes no descriptor. *)
Theorem start_keeps_connections_and_descriptors (w : start_world)
  (st : state) :
  let st' := snd (wifi_start_supplicant w st) in
  ctrl_conn st' = ctrl_conn st /\
  monitor_conn st' = monitor_conn st /\
  open_handles st' = open_handles st /\
  open_fds st' = open_fds st /\
  exit_pending st' = exit_pending st /\
  (exists made,
     trace st' = trace st ++ made /\
     existsb touches_channel made = false /\
     held_after (file_system_calls made) (open_fds st) = open_fds st) /\
  (already (sw_status_at_entry w) "running" = false ->
   (0 <= sw_config_file w)%Z ->
   exit_sockets st' = ((-1)%Z, (-1)%Z) /\
   open_fds (wifi_close_sockets st') = open_fds st).
Proof.
  cbv zeta.
  assert (Hcalls : forall calls rest,
            file_system_calls (map FileSystem calls ++ rest) =
            calls ++ file_system_calls rest).
  { intros calls rest. induction calls as [|c calls IH]; [reflexivity|].
    cbn [map app file_system_calls]. rewrite IH. reflexivity. }
  assert (Hsleeps : forall m,
            file_system_calls (repeat (Usleep 100000) m) = []).
  { intros m. induction m as [|m IH]; [reflexivity | exact IH]. }
  destruct (already (sw_status_at_entry w) "running") eqn:Hrun.
  - assert (E : wifi_start_supplicant w st = (0%Z, st)).
    { unfold wifi_start_supplicant, already in *.
      destruct (property_get (sw_status_at_entry w) EmptyString) as [len v].
      cbn [fst snd] in Hrun. rewrite Hrun. reflexivity. }
    rewrite E. cbn [snd]. do 5 (split; [reflexivity|]). split.
    + exists []. rewrite app_nil_r. repeat split.
    + intros H. discriminate H.
  - destruct (Z.ltb_spec (sw_config_file w) 0) as [Hcfg|Hcfg].
    + assert (E : wifi_start_supplicant w st =
                  ((-1)%Z, file_calls (config_calls w) st)).
      { unfold wifi_start_supplicant, already in *.
        destruct (property_get (sw_status_at_entry w) EmptyString) as [len v].
        cbn [fst snd] in Hrun. rewrite Hrun. cbv zeta.
        change (pv_ret (ensure_config_file_exists (sw_config_files w)
                          SUPP_CONFIG_FILE)) with (sw_config_file w).
        destruct (Z.ltb_spec (sw_config_file w) 0); [reflexivity | lia]. }
      rewrite E. cbn [snd].
      destruct (file_calls_frame (config_calls w) st)
        as (_ & F2 & F3 & _ & F5 & F7 & F8).
      destruct (provisioning_balanced w (open_fds st)) as [Hb _].
      split; [exact F2|]. split; [exact F3|]. split; [exact F5|].
      split; [rewrite file_calls_fds; exact Hb|]. split; [exact F7|]. split.
      * exists (map FileSystem (config_calls w)).
        split; [exact F8|]. split; [apply file_calls_quiet|].
        rewrite <- (app_nil_r (map FileSystem (config_calls w))), Hcalls.
        cbn [file_system_calls]. rewrite app_nil_r. exact Hb.
      * intros _ H. lia.
    + rewrite start_enters_wait by assumption.
      destruct (start_wait_frame w (recorded_serial w) 200
                  (reference_held w 0) 0 (start_issued w st))
        as (F1 & F2 & F3 & F4 & F5 & F6 & F7 & m & F8).
      set (st' := snd (start_wait w (recorded_serial w) (reference_held w 0)
                         200 0 (start_issued w st))) in *.
      destruct (file_calls_frame (provisioning_calls w) st)
        as (_ & P2 & P3 & _ & P5 & P7 & P8).
      destruct (provisioning_balanced w (open_fds st)) as [_ Hb].
      unfold start_issued in F1, F2, F3, F5, F6, F7, F8.
      cbn [exit_sockets ctrl_conn monitor_conn open_handles open_fds
           exit_pending trace log set_primary_iface set_exit_sockets]
        in F1, F2, F3, F5, F6, F7, F8.
      rewrite file_calls_fds, Hb in F6.
      rewrite P2 in F2. rewrite P3 in F3. rewrite P5 in F5. rewrite P7 in F7.
      rewrite P8 in F8.
      split; [exact F2|]. split; [exact F3|]. split; [exact F5|].
      split; [exact F6|]. split; [exact F7|]. split.
      * exists (map FileSystem (provisioning_calls w)
                  ++ [WpaCtrlCleanup;
                      PropertySet "ctl.start" SUPPLICANT_SERVICE_NAME;
                      SchedYield]
                  ++ repeat (Usleep 100000) m).
        split; [|split].
        -- rewrite F8. repeat (rewrite <- app_assoc; cbn [app]). reflexivity.
        -- rewrite existsb_app, file_calls_quiet. cbn [orb app existsb touches_channel].
           apply sleeps_quiet.
        -- rewrite Hcalls. cbn [app file_system_calls].
           rewrite Hsleeps, app_nil_r. exact Hb.
      * intros _ _. split; [exact F1|].
        unfold wifi_close_sockets. cbv zeta.
        pose proof (handles_closed st') as H. cbv zeta in H.
        set (st2 := match monitor_conn _ with
                    | Some h => _
                    | None => _
                    end) in *.
        destruct H as (_ & _ & He & Hf).
        rewrite He, F1. cbn [fst snd Z.geb Z.compare].
        rewrite He, F1. cbn [fst snd Z.geb Z.compare].
        rewrite Hf. exact F6.
Qed.

Lemma start_keeps_connections_and_descriptors_witness :
  open_fds
    (wifi_close_sockets
       (snd (wifi_start_supplicant
               (mkStartWorld (status "stopped") file_copied file_present
                  file_missing (status "stopped") (status "wlan0")
                  (fun _ => mkProperty true 2 "running"))
               connected_wlan0)))
  = [3%Z; 4%Z].
Proof.
  destruct (start_keeps_connections_and_descriptors
              (mkStartWorld (status "stopped") file_copied file_present
                 file_missing (status "stopped") (status "wlan0")
                 (fun _ => mkProperty true 2 "running"))
              connected_wlan0) as (_ & _ & _ & _ & _ & _ & H).
  destruct H as [_ H].
  - reflexivity.
  - vm_compute. discriminate.
  - exact H.
Defined.

(** X14.  A start that is asked for records the interface: the value of
    [wifi.interface], or ["sta"] when that property is absent or empty.
    [wifi_connect_to_supplicant] then connects on the path of this
    interface, under [/data/system/wpa_supplicant] when that directory
    exists and in the abstract name space otherwise. *)
Theorem start_records_interface_for_connect (w : start_world) (st : state)
  (iface_dir_exists : bool) (cw : connect_world) :
  already (sw_status_at_entry w) "running" = false ->
  (0 <= sw_config_file w)%Z ->
  let st' := snd (wifi_start_supplicant w st) in
  primary_iface st' = chars (interface_of w)
  /\ wifi_connect_to_supplicant iface_dir_exists cw st' =
     wifi_connect_on_socket_path cw
       (if iface_dir_exists
        then ("/data/system/wpa_supplicant/" ++ interface_of w)%string
        else ("@android:wpa_" ++ interface_of w)%string)
       st'
  /\ (prop_found (sw_wifi_interface w) = false \/
      prop_value (sw_wifi_interface w) = EmptyString ->
      interface_of w = "sta"%string)
  /\ (prop_found (sw_wifi_interface w) = true ->
      prop_value (sw_wifi_interface w) <> EmptyString ->
      interface_of w = prop_value (sw_wifi_interface w)).
Proof.
  intros Hrun Hcfg. cbv zeta.
  assert (Hif : primary_iface (snd (wifi_start_supplicant w st)) =
                chars (interface_of w)).
  { rewrite start_enters_wait by assumption.
    destruct (start_wait_frame w (recorded_serial w) 200
                (reference_held w 0) 0 (start_issued w st))
      as (_ & _ & _ & F4 & _).
    rewrite F4. reflexivity. }
  split; [exact Hif|]. split; [|split].
  - unfold wifi_connect_to_supplicant. rewrite Hif. unfold chars.
    rewrite string_of_list_ascii_of_string.
    destruct iface_dir_exists; reflexivity.
  - unfold interface_of, property_get.
    intros [H|H]; rewrite H; [reflexivity|].
    destruct (prop_found (sw_wifi_interface w)); reflexivity.
  - unfold interface_of, property_get. intros Hf Hv. rewrite Hf.
    destruct (prop_value (sw_wifi_interface w)) as [|c v]; [congruence|].
    reflexivity.
Qed.

Lemma start_records_interface_for_connect_witness :
  primary_iface
    (snd (wifi_start_supplicant
            (mkStartWorld (status "stopped") file_present file_present
               file_present (status "stopped")
               (mkProperty false 0 EmptyString)
               (fun _ => mkProperty true 2 "running"))
            disconnected))
  = chars "sta".
Proof.
  destruct (start_records_interface_for_connect
              (mkStartWorld (status "stopped") file_present file_present
                 file_present (status "stopped")
                 (mkProperty false 0 EmptyString)
                 (fun _ => mkProperty true 2 "running"))
              disconnected true
              (mkConnectWorld (status "running") None None 0 None))
    as [H _].
  - reflexivity.
  - vm_compute. discriminate.
  - exact H.
Defined.
